(** * The data-access layer of [src/dao/dao_api.go]

    A shallow embedding of the [dao] package's CRUD, query, blob and
    reference-resolution functions, and the properties of them that the
    specification states.

    The package is a thin layer over the mgo driver.  Its functions are
    embedded as programs over two kinds of primitive steps:

    - operations on Go maps that the code mutates in place (the update map
      of [UpdateDoc], the field map of [DBRef] and [DBRefId], the map that
      [SoftRemoveDoc] fills): these maps live in a heap and are passed by
      address, so that what the caller sees after the call is the heap;
    - calls that leave the package: the mgo session, collection, query and
      GridFS methods, [bson.NewObjectId] and the package's [Now] helper,
      which is defined in another file.  A program is run against a
      handler that answers these calls; the run records every call.

    A map that the code only reads (a selector, a nested object) is
    represented by its contents. *)

From Stdlib Require Import ZArith String Ascii List Bool.
From stdpp Require Import base option gmap strings list fin_maps.

#[local] Set Warnings "-register-all".
#[local] Open Scope string_scope.
#[local] Open Scope Z_scope.

(** ** Go values held in an [interface{}] *)

(** [bson.ObjectId] is [type ObjectId string]: twelve raw bytes. *)
Definition ObjectId := string.

Inductive value : Type :=
| VNil                                   (* the nil interface *)
| VBool (b : bool)                       (* bool *)
| VInt (n : Z)                           (* int *)
| VFloat64 (bits : Z)                    (* float64, by its bit pattern *)
| VString (s : string)                   (* string *)
| VObjectId (id : ObjectId)              (* bson.ObjectId *)
| VM (m : gmap string value)             (* bson.M *)
| VMap (m : gmap string value)           (* map[string]interface{} *)
| VD (l : list (string * value))         (* bson.D *)
| VSlice (l : list value)                (* []interface{} *)
| VDBRef (Collection : string) (Id : value) (Database : string)
                                         (* mgo.DBRef *)
| VChange (Update : value) (Upsert Remove ReturnNew : bool).
                                         (* mgo.Change *)

(** [reflect.Kind], as far as the values above need it. *)
Inductive Kind : Type :=
| KBool | KInt | KFloat64 | KString | KMap | KSlice | KStruct.

(** [reflect.TypeOf(v)]: [nil] for the nil interface, else a type of which
    only the kind and whether it is exactly [string] matter here. *)
Definition TypeOf_Kind (v : value) : option Kind :=
  match v with
  | VNil => None
  | VBool _ => Some KBool
  | VInt _ => Some KInt
  | VFloat64 _ => Some KFloat64
  | VString _ => Some KString
  | VObjectId _ => Some KString
  | VM _ | VMap _ => Some KMap
  | VD _ | VSlice _ => Some KSlice
  | VDBRef _ _ _ | VChange _ _ _ _ => Some KStruct
  end.

Definition Kind_eqb (a b : Kind) : bool :=
  match a, b with
  | KBool, KBool | KInt, KInt | KFloat64, KFloat64 | KString, KString
  | KMap, KMap | KSlice, KSlice | KStruct, KStruct => true
  | _, _ => false
  end.

(** The type assertion [v.(string)] without the comma-ok form: [None]
    stands for the run-time panic of a failed assertion. *)
Definition assert_string (v : value) : option string :=
  match v with
  | VString s => Some s
  | _ => None
  end.

(** A type descriptor, [reflect.Type], by its [Name()]. *)
Record reflect_Type : Type := { Name_of : string }.

(** ** Errors *)

(** Go's [error] values of this package and of the driver.  [Errorf] keeps
    the format string and its argument apart instead of formatting them. *)
Inductive error : Type :=
| errNull                                (* "the interface is nil" *)
| errUnSupportType                       (* "unsupported type(only support bson.ObjectId or bson.M)" *)
| ErrNotFound                            (* mgo.ErrNotFound *)
| Errorf (format : string) (arg : value) (* fmt.Errorf(format, arg) *)
| DriverError (msg : string).            (* any other error of the driver *)

(** ** Handles of the driver *)

Definition session := nat.
Definition gridfile := nat.

Record Collection : Type := C
  { co_session : session; co_db : string; co_name : string }.

Record GridFS : Type := MkGridFS
  { gfs_session : session; gfs_db : string; gfs_prefix : string }.

(** [mgo.Index]; the fields the package leaves at their zero value are
    omitted. *)
Record Index : Type := MkIndex
  { Key : list string;
    Unique : bool;
    DropDups : bool;
    Background : bool;
    Sparse : bool }.

(** [mgo.ChangeInfo]. *)
Record ChangeInfo : Type := MkChangeInfo
  { Updated : Z; Removed : Z; Matched : Z; UpsertedId : value }.

(** A [*mgo.Query] is built by a chain of calls; the handle is that
    chain. *)
Inductive Query : Type :=
| C_Find (co : Collection) (query : value)      (* co.Find(query) *)
| C_FindId (co : Collection) (id : value)       (* co.FindId(id) *)
| Q_Sort (q : Query) (fields : list string)     (* q.Sort(fields...) *)
| Q_Skip (q : Query) (n : Z)                    (* q.Skip(n) *)
| Q_Limit (q : Query) (n : Z).                  (* q.Limit(n) *)

(** ** Calls that leave the package *)

Inductive cmd : Type :=
| S_Copy (s : session)                                   (* s.Copy() *)
| S_Close (s : session)                                  (* s.Close() *)
| Now                                                    (* Now() *)
| NewObjectId                                            (* bson.NewObjectId() *)
| C_EnsureIndex (co : Collection) (index : Index)        (* co.EnsureIndex(index) *)
| C_Insert (co : Collection) (docs : value)              (* co.Insert(docs) *)
| C_Upsert (co : Collection) (selector update : value)   (* co.Upsert(selector, update) *)
| C_UpsertId (co : Collection) (id update : value)       (* co.UpsertId(id, update) *)
| C_Remove (co : Collection) (selector : value)          (* co.Remove(selector) *)
| C_RemoveId (co : Collection) (id : value)              (* co.RemoveId(id) *)
| C_Update (co : Collection) (selector update : value)   (* co.Update(selector, update) *)
| C_UpdateId (co : Collection) (id update : value)       (* co.UpdateId(id, update) *)
| Q_Apply (q : Query) (change : value)                   (* q.Apply(change, &i) *)
| Q_Count (q : Query)                                    (* q.Count() *)
| Q_One (q : Query)                                      (* q.One(&result) *)
| Q_All (q : Query)                                      (* q.All(&results) *)
| G_Create (gfs : GridFS) (name : string)                (* gfs.Create(name) *)
| F_SetId (f : gridfile) (id : ObjectId)                 (* fs.SetId(id) *)
| F_Write (f : gridfile) (data : string)                 (* fs.Write(data) *)
| F_Close (f : gridfile).                                (* fs.Close() *)

(** What each call hands back.  An [error] result is [option error], [None]
    for Go's [nil]; a call that fills a pointer argument hands back what it
    wrote there. *)
Definition ans (c : cmd) : Type :=
  match c with
  | S_Copy _ => session
  | S_Close _ => unit
  | Now => value
  | NewObjectId => ObjectId
  | C_EnsureIndex _ _ | C_Insert _ _ => option error
  | C_Upsert _ _ _ | C_UpsertId _ _ _ | Q_Apply _ _ =>
      (option ChangeInfo * option error)%type
  | C_Remove _ _ | C_RemoveId _ _ | C_Update _ _ _ | C_UpdateId _ _ _ =>
      option error
  | Q_Count _ => (Z * option error)%type
  | Q_One _ => (value * option error)%type
  | Q_All _ => (list value * option error)%type
  | G_Create _ _ => (gridfile * option error)%type
  | F_SetId _ _ => unit
  | F_Write _ _ => (Z * option error)%type
  | F_Close _ => option error
  end.

(** A call is a database read or write when it reaches a collection, a
    query or a stored file; copying and closing a session, reading the
    clock and making an identifier are not. *)
Definition is_db (c : cmd) : bool :=
  match c with
  | S_Copy _ | S_Close _ | Now | NewObjectId => false
  | _ => true
  end.

(** ** Go maps in the heap *)

Definition loc := nat.

(** A map value is [nil] or the address of a map object. *)
Inductive mapref : Type :=
| NilMap
| MapAt (l : loc).

Abbreviation heap := (gmap loc (gmap string value)).

Inductive memop : Type :=
| MapMake                                         (* bson.M{} *)
| MapIndex (m : mapref) (k : string)              (* v, ok := m[k] *)
| MapDelete (m : mapref) (k : string)             (* delete(m, k) *)
| MapAssign (l : loc) (k : string) (v : value)    (* m[k] = v, m not nil *)
| MapRead (m : mapref).                           (* the entries of m, as marshalled *)

Definition mem_ans (o : memop) : Type :=
  match o with
  | MapMake => mapref
  | MapIndex _ _ => option value
  | MapDelete _ _ => unit
  | MapAssign _ _ _ => unit
  | MapRead _ => gmap string value
  end.

(** The entries of a map; a nil map and an address without an object have
    none. *)
Definition map_entries (h : heap) (m : mapref) : gmap string value :=
  match m with
  | NilMap => ∅
  | MapAt l => default ∅ (h !! l)
  end.

(** One step on the heap.  Reading and deleting from a nil map are legal
    in Go and find, respectively do, nothing. *)
Definition mem_step (o : memop) (h : heap) : mem_ans o * heap :=
  match o return mem_ans o * heap with
  | MapMake => let l := fresh (dom h) in (MapAt l, <[l := ∅]> h)
  | MapIndex m k => (map_entries h m !! k, h)
  | MapDelete m k =>
      match m with
      | NilMap => (tt, h)
      | MapAt l => (tt, alter (delete k) l h)
      end
  | MapAssign l k v => (tt, alter (<[k := v]>) l h)
  | MapRead m => (map_entries h m, h)
  end.

(** ** Programs *)

Inductive Prog (R : Type) : Type :=
| Ret (r : R)
| Panic (msg : string)
| Mem (o : memop) (k : mem_ans o -> Prog R)
| Call (c : cmd) (k : ans c -> Prog R).

Arguments Ret {R} r.
Arguments Panic {R} msg.
Arguments Mem {R} o k.
Arguments Call {R} c k.

Fixpoint bind {A B : Type} (p : Prog A) (f : A -> Prog B) : Prog B :=
  match p with
  | Ret a => f a
  | Panic msg => Panic msg
  | Mem o k => Mem o (fun x => bind (k x) f)
  | Call c k => Call c (fun x => bind (k x) f)
  end.

#[export] Instance Prog_ret : MRet Prog := @Ret.
#[export] Instance Prog_bind : MBind Prog := fun A B f p => bind p f.

Definition mem (o : memop) : Prog (mem_ans o) := Mem o Ret.
Definition call (c : cmd) : Prog (ans c) := Call c Ret.

(** [defer cleanup; body]: Go runs a deferred call when the function
    returns and also when it panics, and then goes on returning or
    panicking. *)
Fixpoint defer {R : Type} (cleanup : Prog unit) (body : Prog R) : Prog R :=
  match body with
  | Ret r => bind cleanup (fun _ => Ret r)
  | Panic msg => bind cleanup (fun _ => Panic msg)
  | Mem o k => Mem o (fun x => defer cleanup (k x))
  | Call c k => Call c (fun x => defer cleanup (k x))
  end.

(** The run-time panics that the code of this file can raise. *)
Definition nil_dereference : string :=
  "invalid memory address or nil pointer dereference".
Definition nil_map_assignment : string :=
  "assignment to entry in nil map".
Definition interface_conversion : string :=
  "interface conversion: interface {} is not string".
Definition invalid_ObjectIdHex : string :=
  "invalid input to ObjectIdHex".

(** [m[k] = v]: a panic on a nil map. *)
Definition map_assign (m : mapref) (k : string) (v : value) : Prog unit :=
  match m with
  | NilMap => Panic nil_map_assignment
  | MapAt l => mem (MapAssign l k v)
  end.

(** ** Running a program *)

Inductive outcome (R : Type) : Type :=
| Returned (r : R)
| Panicked (msg : string).

Arguments Returned {R} r.
Arguments Panicked {R} msg.

(** The state of a run: the heap, the state of whatever answers the calls,
    and the calls made so far, oldest first. *)
Record world (S : Type) : Type := World
  { w_heap : heap; w_env : S; w_trace : list cmd }.

Arguments World {S} w_heap w_env w_trace.
Arguments w_heap {S} w.
Arguments w_env {S} w.
Arguments w_trace {S} w.

(** A handler answers every call from its state. *)
Definition handler (S : Type) : Type := forall c : cmd, S -> ans c * S.

Fixpoint run {S R : Type} (h : handler S) (p : Prog R) (w : world S)
  : outcome R * world S :=
  match p with
  | Ret r => (Returned r, w)
  | Panic msg => (Panicked msg, w)
  | Mem o k =>
      let (a, hp) := mem_step o (w_heap w) in
      run h (k a) (World hp (w_env w) (w_trace w))
  | Call c k =>
      let (a, s) := h c (w_env w) in
      run h (k a) (World (w_heap w) s (w_trace w ++ [c])%list)
  end.

(** ** Helpers of the standard library and of bson *)

(** [encoding/hex]: the value of one hexadecimal digit, either case. *)
Definition fromHexChar (c : ascii) : option N :=
  let n := N_of_ascii c in
  if ((48 <=? n) && (n <=? 57))%N then Some (n - 48)%N
  else if ((97 <=? n) && (n <=? 102))%N then Some (n - 97 + 10)%N
  else if ((65 <=? n) && (n <=? 70))%N then Some (n - 65 + 10)%N
  else None.

(** [hex.DecodeString]: [None] for a string of odd length or with a
    character that is no hexadecimal digit. *)
Fixpoint hex_DecodeString (s : string) : option string :=
  match s with
  | EmptyString => Some EmptyString
  | String _ EmptyString => None
  | String a (String b rest) =>
      match fromHexChar a, fromHexChar b, hex_DecodeString rest with
      | Some hi, Some lo, Some tl =>
          Some (String (ascii_of_N (hi * 16 + lo)) tl)
      | _, _, _ => None
      end
  end.

(** The strings made of hexadecimal digits only. *)
Definition is_hex_digit (c : ascii) : bool :=
  match fromHexChar c with
  | Some _ => true
  | None => false
  end.

Fixpoint all_hex (s : string) : bool :=
  match s with
  | EmptyString => true
  | String c rest => is_hex_digit c && all_hex rest
  end.

(** [bson.IsObjectIdHex]. *)
Definition IsObjectIdHex (s : string) : bool :=
  if negb (String.length s =? 24)%nat then false
  else match hex_DecodeString s with
       | Some _ => true
       | None => false
       end.

(** [bson.ObjectIdHex]; [None] is its panic on invalid input. *)
Definition ObjectIdHex (s : string) : option ObjectId :=
  match hex_DecodeString s with
  | Some d => if (String.length d =? 12)%nat then Some d else None
  | None => None
  end.

(** [hex.EncodeToString]: two lower-case digits for each byte. *)
Definition hex_digit (n : N) : ascii :=
  if (n <? 10)%N then ascii_of_N (48 + n) else ascii_of_N (87 + n).

Fixpoint hex_EncodeToString (s : string) : string :=
  match s with
  | EmptyString => EmptyString
  | String c rest =>
      let n := N_of_ascii c in
      String (hex_digit (n / 16)) (String (hex_digit (n mod 16))
        (hex_EncodeToString rest))
  end.

(** [ObjectId.Hex]. *)
Definition Hex (id : ObjectId) : string := hex_EncodeToString id.

(** [strings.ToLower], on ASCII letters; other bytes are kept. *)
Definition lower_ascii (c : ascii) : ascii :=
  let n := N_of_ascii c in
  if ((65 <=? n) && (n <=? 90))%N then ascii_of_N (n + 32) else c.

Fixpoint ToLower (s : string) : string :=
  match s with
  | EmptyString => EmptyString
  | String c rest => String (lower_ascii c) (ToLower rest)
  end.

(** ** The Dao object and its operations *)

Record Dao : Type := MkDao
  { Name : string;        (* database name *)
    Session : session;    (* connection pool *)
    PrefixFS : string }.  (* GridFS prefix *)

Record Page : Type := MkPage
  { Valid : bool; Offset : Z; Limit : Z }.

(** [x == nil] for an [interface{}]. *)
Definition is_nil (v : value) : bool :=
  match v with
  | VNil => true
  | _ => false
  end.

Definition sessionCopy (d : Dao) : Prog session := call (S_Copy (Session d)).

Definition CreateDoc (d : Dao) (collection : string) (docs : value)
    (idxKeys : list string) : Prog (option error) :=
  session ← sessionCopy d;
  defer (call (S_Close session)) (
    let co := C session (Name d) collection in
    let idxKeys :=
      if (List.length idxKeys =? 0)%nat then (idxKeys ++ ["-create_at"])%list
      else idxKeys in
    let index :=
      {| Key := idxKeys; Unique := true; DropDups := true;
         Background := true; Sparse := true |} in
    err ← call (C_EnsureIndex co index);
    match err with
    | Some e => mret (Some e)
    | None => call (C_Insert co docs)
    end).

Definition UpsertDoc (d : Dao) (collection : string) (selector update : value)
  : Prog (option ChangeInfo * option error) :=
  session ← sessionCopy d;
  defer (call (S_Close session)) (
    let co := C session (Name d) collection in
    if is_nil selector then mret (None, Some errNull)
    else match selector with
    | VM m =>
        match update with
        | VChange _ _ _ _ => call (Q_Apply (C_Find co (VM m)) update)
        | _ => call (C_Upsert co (VM m) update)
        end
    | VObjectId id =>
        match update with
        | VChange _ _ _ _ => call (Q_Apply (C_FindId co (VObjectId id)) update)
        | _ => call (C_UpsertId co (VObjectId id) update)
        end
    | _ => mret (None, Some errUnSupportType)
    end).

Definition RemoveDoc (d : Dao) (collection : string) (selector : value)
  : Prog (option error) :=
  session ← sessionCopy d;
  defer (call (S_Close session)) (
    let co := C session (Name d) collection in
    if is_nil selector then mret (Some errNull)
    else match selector with
    | VM m => call (C_Remove co (VM m))
    | VObjectId id => call (C_RemoveId co (VObjectId id))
    | _ => mret (Some errUnSupportType)
    end).

(** The map literal [bson.M{"$set": update}], as the driver reads it when
    it is called. *)
Definition set_document (fields : gmap string value) : value :=
  VM {[ "$set" := VM fields ]}.

Definition SoftRemoveDoc (d : Dao) (collection : string) (selector : value)
  : Prog (option error) :=
  session ← sessionCopy d;
  defer (call (S_Close session)) (
    let co := C session (Name d) collection in
    if is_nil selector then mret (Some errNull)
    else
      update ← mem MapMake;
      t ← call Now; map_assign update "modify_at" t;;
      t ← call Now; map_assign update "delete_at" t;;
      map_assign update "is_delete" (VBool true);;
      match selector with
      | VM m =>
          u ← mem (MapRead update);
          call (C_Update co (VM m) (set_document u))
      | VObjectId id =>
          u ← mem (MapRead update);
          call (C_UpdateId co (VObjectId id) (set_document u))
      | _ => mret (Some errUnSupportType)
      end).

Definition UpdateDoc (d : Dao) (collection : string) (selector : value)
    (update : mapref) : Prog (option error) :=
  session ← sessionCopy d;
  defer (call (S_Close session)) (
    let co := C session (Name d) collection in
    if is_nil selector then mret (Some errNull)
    else
      hit ← mem (MapIndex update "_id");
      (if hit is Some _ then mem (MapDelete update "_id") else mret tt);;
      hit ← mem (MapIndex update "create_at");
      (if hit is Some _ then mem (MapDelete update "create_at") else mret tt);;
      match selector with
      | VM m =>
          u ← mem (MapRead update);
          call (C_Update co (VM m) (VM u))
      | VObjectId id =>
          u ← mem (MapRead update);
          call (C_UpdateId co (VObjectId id) (VM u))
      | _ => mret (Some errUnSupportType)
      end).

(** The sort keys of [Find] and [FindDoc]: the caller's, or the
    descending creation time. *)
Definition default_sort (sortKeys : list string) : list string :=
  if (List.length sortKeys =? 0)%nat then (sortKeys ++ ["-create_at"])%list else sortKeys.

Definition Find (d : Dao) (collection : string) (query : value) (page : Page)
    (sortKeys : list string) : Prog (option Query * option error) :=
  session ← sessionCopy d;
  defer (call (S_Close session)) (
    let co := C session (Name d) collection in
    if is_nil query then mret (None, Some errNull)
    else
      let q := C_Find co query in
      let sortKeys := default_sort sortKeys in
      let q := Q_Sort q sortKeys in
      let q := if Valid page
               then Q_Limit (Q_Skip q (Offset page)) (Limit page) else q in
      mret (Some q, None)).

Definition FindDoc (d : Dao) (collection : string) (query : value)
    (page : Page) (sortKeys : list string)
  : Prog (list value * option error) :=
  session ← sessionCopy d;
  defer (call (S_Close session)) (
    let co := C session (Name d) collection in
    if is_nil query then mret ([], Some errNull)
    else
      let q := C_Find co query in
      let sortKeys := default_sort sortKeys in
      let q := Q_Sort q sortKeys in
      let q := if Valid page
               then Q_Limit (Q_Skip q (Offset page)) (Limit page) else q in
      '(results, err) ← call (Q_All q);
      mret (results, err)).

(** [q] is a nil [*mgo.Query] until one of the two type tests succeeds;
    [q.One] on the nil pointer dereferences it. *)
Definition FindOne (d : Dao) (collection : string) (query : value)
  : Prog (value * option error) :=
  session ← sessionCopy d;
  defer (call (S_Close session)) (
    let co := C session (Name d) collection in
    if is_nil query then mret (VNil, Some errNull)
    else
      let rest (q : option Query) : Prog (value * option error) :=
        let q := match query with
                 | VObjectId id => Some (C_FindId co (VObjectId id))
                 | _ => q
                 end in
        match q with
        | None => Panic nil_dereference
        | Some q => '(result, err) ← call (Q_One q); mret (result, err)
        end in
      match query with
      | VM m =>
          let q := C_Find co (VM m) in
          '(cnt, err) ← call (Q_Count q);
          match err with
          | Some e => mret (VNil, Some e)
          | None =>
              if (1 <? cnt)%Z then mret (VNil, Some ErrNotFound)
              else rest (Some q)
          end
      | _ => rest None
      end).

Definition CreateGridFs (d : Dao) (name : string) (data : string)
  : Prog (ObjectId * option error) :=
  session ← sessionCopy d;
  defer (call (S_Close session)) (
    let gfs := MkGridFS session (Name d) (PrefixFS d) in
    id ← call NewObjectId;
    '(fs, err) ← call (G_Create gfs name);
    match err with
    | Some e => mret (id, Some e)
    | None =>
        call (F_SetId fs id);;
        '(_, err) ← call (F_Write fs data);
        match err with
        | Some e => mret (id, Some e)
        | None =>
            err ← call (F_Close fs);
            match err with
            | Some e => mret (EmptyString, Some e)
            | None => mret (id, None)
            end
        end
    end).

(** [reflect.TypeOf(v).Kind()]: the method call on the nil type of a nil
    interface panics. *)
Definition reflect_Kind (v : value) : Prog Kind :=
  match TypeOf_Kind v with
  | Some k => mret k
  | None => Panic nil_dereference
  end.

(** [v.(string)]. *)
Definition to_string (v : value) : Prog string :=
  match assert_string v with
  | Some s => mret s
  | None => Panic interface_conversion
  end.

Definition ObjectIdHex_or_panic (s : string) : Prog ObjectId :=
  match ObjectIdHex s with
  | Some id => mret id
  | None => Panic invalid_ObjectIdHex
  end.

(** [reflect.TypeOf(id).Kind() != reflect.String ||
     !bson.IsObjectIdHex(id.(string))], the right operand evaluated only
    when the left one is false. *)
Definition id_format_error (id : value) : Prog bool :=
  k ← reflect_Kind id;
  if negb (Kind_eqb k KString) then mret true
  else s ← to_string id; mret (negb (IsObjectIdHex s)).

Section Reference.

(** [inflector.Pluralize] of the gedex/inflector package, whose rule
    tables are not part of this repository. *)
Variable Pluralize : string -> string.

Definition DBRef (field : string) (t : reflect_Type) (m : mapref)
  : Prog (option error) :=
  hit ← mem (MapIndex m field);
  match hit with
  | Some value =>
      match value with
      | VMap refer =>
          match refer !! "id" with
          | None =>
              mret (Some (Errorf "%s must be an object and contain a id field"
                                 (VString field)))
          | Some id =>
              mem (MapDelete m field);;
              bad ← id_format_error id;
              if (bad : bool)
              then mret (Some (Errorf "id format error [%v]" id))
              else
                s ← to_string id;
                oid ← ObjectIdHex_or_panic s;
                map_assign m (field ++ "_ref")
                  (VDBRef (ToLower (Pluralize (Name_of t))) (VObjectId oid) "");;
                mret None
          end
      | _ => mret (Some (Errorf "invalid param given [%s]" (VString field)))
      end
  | None => mret None
  end.

End Reference.

Definition DBRefId (field : string) (m : mapref) : Prog (option error) :=
  hit ← mem (MapIndex m field);
  match hit with
  | Some value =>
      match value with
      | VMap refer =>
          match refer !! "id" with
          | None =>
              mret (Some (Errorf "%s must be an object and contain a id field"
                                 (VString field)))
          | Some id =>
              mem (MapDelete m field);;
              bad ← id_format_error id;
              if (bad : bool)
              then mret (Some (Errorf "id format error [%v]" id))
              else
                s ← to_string id;
                oid ← ObjectIdHex_or_panic s;
                map_assign m (field ++ "_ref.$id") (VObjectId oid);;
                mret None
          end
      | _ => mret (Some (Errorf "invalid param given [%s]" (VString field)))
      end
  | None => mret None
  end.

(** * Descriptions used in the statements *)

(** A document of a collection. *)
Abbreviation doc := (gmap string value).

(** The calls a run adds to the record. *)
Definition calls_of {S R : Type} (h : handler S) (p : Prog R) (w : world S)
  : list cmd :=
  drop (List.length (w_trace w)) (w_trace (run h p w).2).

(** The two kinds of selector the package accepts. *)
Definition supported_selector (v : value) : bool :=
  match v with
  | VM _ | VObjectId _ => true
  | _ => false
  end.

(** The heap after the two guarded deletions of [UpdateDoc]. *)
Definition stripped (hp : heap) (update : mapref) : heap :=
  let h1 := if map_entries hp update !! "_id" is Some _
            then (mem_step (MapDelete update "_id") hp).2 else hp in
  if map_entries h1 update !! "create_at" is Some _
  then (mem_step (MapDelete update "create_at") h1).2 else h1.

(** The fields [SoftRemoveDoc] sets, given the two readings of the
    clock. *)
Definition soft_delete_fields (t1 t2 : value) : gmap string value :=
  <["is_delete" := VBool true]>
    (<["delete_at" := t2]> (<["modify_at" := t1]> ∅)).

(** The arguments of the [Skip] and [Limit] calls in a chain, oldest
    first. *)
Fixpoint skip_calls (q : Query) : list Z :=
  match q with
  | C_Find _ _ | C_FindId _ _ => []
  | Q_Sort q _ | Q_Limit q _ => skip_calls q
  | Q_Skip q n => (skip_calls q ++ [n])%list
  end.

Fixpoint limit_calls (q : Query) : list Z :=
  match q with
  | C_Find _ _ | C_FindId _ _ => []
  | Q_Sort q _ | Q_Skip q _ => limit_calls q
  | Q_Limit q n => (limit_calls q ++ [n])%list
  end.

(** The query [Find] and [FindDoc] build. *)
Definition paged_query (co : Collection) (query : value) (page : Page)
    (sortKeys : list string) : Query :=
  let q := Q_Sort (C_Find co query) (default_sort sortKeys) in
  if Valid page then Q_Limit (Q_Skip q (Offset page)) (Limit page) else q.

Definition soft_delete_keys : list string :=
  ["is_delete"; "delete_at"; "modify_at"].

(** Two documents with the same entries under every key outside [keys]. *)
Definition same_outside (keys : list string) (x y : doc) : Prop :=
  forall k, k ∉ keys -> x !! k = y !! k.

(** What the server matches for a selector of the package: the filter
    map itself, and [bson.D{{"_id", id}}] for an identifier. *)
Definition db_selector (selector : value) : value :=
  match selector with
  | VObjectId id => VD [("_id", VObjectId id)]
  | _ => selector
  end.


(** * A reference model of the database

    The claims about what is found, counted or left in a collection need
    the meaning of the driver's calls.  The model below fixes it for the
    calls those claims rely on: counting and fetching the rows of a query,
    updating one document with a [$set] of plain field names, removing
    one document.  The query language and the sort order are the
    database's and stay parameters, and so does the answer to every other
    call. *)

(** The collections of the server, by database and collection name. *)
Abbreviation store := (gmap (string * string) (list doc)).

Definition collection_key (co : Collection) : string * string :=
  (co_db co, co_name co).

Definition docs_of (s : store) (co : Collection) : list doc :=
  default [] (s !! collection_key co).

(** What a chain of query calls has set: [Sort] replaces the order,
    [Skip] and [Limit] the two numbers; [FindId(id)] is
    [Find(bson.D{{"_id", id}})]. *)
Record plan : Type := MkPlan
  { p_co : Collection;
    p_selector : value;
    p_sort : list string;
    p_skip : Z;
    p_limit : Z }.

Fixpoint plan_of (q : Query) : plan :=
  match q with
  | C_Find co query => MkPlan co query [] 0 0
  | C_FindId co id => MkPlan co (VD [("_id", id)]) [] 0 0
  | Q_Sort q fields =>
      let p := plan_of q in
      MkPlan (p_co p) (p_selector p) fields (p_skip p) (p_limit p)
  | Q_Skip q n =>
      let p := plan_of q in
      MkPlan (p_co p) (p_selector p) (p_sort p) n (p_limit p)
  | Q_Limit q n =>
      let p := plan_of q in
      MkPlan (p_co p) (p_selector p) (p_sort p) (p_skip p) n
  end.

(** The model answers a query whose skip and limit are non-negative 32-bit
    numbers. *)
Definition plan_in_model (p : plan) : bool :=
  (0 <=? p_skip p) && (p_skip p <? 2 ^ 31) &&
  (0 <=? p_limit p) && (p_limit p <? 2 ^ 31).

(** A field name that [$set] writes at the top level of a document: not
    empty, no operator, no dotted path, and not the immutable [_id]. *)
Fixpoint has_dot (s : string) : bool :=
  match s with
  | EmptyString => false
  | String c rest => Ascii.eqb c "." || has_dot rest
  end.

Definition plain_field (k : string) : bool :=
  match k with
  | EmptyString => false
  | String c _ =>
      negb (Ascii.eqb c "$") && negb (has_dot k) && negb (String.eqb k "_id")
  end.

(** The fields of an update document of the form [{"$set": {k: v, ...}}]
    with plain field names. *)
Definition set_fields (update : value) : option (gmap string value) :=
  match update with
  | VM u =>
      match u !! "$set" with
      | Some (VM fields) =>
          if (size u =? 1)%nat &&
             map_fold (fun k _ b => plain_field k && b) true fields
          then Some fields else None
      | _ => None
      end
  | _ => None
  end.

(** The first element that satisfies [P], replaced by its image, or
    removed; [None] when there is none. *)
Fixpoint update_first {A : Type} (P : A -> bool) (f : A -> A) (l : list A)
  : option (list A) :=
  match l with
  | [] => None
  | x :: l' =>
      if P x then Some (f x :: l')
      else match update_first P f l' with
           | Some r => Some (x :: r)
           | None => None
           end
  end.

Fixpoint remove_first {A : Type} (P : A -> bool) (l : list A)
  : option (list A) :=
  match l with
  | [] => None
  | x :: l' =>
      if P x then Some l'
      else match remove_first P l' with
           | Some r => Some (x :: r)
           | None => None
           end
  end.

Section Store.

(** Does a stored document satisfy a selector. *)
Variable matches : value -> doc -> bool.

(** The documents in the order of the sort keys. *)
Variable sort_by : list string -> list doc -> list doc.

(** The rows of a query before its limit: the matches, sorted when sort
    keys are set, without the skipped ones. *)
Definition rows_unlimited (p : plan) (s : store) : list doc :=
  let ms := List.filter (matches (p_selector p)) (docs_of s (p_co p)) in
  let sorted := match p_sort p with
                | [] => ms
                | _ => sort_by (p_sort p) ms
                end in
  drop (Z.to_nat (p_skip p)) sorted.

(** The rows of a query; a limit of zero is no limit. *)
Definition rows (p : plan) (s : store) : list doc :=
  if p_limit p =? 0 then rows_unlimited p s
  else take (Z.to_nat (p_limit p)) (rows_unlimited p s).

(** [Update] and [UpdateId] change the first match, or find none. *)
Definition update_step (co : Collection) (selector update : value) (s : store)
  : option (option error * store) :=
  match set_fields update with
  | Some fields =>
      match update_first (matches selector) (fun d => fields ∪ d)
                         (docs_of s co) with
      | Some ds => Some (None, <[collection_key co := ds]> s)
      | None => Some (Some ErrNotFound, s)
      end
  | None => None
  end.

(** [Remove] and [RemoveId] delete the first match, or find none. *)
Definition remove_step (co : Collection) (selector : value) (s : store)
  : option error * store :=
  match remove_first (matches selector) (docs_of s co) with
  | Some ds => (None, <[collection_key co := ds]> s)
  | None => (Some ErrNotFound, s)
  end.

(** The calls the model answers; [None] for the others. *)
Definition store_step (c : cmd) (s : store) : option (ans c * store) :=
  match c return option (ans c * store) with
  | Q_Count q =>
      let p := plan_of q in
      if plan_in_model p
      then Some ((Z.of_nat (List.length (rows p s)), None), s) else None
  | Q_One q =>
      let p := plan_of q in
      if plan_in_model p
      then match rows_unlimited p s with
           | d :: _ => Some ((VM d, None), s)
           | [] => Some ((VNil, Some ErrNotFound), s)
           end
      else None
  | Q_All q =>
      let p := plan_of q in
      if plan_in_model p
      then Some ((VM <$> rows p s, None), s) else None
  | C_Update co selector update => update_step co selector update s
  | C_UpdateId co id update => update_step co (VD [("_id", id)]) update s
  | C_Remove co selector => Some (remove_step co selector s)
  | C_RemoveId co id => Some (remove_step co (VD [("_id", id)]) s)
  | _ => None
  end.

(** Whatever answers the calls the model leaves open, from the store and
    a state of its own. *)
Context {E : Type}.
Variable other : handler (store * E).

(** The handler of the model.  A call that is no database call leaves the
    store as it is. *)
Definition store_handler : handler (store * E) :=
  fun c se =>
    match store_step c se.1 with
    | Some (a, s) => (a, (s, se.2))
    | None =>
        let '(a, (s, e)) := other c se in
        (a, (if is_db c then s else se.1, e))
    end.

End Store.

(** ** Concrete instances, for examples *)

(** A driver that never fails and finds nothing. *)
Definition quiet (S : Type) : handler S :=
  fun c s =>
    match c return ans c * S with
    | S_Copy x => (Datatypes.S x, s)
    | S_Close _ => (tt, s)
    | Now => (VString "2018-01-17 22:55:00", s)
    | NewObjectId => ("0123456789ab", s)
    | C_EnsureIndex _ _ | C_Insert _ _ => (None, s)
    | C_Upsert _ _ _ | C_UpsertId _ _ _ | Q_Apply _ _ =>
        (Some (MkChangeInfo 0 0 0 VNil), None, s)
    | C_Remove _ _ | C_RemoveId _ _ | C_Update _ _ _ | C_UpdateId _ _ _ =>
        (None, s)
    | Q_Count _ => (0, None, s)
    | Q_One _ => (VNil, Some ErrNotFound, s)
    | Q_All _ => ([], None, s)
    | G_Create _ _ => (0%nat, None, s)
    | F_SetId _ _ => (tt, s)
    | F_Write _ data => (Z.of_nat (String.length data), None, s)
    | F_Close _ => (None, s)
    end.

(** Equality of two values that are both strings, numbers, booleans or
    identifiers. *)
Definition scalar_eqb (a b : value) : bool :=
  match a, b with
  | VBool x, VBool y => Bool.eqb x y
  | VInt x, VInt y => x =? y
  | VString x, VString y => String.eqb x y
  | VObjectId x, VObjectId y => String.eqb x y
  | _, _ => false
  end.

(** A query language of exact matches on scalar fields. *)
Definition matches_exact (selector : value) (d : doc) : bool :=
  let agrees (kv : string * value) :=
    match d !! kv.1 with
    | Some v => scalar_eqb kv.2 v
    | None => false
    end in
  match selector with
  | VM m | VMap m => forallb agrees (map_to_list m)
  | VD l => forallb agrees l
  | _ => false
  end.

(** No reordering. *)
Definition sort_none (keys : list string) (ds : list doc) : list doc := ds.

(** * What the specification calls the errors *)

Inductive ErrorKind : Type :=
| NullSelector
| UnsupportedSelectorKind
| AmbiguousMatch
| NotFound
| InvalidReferenceShape
| InvalidIdentifierFormat
| StorageOperationFailed.

Definition kind_of_error (e : error) : ErrorKind :=
  match e with
  | errNull => NullSelector
  | errUnSupportType => UnsupportedSelectorKind
  | ErrNotFound => NotFound
  | Errorf format _ =>
      if String.eqb format "id format error [%v]"
      then InvalidIdentifierFormat else InvalidReferenceShape
  | DriverError _ => StorageOperationFailed
  end.

(** * Sessions that have been closed

    [Session.Close] of the driver ends a session, and the driver's
    documentation has it that using a session after it has been closed
    is a runtime error: a call that needs a socket of a closed session
    panics with the message below.  A [*mgo.Query] keeps the session of
    the collection it was built on and needs it when it is evaluated. *)

Definition session_closed : string := "Session already closed".

(** The session a query chain was built on. *)
Fixpoint session_of (q : Query) : session :=
  match q with
  | C_Find co _ | C_FindId co _ => co_session co
  | Q_Sort q _ | Q_Skip q _ | Q_Limit q _ => session_of q
  end.

(** The session a call needs, if any.  The session behind an open file is
    not followed. *)
Definition session_used (c : cmd) : option session :=
  match c with
  | S_Copy s => Some s
  | S_Close _ | Now | NewObjectId => None
  | C_EnsureIndex co _ | C_Insert co _ | C_Upsert co _ _ | C_UpsertId co _ _
  | C_Remove co _ | C_RemoveId co _ | C_Update co _ _ | C_UpdateId co _ _ =>
      Some (co_session co)
  | Q_Apply q _ | Q_Count q | Q_One q | Q_All q => Some (session_of q)
  | G_Create gfs _ => Some (gfs_session gfs)
  | F_SetId _ _ | F_Write _ _ | F_Close _ => None
  end.

(** The closed sessions after a call and its answer: [Close] closes its
    session, and the session a [Copy] hands back is a new, open one. *)
Definition closed_after (c : cmd) : ans c -> gset session -> gset session :=
  match c return ans c -> gset session -> gset session with
  | S_Copy _ => fun s closed => closed ∖ {[ s ]}
  | S_Close s => fun _ closed => {[ s ]} ∪ closed
  | _ => fun _ closed => closed
  end.

(** A handler with the closed sessions kept beside its state.  It answers
    as the handler does. *)
Definition watch {S : Type} (h : handler S) : handler (gset session * S) :=
  fun c se =>
    let (a, e) := h c se.2 in (a, (closed_after c a se.1, e)).

(** One call of the driver where the sessions in [se.1] are closed: the
    panic when the call needs one of them, the answer otherwise. *)
Definition evaluate {S : Type} (h : handler S) (c : cmd)
    (se : gset session * S) : outcome (ans c) :=
  match session_used c with
  | Some s =>
      if bool_decide (s ∈ se.1) then Panicked session_closed
      else Returned (h c se.2).1
  | None => Returned (h c se.2).1
  end.

(** * Further descriptions used in the statements *)

(** The calls that open and close a session. *)
Definition is_session_call (c : cmd) : bool :=
  match c with
  | S_Copy _ | S_Close _ => true
  | _ => false
  end.

(** A program none of whose calls, whatever the answers, opens or closes
    a session. *)
Inductive session_free {R : Type} : Prog R -> Prop :=
| sf_ret (r : R) : session_free (Ret r)
| sf_panic (msg : string) : session_free (Panic msg)
| sf_mem (o : memop) (k : mem_ans o -> Prog R) :
    (forall a, session_free (k a)) -> session_free (Mem o k)
| sf_call (c : cmd) (k : ans c -> Prog R) :
    is_session_call c = false ->
    (forall a, session_free (k a)) -> session_free (Call c k).

(** The calls of a run are: the copy of the pool session, calls that are
    no session calls, the close of the copy. *)
Definition session_scoped {S R : Type} (h : handler S) (d : Dao)
    (p : Prog R) (w : world S) : Prop :=
  let s := (h (S_Copy (Session d)) (w_env w)).1 in
  exists mid,
    calls_of h p w = (S_Copy (Session d) :: mid ++ [S_Close s])%list /\
    existsb is_session_call mid = false.

(** Does a field hold an object with an ["id"] entry. *)
Definition has_id_object (v : option value) : bool :=
  match v with
  | Some (VMap refer) =>
      match refer !! "id" with
      | Some _ => true
      | None => false
      end
  | _ => false
  end.

(** The error [DBRef] and [DBRefId] return for a field that holds no
    object with an ["id"] entry: none when the field is absent. *)
Definition shape_error (field : string) (v : option value) : option error :=
  match v with
  | None => None
  | Some (VMap _) =>
      Some (Errorf "%s must be an object and contain a id field"
                   (VString field))
  | Some _ => Some (Errorf "invalid param given [%s]" (VString field))
  end.

(** * Page validation

    [Page.checkValid] rests on [strconv.ParseInt(s, 10, 32)].  The two
    functions of [strconv] are embedded as Go's library has them, for a
    base from 2 to 36 and a bit size from 1 to 64; the prefixes and
    underscores of base 0 are not needed here. *)

(** [strconv.ErrSyntax] and [strconv.ErrRange]. *)
Inductive NumError : Type :=
| ErrSyntax
| ErrRange.

(** The digit a byte stands for in [ParseUint]: ['0'] to ['9'], and a
    letter of either case for ten and more; [lower(c)] is [c | 0x20]. *)
Definition byte_digit (c : ascii) : option Z :=
  let n := Z.of_N (N_of_ascii c) in
  let lower := Z.lor n 32 in
  if (48 <=? n) && (n <=? 57) then Some (n - 48)
  else if (97 <=? lower) && (lower <=? 122) then Some (lower - 97 + 10)
  else None.

(** The loop of [ParseUint] over the bytes of the string, [n] being a
    [uint64]. *)
Fixpoint ParseUint_loop (base cutoff maxVal : Z) (s : string) (n : Z)
  : Z * option NumError :=
  match s with
  | EmptyString => (n, None)
  | String c rest =>
      match byte_digit c with
      | None => (0, Some ErrSyntax)
      | Some d =>
          if base <=? d then (0, Some ErrSyntax)
          else if cutoff <=? n then (maxVal, Some ErrRange)
          else
            let n0 := (n * base) mod 2 ^ 64 in
            let n1 := (n0 + d) mod 2 ^ 64 in
            if (n1 <? n0) || (maxVal <? n1) then (maxVal, Some ErrRange)
            else ParseUint_loop base cutoff maxVal rest n1
      end
  end.

(** [strconv.ParseUint(s, base, bitSize)]. *)
Definition ParseUint (s : string) (base bitSize : Z) : Z * option NumError :=
  match s with
  | EmptyString => (0, Some ErrSyntax)
  | _ =>
      let cutoff := (2 ^ 64 - 1) / base + 1 in
      let maxVal := 2 ^ bitSize - 1 in
      ParseUint_loop base cutoff maxVal s 0
  end.

(** [strconv.ParseInt(s, base, bitSize)]: the sign is picked off, the
    rest is converted unsigned and checked against the range. *)
Definition ParseInt (s : string) (base bitSize : Z) : Z * option NumError :=
  match s with
  | EmptyString => (0, Some ErrSyntax)
  | String c rest =>
      let '(neg, s1) :=
        if Ascii.eqb c "+" then (false, rest)
        else if Ascii.eqb c "-" then (true, rest)
        else (false, s) in
      let '(un, err) := ParseUint s1 base bitSize in
      match err with
      | Some ErrSyntax => (0, Some ErrSyntax)
      | _ =>
          let cutoff := 2 ^ (bitSize - 1) in
          if negb neg && (cutoff <=? un) then (cutoff - 1, Some ErrRange)
          else if neg && (cutoff <? un) then (- cutoff, Some ErrRange)
          else (if neg then - un else un, None)
      end
  end.

(** [func (p *Page) checkValid(offset, limit string)]: the page after
    the call. *)
Definition checkValid (p : Page) (offset limit : string) : Page :=
  if String.eqb offset "" || String.eqb limit "" then
    MkPage false (Offset p) (Limit p)
  else
    let '(l, err) := ParseInt limit 10 32 in
    let p := MkPage (Valid p) (Offset p) l in
    if (if err is Some _ then true else false) || (Limit p <? 0) then
      MkPage false (Offset p) (Limit p)
    else
      let '(o, err) := ParseInt offset 10 32 in
      let p := MkPage (Valid p) o (Limit p) in
      if (if err is Some _ then true else false) || (Offset p <? 0) then
        MkPage false (Offset p) (Limit p)
      else MkPage true (Offset p) (Limit p).

(** Decimal numerals, for the statements: the strings of decimal digits
    and the number they write. *)
Definition is_decimal_digit (c : ascii) : bool :=
  let n := Z.of_N (N_of_ascii c) in (48 <=? n) && (n <=? 57).

Fixpoint all_decimal (s : string) : bool :=
  match s with
  | EmptyString => true
  | String c rest => is_decimal_digit c && all_decimal rest
  end.

Fixpoint decimal_value (s : string) (acc : Z) : Z :=
  match s with
  | EmptyString => acc
  | String c rest =>
      decimal_value rest (acc * 10 + (Z.of_N (N_of_ascii c) - 48))
  end.

(** What [checkValid] accepts as an offset or a limit, and the number it
    reads: a non-empty string of decimal digits, with an optional sign in
    front, that writes a number below [2^31]; behind a minus sign only
    zero. *)
Definition accepts (s : string) (v : Z) : Prop :=
  exists sign digits,
    s = String.append sign digits /\
    (sign = "" \/ sign = "+" \/ sign = "-") /\
    digits <> "" /\
    all_decimal digits = true /\
    v = decimal_value digits 0 /\
    v < 2 ^ 31 /\
    (sign = "-" -> v = 0).

(** * The remaining operations

    [DropDB], [PipeDoc] and [FindGridFs] make calls that the operations
    above do not: dropping a database, running a pipeline, opening a
    stored file and copying it out.  Their programs are built over the
    calls above and these four; they use no map of the caller. *)

Inductive xcmd : Type :=
| X_Base (c : cmd)
| D_DropDatabase (s : session) (db : string)   (* s.DB(db).DropDatabase() *)
| P_All (co : Collection) (pipes : list (gmap string value))
                                               (* co.Pipe(pipes).All(&results) *)
| G_OpenId (gfs : GridFS) (id : value)         (* gfs.OpenId(id) *)
| F_Copy (f : gridfile).                       (* io.Copy(buf, fs) *)

(** [io.Copy] hands back the bytes it has appended to the buffer. *)
Definition xans (c : xcmd) : Type :=
  match c with
  | X_Base c => ans c
  | D_DropDatabase _ _ => option error
  | P_All _ _ => (list value * option error)%type
  | G_OpenId _ _ => (gridfile * option error)%type
  | F_Copy _ => (string * option error)%type
  end.

Definition x_is_db (c : xcmd) : bool :=
  match c with
  | X_Base c => is_db c
  | _ => true
  end.

Inductive XProg (R : Type) : Type :=
| XRet (r : R)
| XPanic (msg : string)
| XCall (c : xcmd) (k : xans c -> XProg R).

Arguments XRet {R} r.
Arguments XPanic {R} msg.
Arguments XCall {R} c k.

Fixpoint xbind {A B : Type} (p : XProg A) (f : A -> XProg B) : XProg B :=
  match p with
  | XRet a => f a
  | XPanic msg => XPanic msg
  | XCall c k => XCall c (fun x => xbind (k x) f)
  end.

#[export] Instance XProg_ret : MRet XProg := @XRet.
#[export] Instance XProg_bind : MBind XProg := fun A B f p => xbind p f.

Definition xcall (c : xcmd) : XProg (xans c) := XCall c XRet.

Fixpoint xdefer {R : Type} (cleanup : XProg unit) (body : XProg R) : XProg R :=
  match body with
  | XRet r => xbind cleanup (fun _ => XRet r)
  | XPanic msg => xbind cleanup (fun _ => XPanic msg)
  | XCall c k => XCall c (fun x => xdefer cleanup (k x))
  end.

Record xworld (S : Type) : Type := XWorld
  { xw_env : S; xw_trace : list xcmd }.

Arguments XWorld {S} xw_env xw_trace.
Arguments xw_env {S} x.
Arguments xw_trace {S} x.

Definition xhandler (S : Type) : Type := forall c : xcmd, S -> xans c * S.

(** The part of a handler that answers the calls of the operations
    above. *)
Definition base_handler {S : Type} (h : xhandler S) : handler S :=
  fun c => h (X_Base c).

Fixpoint xrun {S R : Type} (h : xhandler S) (p : XProg R) (w : xworld S)
  : outcome R * xworld S :=
  match p with
  | XRet r => (Returned r, w)
  | XPanic msg => (Panicked msg, w)
  | XCall c k =>
      let (a, s) := h c (xw_env w) in
      xrun h (k a) (XWorld s (xw_trace w ++ [c])%list)
  end.

Definition xcalls_of {S R : Type} (h : xhandler S) (p : XProg R)
    (w : xworld S) : list xcmd :=
  drop (List.length (xw_trace w)) (xw_trace (xrun h p w).2).

(** [mgo.Database]. *)
Record Database : Type := DB { db_session : session; db_name : string }.

(** The session argument is not used: the database is taken from the
    pool session. *)
Definition getDB (d : Dao) (session : session) : Database :=
  DB (Session d) (Name d).

Definition getCollection (d : Dao) (name : string) (session : session)
  : Collection :=
  let name := if String.eqb name "" then "mongos" else name in
  let db := getDB d session in
  C (db_session db) (db_name db) name.

Definition DropDB (d : Dao) : XProg (option error) :=
  xcall (D_DropDatabase (Session d) (Name d)).

Definition PipeDoc (d : Dao) (collection : string)
    (pipes : list (gmap string value)) : XProg (list value * option error) :=
  session ← xcall (X_Base (S_Copy (Session d)));
  xdefer (xcall (X_Base (S_Close session))) (
    let co := C session (Name d) collection in
    '(results, err) ← xcall (P_All co pipes);
    mret (results, err)).

(** The bytes come back as [Some data], Go's [nil] slice as [None]. *)
Definition FindGridFs (d : Dao) (id : value)
  : XProg (option string * option error) :=
  session ← xcall (X_Base (S_Copy (Session d)));
  xdefer (xcall (X_Base (S_Close session))) (
    let gfs := MkGridFS session (Name d) (PrefixFS d) in
    '(fs, err) ← xcall (G_OpenId gfs id);
    match err with
    | Some e => mret (None, Some e)
    | None =>
        '(data, err) ← xcall (F_Copy fs);
        match err with
        | Some e => mret (None, Some e)
        | None =>
            err ← xcall (X_Base (F_Close fs));
            match err with
            | Some e => mret (None, Some e)
            | None => mret (Some data, None)
            end
        end
    end).

(** ** A reference model of the file store

    A file being written has a name, the bytes written so far and, once
    [SetId] has been called, an identifier; closing it stores it under
    that identifier.  A stored file is opened by its identifier and
    copied out whole.  The files of a database and prefix are apart from
    those of another.  Every other call, and the close of a file without
    [SetId] or under an identifier that is taken, is left to whatever
    answers the rest. *)

Record writing : Type := MkWriting
  { wr_db : string; wr_prefix : string; wr_id : option ObjectId;
    wr_name : string; wr_data : string }.

Record files : Type := MkFiles
  { stored : gmap (string * string * string) (string * string);
    being_written : gmap gridfile writing;
    being_read : gmap gridfile string }.

Definition file_key (db prefix : string) (id : ObjectId)
  : string * string * string := (db, prefix, id).

Definition fresh_handle (fs : files) : gridfile :=
  fresh (dom (being_written fs) ∪ dom (being_read fs)).

Definition files_step (c : xcmd) (fs : files) : option (xans c * files) :=
  match c return option (xans c * files) with
  | X_Base (G_Create gfs name) =>
      let f := fresh_handle fs in
      Some ((f, None),
            MkFiles (stored fs)
              (<[f := MkWriting (gfs_db gfs) (gfs_prefix gfs) None name ""]>
                 (being_written fs))
              (being_read fs))
  | X_Base (F_SetId f id) =>
      match being_written fs !! f with
      | Some wr =>
          if String.eqb (wr_data wr) "" then
            Some (tt,
                  MkFiles (stored fs)
                    (<[f := MkWriting (wr_db wr) (wr_prefix wr) (Some id)
                              (wr_name wr) (wr_data wr)]> (being_written fs))
                    (being_read fs))
          else None
      | None => None
      end
  | X_Base (F_Write f data) =>
      match being_written fs !! f with
      | Some wr =>
          Some ((Z.of_nat (String.length data), None),
                MkFiles (stored fs)
                  (<[f := MkWriting (wr_db wr) (wr_prefix wr) (wr_id wr)
                            (wr_name wr) (wr_data wr ++ data)]>
                     (being_written fs))
                  (being_read fs))
      | None => None
      end
  | X_Base (F_Close f) =>
      match being_written fs !! f, being_read fs !! f with
      | Some wr, _ =>
          match wr_id wr with
          | Some id =>
              let key := file_key (wr_db wr) (wr_prefix wr) id in
              match stored fs !! key with
              | None =>
                  Some (None,
                        MkFiles (<[key := (wr_name wr, wr_data wr)]> (stored fs))
                          (delete f (being_written fs)) (being_read fs))
              | Some _ => None
              end
          | None => None
          end
      | None, Some _ =>
          Some (None,
                MkFiles (stored fs) (being_written fs)
                  (delete f (being_read fs)))
      | None, None => None
      end
  | G_OpenId gfs (VObjectId id) =>
      match stored fs !! file_key (gfs_db gfs) (gfs_prefix gfs) id with
      | Some (_, data) =>
          let f := fresh_handle fs in
          Some ((f, None),
                MkFiles (stored fs) (being_written fs)
                  (<[f := data]> (being_read fs)))
      | None => Some ((0%nat, Some ErrNotFound), fs)
      end
  | F_Copy f =>
      match being_read fs !! f with
      | Some data =>
          Some ((data, None),
                MkFiles (stored fs) (being_written fs)
                  (<[f := ""]> (being_read fs)))
      | None => None
      end
  | _ => None
  end.

Section Files.

Context {E : Type}.
Variable other : xhandler (files * E).

(** The handler of the model.  A call that is no database call leaves the
    files as they are. *)
Definition files_handler : xhandler (files * E) :=
  fun c se =>
    match files_step c se.1 with
    | Some (a, fs) => (a, (fs, se.2))
    | None =>
        let '(a, (fs, e)) := other c se in
        (a, (if x_is_db c then fs else se.1, e))
    end.

End Files.

(** A quiet driver for the further calls. *)
Definition xquiet (S : Type) : xhandler S :=
  fun c s =>
    match c return xans c * S with
    | X_Base c => quiet S c s
    | D_DropDatabase _ _ => (None, s)
    | P_All _ _ => ([], None, s)
    | G_OpenId _ _ => (0%nat, Some ErrNotFound, s)
    | F_Copy _ => ("", None, s)
    end.

(** * Inputs of the examples *)

Definition example_dao : Dao := MkDao "test" 0%nat "fs".

Definition empty_world : world unit := World ∅ tt [].

(** The collection handle of the examples: [quiet] answers the copy of
    session 0 with session 1. *)
Definition users : Collection := C 1%nat "test" "users".

Definition ann_id : ObjectId := "0123456789ab".
Definition bob_id : ObjectId := "0123456789ac".

Definition ann : doc :=
  <["_id" := VObjectId ann_id]>
    (<["name" := VString "ann"]>
       (<["city" := VString "Oslo"]>
          (<["create_at" := VString "2018-01-17 22:55:00"]> ∅))).

Definition bob : doc :=
  <["_id" := VObjectId bob_id]>
    (<["name" := VString "bob"]>
       (<["city" := VString "Oslo"]>
          (<["create_at" := VString "2018-01-18 08:00:00"]> ∅))).

Definition two_users : store := {[ ("test", "users") := [ann; bob] ]}.

(** Twelve numbered documents. *)
Definition numbered (n : Z) : doc :=
  <["n" := VInt n]> (<["city" := VString "Oslo"]> ∅).

Definition twelve_users : store :=
  {[ ("test", "users") := numbered <$> seqZ 0 12 ]}.

(** The reference model with exact-match filters, over the quiet
    driver. *)
Definition example_model : handler (store * unit) :=
  store_handler matches_exact sort_none (quiet (store * unit)).

Definition world_of (hp : heap) (st : store) : world (store * unit) :=
  World hp (st, tt) [].

(** An update map at address 1 that names the identifier and the
    creation time at its top level. *)
Definition top_level_update : heap :=
  {[ 1%nat := <["_id" := VObjectId bob_id]>
                (<["create_at" := VString "1999-12-31 00:00:00"]>
                   (<["name" := VString "anna"]> ∅)) ]}.

(** An update map at address 1 that sets the creation time through
    [$set]. *)
Definition set_create_at : gmap string value :=
  {[ "$set" := VM {[ "create_at" := VString "1999-12-31 00:00:00" ]} ]}.

Definition nested_update : heap := {[ 1%nat := set_create_at ]}.

(** A field map at address 1 whose ["author"] is an object with the
    given ["id"]. *)
Definition post_with_author (id : value) : heap :=
  {[ 1%nat := <["author" := VMap {[ "id" := id ]}]>
                (<["title" := VString "hello"]> ∅) ]}.

Definition author_hex : string := "5a5F5b5c5d5e5f6061626364".

Definition plural_s (s : string) : string := s ++ "s".

Definition Author : reflect_Type := {| Name_of := "Author" |}.




(** The reference model with the closed sessions beside it, none closed
    at the start. *)
Definition watched_world (st : store)
  : world (gset session * (store * unit)) :=
  World ∅ (∅, (st, tt)) [].

(** No file stored, none open. *)
Definition no_files : files := MkFiles ∅ ∅ ∅.

(** The model of the file store over the quiet driver. *)
Definition example_filer : xhandler (files * unit) :=
  files_handler (xquiet (files * unit)).

(** * Properties that hold whatever the driver answers *)

Section AnyDriver.

Context {S : Type}.
Variable h : handler S.

Lemma run_bind {A B : Type} (p : Prog A) (f : A -> Prog B) (w : world S) :
  run h (bind p f) w =
  match run h p w with
  | (Returned a, w') => run h (f a) w'
  | (Panicked msg, w') => (Panicked msg, w')
  end.
Proof.
  revert w. induction p as [r|msg|o k IH|c k IH]; intros w; simpl.
  - reflexivity.
  - reflexivity.
  - destruct (mem_step o (w_heap w)) as [a hp]. apply IH.
  - destruct (h c (w_env w)) as [a s]. apply IH.
Qed.

Lemma run_defer {R : Type} (cleanup : Prog unit) (body : Prog R) (w : world S) :
  run h (defer cleanup body) w =
  match run h body w with
  | (Returned r, w') =>
      match run h cleanup w' with
      | (Returned _, w'') => (Returned r, w'')
      | (Panicked msg, w'') => (Panicked msg, w'')
      end
  | (Panicked msg, w') =>
      match run h cleanup w' with
      | (Returned _, w'') => (Panicked msg, w'')
      | (Panicked msg', w'') => (Panicked msg', w'')
      end
  end.
Proof.
  revert w. induction body as [r|msg|o k IH|c k IH]; intros w; simpl.
  - rewrite run_bind. destruct (run h cleanup w) as [[u|m] w']; reflexivity.
  - rewrite run_bind. destruct (run h cleanup w) as [[u|m] w']; reflexivity.
  - destruct (mem_step o (w_heap w)) as [a hp]. apply IH.
  - destruct (h c (w_env w)) as [a s]. apply IH.
Qed.

(** Unfold a program down to its calls, let the handler answer the calls
    in turn, and read the record off. *)
Ltac unfold_prog :=
  unfold calls_of, sessionCopy, call, mem, map_assign,
    mbind, mret, Prog_bind, Prog_ret; simpl.

Ltac answer1 :=
  match goal with
  | H : h ?c ?s = _ |- context [h ?c ?s] => rewrite H; simpl
  | |- context [h ?c ?s] =>
      let a := fresh "got" in
      let e := fresh "env" in
      destruct (h c s) as [a e] eqn:?; simpl
  | |- context [let '(_, _) := ?x in _] => is_var x; destruct x; simpl
  end.

Ltac answer := repeat answer1.

Ltac read_trace :=
  rewrite <- ?app_assoc; simpl; rewrite ?drop_app_length.

(** C5.  [CreateDoc] without index keys first ensures the index on the
    single key ["-create_at"] with unique, sparse, background and
    drop-duplicates all set.  When that call reports an error, [CreateDoc]
    returns it and no insert is made; otherwise it inserts the documents
    and returns what the insert reports. *)
Theorem CreateDoc_default_index (d : Dao) (collection : string) (docs : value)
    (w : world S) :
  let '(s, e1) := h (S_Copy (Session d)) (w_env w) in
  let co := C s (Name d) collection in
  let index := {| Key := ["-create_at"]; Unique := true; DropDups := true;
                  Background := true; Sparse := true |} in
  let '(err, e2) := h (C_EnsureIndex co index) e1 in
  match err with
  | Some e =>
      (run h (CreateDoc d collection docs []) w).1 = Returned (Some e) /\
      calls_of h (CreateDoc d collection docs []) w =
        [S_Copy (Session d); C_EnsureIndex co index; S_Close s]
  | None =>
      (run h (CreateDoc d collection docs []) w).1 =
        Returned (h (C_Insert co docs) e2).1 /\
      calls_of h (CreateDoc d collection docs []) w =
        [S_Copy (Session d); C_EnsureIndex co index; C_Insert co docs;
         S_Close s]
  end.
Proof.
  destruct (h (S_Copy (Session d)) (w_env w)) as [s e1] eqn:Hs. simpl.
  destruct (h (C_EnsureIndex _ _) e1) as [err e2] eqn:Hi.
  unfold CreateDoc. unfold_prog. answer.
  destruct err as [e|]; simpl; answer; read_trace; auto.
Qed.

(** C9.  [CreateGridFs] makes the identifier before any storage call.
    When creating the file or writing to it fails, the identifier comes
    back with the error; when closing fails, the empty identifier does. *)
Theorem CreateGridFs_identifier_on_error (d : Dao) (name data : string)
    (w : world S) :
  let '(s, e1) := h (S_Copy (Session d)) (w_env w) in
  let gfs := MkGridFS s (Name d) (PrefixFS d) in
  let '(id, e2) := h NewObjectId e1 in
  let '(fs, create_err, e3) := h (G_Create gfs name) e2 in
  let '(_, write_err, e5) := h (F_Write fs data) (h (F_SetId fs id) e3).2 in
  let '(close_err, e6) := h (F_Close fs) e5 in
  let r := (run h (CreateGridFs d name data) w).1 in
  let calls := calls_of h (CreateGridFs d name data) w in
  match create_err, write_err, close_err with
  | Some e, _, _ =>
      r = Returned (id, Some e) /\
      calls = [S_Copy (Session d); NewObjectId; G_Create gfs name; S_Close s]
  | None, Some e, _ =>
      r = Returned (id, Some e) /\
      calls = [S_Copy (Session d); NewObjectId; G_Create gfs name;
               F_SetId fs id; F_Write fs data; S_Close s]
  | None, None, Some e =>
      r = Returned (EmptyString, Some e) /\
      calls = [S_Copy (Session d); NewObjectId; G_Create gfs name;
               F_SetId fs id; F_Write fs data; F_Close fs; S_Close s]
  | None, None, None =>
      r = Returned (id, None) /\
      calls = [S_Copy (Session d); NewObjectId; G_Create gfs name;
               F_SetId fs id; F_Write fs data; F_Close fs; S_Close s]
  end.
Proof.
  destruct (h (S_Copy (Session d)) (w_env w)) as [s e1] eqn:Hs. simpl.
  destruct (h NewObjectId e1) as [id e2] eqn:Hid.
  destruct (h (G_Create _ _) e2) as [[fs create_err] e3] eqn:Hc.
  destruct (h (F_SetId fs id) e3) as [u e4] eqn:Hset. simpl.
  destruct (h (F_Write fs data) e4) as [[n write_err] e5] eqn:Hw.
  destruct (h (F_Close fs) e5) as [close_err e6] eqn:Hcl.
  unfold CreateGridFs. unfold_prog. answer.
  destruct create_err as [e|]; simpl; answer.
  { read_trace. auto. }
  destruct write_err as [e|]; simpl; answer.
  { read_trace. auto. }
  destruct close_err as [e|]; simpl; answer; read_trace; auto.
Qed.

(** X1.  A selector that is neither nil, a [bson.M] nor a
    [bson.ObjectId] is turned down by [UpsertDoc], [RemoveDoc],
    [SoftRemoveDoc] and [UpdateDoc] with [errUnSupportType], and none of
    them makes a database call. *)
Lemma unsupported_selector_rejected (d : Dao) (collection : string)
    (selector update : value) (m : mapref) (w : world S) :
  is_nil selector = false ->
  supported_selector selector = false ->
  ((run h (UpsertDoc d collection selector update) w).1
     = Returned (None, Some errUnSupportType) /\
   existsb is_db (calls_of h (UpsertDoc d collection selector update) w)
     = false) /\
  ((run h (RemoveDoc d collection selector) w).1
     = Returned (Some errUnSupportType) /\
   existsb is_db (calls_of h (RemoveDoc d collection selector) w) = false) /\
  ((run h (SoftRemoveDoc d collection selector) w).1
     = Returned (Some errUnSupportType) /\
   existsb is_db (calls_of h (SoftRemoveDoc d collection selector) w)
     = false) /\
  ((run h (UpdateDoc d collection selector m) w).1
     = Returned (Some errUnSupportType) /\
   existsb is_db (calls_of h (UpdateDoc d collection selector m) w) = false).
Proof.
  intros Hnil Hsup.
  repeat split.
  all: unfold UpsertDoc, RemoveDoc, SoftRemoveDoc, UpdateDoc.
  all: destruct selector; try discriminate; destruct m; unfold_prog; answer.
  all: repeat match goal with
       | |- context [match ?x with Some _ => _ | None => _ end] =>
           destruct x; simpl
       end; answer.
  all: read_trace; reflexivity.
Qed.

(** C2.  [FindOne] with a selector that is neither nil, a [bson.M] nor a
    [bson.ObjectId] does not return [errUnSupportType]: its query handle is
    still nil when [One] is called on it, and the call panics.  No
    database call is made. *)
Theorem FindOne_unsupported_selector_panics (d : Dao) (collection : string)
    (query : value) (w : world S) :
  is_nil query = false ->
  supported_selector query = false ->
  (run h (FindOne d collection query) w).1 = Panicked nil_dereference /\
  (run h (FindOne d collection query) w).1
    <> Returned (VNil, Some errUnSupportType) /\
  calls_of h (FindOne d collection query) w =
    [S_Copy (Session d);
     S_Close (h (S_Copy (Session d)) (w_env w)).1].
Proof.
  intros Hnil Hsup.
  assert (Hrun : (run h (FindOne d collection query) w).1
                 = Panicked nil_dereference).
  { unfold FindOne. destruct query; try discriminate; unfold_prog; answer;
      reflexivity. }
  split; [exact Hrun|]. split; [rewrite Hrun; discriminate|].
  unfold FindOne. destruct query; try discriminate; unfold_prog; answer.
  all: read_trace; reflexivity.
Qed.

(** Deleting a key from a map object, seen through [map_entries]. *)
Lemma map_entries_delete (hp : heap) (m : mapref) (k : string) :
  map_entries (mem_step (MapDelete m k) hp).2 m = delete k (map_entries hp m).
Proof.
  destruct m as [|l]; simpl.
  - symmetry. apply delete_empty.
  - rewrite lookup_alter_eq. destruct (hp !! l); simpl; [reflexivity|].
    symmetry. apply delete_empty.
Qed.

Lemma heap_delete_other (hp : heap) (m : mapref) (k : string) (l : loc) :
  m <> MapAt l -> (mem_step (MapDelete m k) hp).2 !! l = hp !! l.
Proof.
  intros Hne. destruct m as [|l']; simpl; [reflexivity|].
  apply lookup_alter_ne. congruence.
Qed.

Lemma stripped_entries (hp : heap) (update : mapref) :
  map_entries (stripped hp update) update =
  delete "create_at" (delete "_id" (map_entries hp update)).
Proof.
  unfold stripped.
  destruct (map_entries hp update !! "_id") eqn:H1.
  - destruct (map_entries _ update !! "create_at") eqn:H2.
    + rewrite !map_entries_delete. reflexivity.
    + rewrite map_entries_delete in *. symmetry. apply delete_id. exact H2.
  - rewrite (delete_id _ _ H1).
    destruct (map_entries hp update !! "create_at") eqn:H2.
    + rewrite map_entries_delete. reflexivity.
    + symmetry. apply delete_id. exact H2.
Qed.

Lemma stripped_other (hp : heap) (update : mapref) (l : loc) :
  update <> MapAt l -> stripped hp update !! l = hp !! l.
Proof.
  intros Hne. unfold stripped.
  destruct (map_entries hp update !! "_id");
    destruct (map_entries _ update !! "create_at");
    rewrite ?heap_delete_other by exact Hne; reflexivity.
Qed.

(** What [UpdateDoc] does for a selector that is not nil: the two guarded
    deletions, then the call that fits the selector, with the map as it
    then is. *)
Lemma run_UpdateDoc (d : Dao) (collection : string) (selector : value)
    (update : mapref) (w : world S) :
  is_nil selector = false ->
  let '(s, e1) := h (S_Copy (Session d)) (w_env w) in
  let co := C s (Name d) collection in
  let hp := stripped (w_heap w) update in
  let sent := VM (map_entries hp update) in
  run h (UpdateDoc d collection selector update) w =
  match selector with
  | VM m =>
      let '(err, e2) := h (C_Update co (VM m) sent) e1 in
      (Returned err,
       World hp (h (S_Close s) e2).2
         (w_trace w ++ [S_Copy (Session d); C_Update co (VM m) sent;
                        S_Close s]))
  | VObjectId id =>
      let '(err, e2) := h (C_UpdateId co (VObjectId id) sent) e1 in
      (Returned err,
       World hp (h (S_Close s) e2).2
         (w_trace w ++ [S_Copy (Session d);
                        C_UpdateId co (VObjectId id) sent; S_Close s]))
  | _ =>
      (Returned (Some errUnSupportType),
       World hp (h (S_Close s) e1).2
         (w_trace w ++ [S_Copy (Session d); S_Close s]))
  end.
Proof.
  intros Hnil.
  destruct (h (S_Copy (Session d)) (w_env w)) as [s e1] eqn:Hs.
  unfold UpdateDoc, stripped.
  destruct update as [|addr].
  - destruct selector; try discriminate;
      unfold_prog; answer; repeat (rewrite lookup_empty; simpl); answer;
      rewrite <- ?app_assoc; reflexivity.
  - destruct selector; try discriminate; unfold_prog; answer;
      destruct (default ∅ (w_heap w !! addr) !! "_id"); simpl;
      match goal with
      | |- context [default ∅ (?hp !! addr) !! "create_at"] =>
          destruct (default ∅ (hp !! addr) !! "create_at"); simpl
      end;
      answer; rewrite <- ?app_assoc; reflexivity.
Qed.

(** With a nil selector [UpdateDoc] returns [errNull] before it touches
    the update map. *)
Lemma UpdateDoc_nil_selector (d : Dao) (collection : string)
    (update : mapref) (w : world S) :
  let r := run h (UpdateDoc d collection VNil update) w in
  r.1 = Returned (Some errNull) /\ w_heap r.2 = w_heap w.
Proof.
  unfold UpdateDoc. unfold_prog. answer. auto.
Qed.

(** C10.  After [UpdateDoc] with a selector that is not nil, the map
    object the caller passed as [update] has lost its top-level keys
    ["_id"] and ["create_at"] and kept its other entries; every other map
    object is as it was.  This holds also when the call returns
    [errUnSupportType]. *)
Theorem UpdateDoc_mutates_callers_map (d : Dao) (collection : string)
    (selector : value) (update : mapref) (w : world S) :
  is_nil selector = false ->
  let r := run h (UpdateDoc d collection selector update) w in
  map_entries (w_heap r.2) update =
    delete "create_at" (delete "_id" (map_entries (w_heap w) update)) /\
  (forall l, update <> MapAt l -> w_heap r.2 !! l = w_heap w !! l) /\
  (supported_selector selector = false ->
   r.1 = Returned (Some errUnSupportType)).
Proof.
  intros Hnil r. subst r.
  pose proof (run_UpdateDoc d collection selector update w Hnil) as Hrun.
  destruct (h (S_Copy (Session d)) (w_env w)) as [s e1].
  cbv beta iota zeta in Hrun. rewrite Hrun. clear Hrun.
  destruct selector; try discriminate; simpl.
  all: repeat match goal with
       | |- context [h ?c ?e] => destruct (h c e) as [? ?]; simpl
       end.
  all: split; [apply stripped_entries|].
  all: split; [intros addr Hl; apply stripped_other; exact Hl|].
  all: intros Hsup; try discriminate; reflexivity.
Qed.

(** C3, as the code has it.  For a selector that is not nil, [UpdateDoc]
    deletes the top-level keys ["_id"] and ["create_at"] from the update
    map and hands the driver the map's remaining entries as they are:
    one [Update] for a [bson.M] selector, one [UpdateId] for an
    identifier, no call for another kind of selector.  What an entry such
    as ["$set"] holds is not looked into. *)
Theorem UpdateDoc_strips_top_level_keys (d : Dao) (collection : string)
    (selector : value) (update : mapref) (w : world S) :
  is_nil selector = false ->
  let s := (h (S_Copy (Session d)) (w_env w)).1 in
  let co := C s (Name d) collection in
  let entries := map_entries (w_heap w) update in
  let sent := delete "create_at" (delete "_id" entries) in
  calls_of h (UpdateDoc d collection selector update) w =
    match selector with
    | VM m => [S_Copy (Session d); C_Update co (VM m) (VM sent); S_Close s]
    | VObjectId id =>
        [S_Copy (Session d); C_UpdateId co (VObjectId id) (VM sent);
         S_Close s]
    | _ => [S_Copy (Session d); S_Close s]
    end /\
  sent !! "_id" = None /\
  sent !! "create_at" = None /\
  (forall k, k <> "_id" -> k <> "create_at" -> sent !! k = entries !! k).
Proof.
  intros Hnil s co entries sent. subst s co entries sent.
  split.
  - unfold calls_of.
    pose proof (run_UpdateDoc d collection selector update w Hnil) as Hrun.
    destruct (h (S_Copy (Session d)) (w_env w)) as [s e1].
    cbv beta iota zeta in Hrun. rewrite Hrun. clear Hrun. rewrite stripped_entries.
    destruct selector; try discriminate; simpl.
    all: repeat match goal with
         | |- context [h ?c ?e] => destruct (h c e) as [? ?]; simpl
         end.
    all: apply drop_app_length.
  - split; [|split].
    + rewrite lookup_delete_ne by discriminate. apply lookup_delete_eq.
    + apply lookup_delete_eq.
    + intros k H1 H2. rewrite !lookup_delete_ne by congruence. reflexivity.
Qed.

(** ** Reference resolution *)

Ltac unfold_ref :=
  unfold DBRef, DBRefId, id_format_error, reflect_Kind, to_string,
    ObjectIdHex_or_panic; unfold_prog.

Lemma map_entries_at (hp : heap) (l : loc) (em : gmap string value) :
  hp !! l = Some em -> map_entries hp (MapAt l) = em.
Proof. intros H. simpl. rewrite H. reflexivity. Qed.

Lemma map_entries_alter (hp : heap) (l : loc) (em : gmap string value)
    (f : gmap string value -> gmap string value) :
  hp !! l = Some em -> map_entries (alter f l hp) (MapAt l) = f em.
Proof. intros H. simpl. rewrite lookup_alter_eq, H. reflexivity. Qed.

(** Both resolvers start alike: with the field present and holding an
    object with an ["id"] entry, they delete the field and then test the
    identifier. *)
Lemma run_DBRef_test (Pluralize : string -> string) (field : string)
    (t : reflect_Type) (l : loc) (em refer : gmap string value) (id : value)
    (w : world S) :
  w_heap w !! l = Some em ->
  em !! field = Some (VMap refer) ->
  refer !! "id" = Some id ->
  let w1 := World (alter (delete field) l (w_heap w)) (w_env w) (w_trace w) in
  run h (DBRef Pluralize field t (MapAt l)) w =
    run h (bad ← id_format_error id;
           if (bad : bool)
           then mret (Some (Errorf "id format error [%v]" id))
           else
             s ← to_string id;
             oid ← ObjectIdHex_or_panic s;
             map_assign (MapAt l) (field ++ "_ref")
               (VDBRef (ToLower (Pluralize (Name_of t))) (VObjectId oid) "");;
             mret None) w1 /\
  run h (DBRefId field (MapAt l)) w =
    run h (bad ← id_format_error id;
           if (bad : bool)
           then mret (Some (Errorf "id format error [%v]" id))
           else
             s ← to_string id;
             oid ← ObjectIdHex_or_panic s;
             map_assign (MapAt l) (field ++ "_ref.$id") (VObjectId oid);;
             mret None) w1.
Proof.
  intros Hl Hf Hid. unfold DBRef, DBRefId. unfold_prog.
  rewrite Hl. simpl. rewrite Hf, Hid. simpl. split; reflexivity.
Qed.

(** C4.  With the field present and holding an object whose ["id"] entry
    is nil, which is not a string, [DBRef] and [DBRefId] do not return the
    format error: taking the kind of the nil type panics.  The field has
    been deleted from the caller's map by then, and nothing is written. *)
Theorem DBRef_nil_id_panics (Pluralize : string -> string) (field : string)
    (t : reflect_Type) (l : loc) (em refer : gmap string value)
    (w : world S) :
  w_heap w !! l = Some em ->
  em !! field = Some (VMap refer) ->
  refer !! "id" = Some VNil ->
  let r := run h (DBRef Pluralize field t (MapAt l)) w in
  let r' := run h (DBRefId field (MapAt l)) w in
  r.1 = Panicked nil_dereference /\
  map_entries (w_heap r.2) (MapAt l) = delete field em /\
  r'.1 = Panicked nil_dereference /\
  map_entries (w_heap r'.2) (MapAt l) = delete field em.
Proof.
  intros Hl Hf Hid r r'. subst r r'.
  destruct (run_DBRef_test Pluralize field t l em refer VNil w Hl Hf Hid)
    as [-> ->].
  unfold_ref. rewrite lookup_alter_eq, Hl. simpl. auto.
Qed.

(** An identifier of type [bson.ObjectId] has kind string without being a
    [string]: the type assertion panics, again after the deletion. *)
Lemma DBRef_ObjectId_id_panics (Pluralize : string -> string) (field : string)
    (t : reflect_Type) (l : loc) (em refer : gmap string value)
    (x : ObjectId) (w : world S) :
  w_heap w !! l = Some em ->
  em !! field = Some (VMap refer) ->
  refer !! "id" = Some (VObjectId x) ->
  let r := run h (DBRef Pluralize field t (MapAt l)) w in
  let r' := run h (DBRefId field (MapAt l)) w in
  r.1 = Panicked interface_conversion /\
  map_entries (w_heap r.2) (MapAt l) = delete field em /\
  r'.1 = Panicked interface_conversion /\
  map_entries (w_heap r'.2) (MapAt l) = delete field em.
Proof.
  intros Hl Hf Hid r r'. subst r r'.
  destruct (run_DBRef_test Pluralize field t l em refer _ w Hl Hf Hid)
    as [-> ->].
  unfold_ref. rewrite lookup_alter_eq, Hl. simpl. auto.
Qed.

(** X2.  For every other identifier that is not a string, and for a
    string that is no identifier in hexadecimal, [DBRef] and [DBRefId]
    return the format error after the field has been deleted, and
    nothing is written. *)
Lemma DBRef_format_error_after_delete (Pluralize : string -> string)
    (field : string) (t : reflect_Type) (l : loc)
    (em refer : gmap string value) (id : value) (w : world S) :
  w_heap w !! l = Some em ->
  em !! field = Some (VMap refer) ->
  refer !! "id" = Some id ->
  (exists k, TypeOf_Kind id = Some k /\ k <> KString) \/
  (exists s, id = VString s /\ IsObjectIdHex s = false) ->
  let r := run h (DBRef Pluralize field t (MapAt l)) w in
  let r' := run h (DBRefId field (MapAt l)) w in
  r.1 = Returned (Some (Errorf "id format error [%v]" id)) /\
  map_entries (w_heap r.2) (MapAt l) = delete field em /\
  r'.1 = Returned (Some (Errorf "id format error [%v]" id)) /\
  map_entries (w_heap r'.2) (MapAt l) = delete field em.
Proof.
  intros Hl Hf Hid Hbad r r'. subst r r'.
  destruct (run_DBRef_test Pluralize field t l em refer _ w Hl Hf Hid)
    as [-> ->].
  destruct Hbad as [(k & Hk & Hne)|(s & -> & Hhex)].
  - unfold_ref. rewrite Hk. simpl.
    destruct k; try congruence; simpl; rewrite lookup_alter_eq, Hl; auto.
  - unfold_ref. rewrite Hhex. simpl. rewrite lookup_alter_eq, Hl. auto.
Qed.

(** *** Identifiers in hexadecimal *)

Lemma fromHexChar_digit (a : ascii) (v : N) :
  fromHexChar a = Some v -> (v < 16)%N /\ hex_digit v = lower_ascii a.
Proof.
  destruct a as [[] [] [] [] [] [] [] []]; vm_compute; intros H;
    first [discriminate H | injection H as <-; split; reflexivity].
Qed.

Lemma byte_of_digits (hi lo : N) :
  (hi < 16)%N -> (lo < 16)%N ->
  let n := N_of_ascii (ascii_of_N (hi * 16 + lo)) in
  (n / 16 = hi)%N /\ (n mod 16 = lo)%N.
Proof.
  intros Hhi Hlo n. subst n.
  rewrite N_ascii_embedding by lia.
  split.
  - symmetry. apply (N.div_unique _ _ _ lo); lia.
  - symmetry. apply (N.mod_unique _ _ hi); lia.
Qed.

Lemma string_pairs_ind (P : string -> Prop) :
  P EmptyString ->
  (forall a, P (String a EmptyString)) ->
  (forall a b s, P s -> P (String a (String b s))) ->
  forall s, P s.
Proof.
  intros H0 H1 H2. fix IH 1. intros [|a [|b s]].
  - exact H0.
  - apply H1.
  - apply H2. apply IH.
Qed.

Lemma hex_decode_encode (s d : string) :
  hex_DecodeString s = Some d ->
  hex_EncodeToString d = ToLower s /\
  String.length s = (2 * String.length d)%nat.
Proof.
  revert d. induction s as [|a|a b s IH] using string_pairs_ind; intros d H.
  - injection H as <-. split; reflexivity.
  - discriminate H.
  - simpl in H.
    destruct (fromHexChar a) as [hi|] eqn:Ha; [|discriminate H].
    destruct (fromHexChar b) as [lo|] eqn:Hb; [|discriminate H].
    destruct (hex_DecodeString s) as [tl|] eqn:Hs; [|discriminate H].
    injection H as <-.
    destruct (fromHexChar_digit a hi Ha) as [Hhi Ea].
    destruct (fromHexChar_digit b lo Hb) as [Hlo Eb].
    destruct (byte_of_digits hi lo Hhi Hlo) as [Hq Hr].
    destruct (IH tl eq_refl) as [IHe IHl].
    split.
    + cbn [hex_EncodeToString ToLower]. rewrite Hq, Hr, Ea, Eb, IHe.
      reflexivity.
    + cbn [String.length]. rewrite IHl. lia.
Qed.

(** A string that [IsObjectIdHex] accepts decodes to twelve bytes, and
    these read back in hexadecimal as the string in lower case. *)
Lemma IsObjectIdHex_decodes (s : string) :
  IsObjectIdHex s = true ->
  exists oid, ObjectIdHex s = Some oid /\ Hex oid = ToLower s /\
              String.length oid = 12%nat.
Proof.
  unfold IsObjectIdHex, ObjectIdHex, Hex. intros H.
  destruct (String.length s =? 24)%nat eqn:Hlen; [|discriminate H].
  destruct (hex_DecodeString s) as [d|] eqn:Hd; [|discriminate H].
  destruct (hex_decode_encode s d Hd) as [He Hl].
  apply Nat.eqb_eq in Hlen.
  assert (Hd12 : String.length d = 12%nat) by lia.
  exists d. rewrite Hd12. auto.
Qed.

Lemma hex_DecodeString_all_hex (s : string) :
  is_Some (hex_DecodeString s) <->
  Nat.even (String.length s) = true /\ all_hex s = true.
Proof.
  induction s as [|a|a b s IH] using string_pairs_ind.
  - simpl. split; [auto|]. intros _. eauto.
  - simpl. split; [intros [d H]; discriminate H|].
    intros [H _]. discriminate H.
  - cbn [hex_DecodeString String.length all_hex].
    change (Nat.even (Datatypes.S (Datatypes.S (String.length s))))
      with (Nat.even (String.length s)).
    unfold is_hex_digit.
    destruct (fromHexChar a) as [hi|]; [|split; [intros [d H]|intros [_ H]];
                                         discriminate H].
    destruct (fromHexChar b) as [lo|]; [|split; [intros [d H]|intros [_ H]];
                                         discriminate H].
    simpl andb. rewrite <- IH.
    destruct (hex_DecodeString s) as [tl|].
    + split; eauto.
    + split; intros [d H]; discriminate H.
Qed.

(** [IsObjectIdHex] accepts exactly the strings of 24 hexadecimal
    digits. *)
Lemma IsObjectIdHex_iff (s : string) :
  IsObjectIdHex s = true <->
  String.length s = 24%nat /\ all_hex s = true.
Proof.
  unfold IsObjectIdHex.
  destruct (String.length s =? 24)%nat eqn:Hlen; simpl.
  - apply Nat.eqb_eq in Hlen.
    pose proof (hex_DecodeString_all_hex s) as Hd. rewrite Hlen in Hd.
    destruct (hex_DecodeString s) as [d|].
    + split; [intros _|reflexivity]. split; [exact Hlen|].
      apply Hd. eauto.
    + split; [discriminate|]. intros [_ Hall].
      destruct (proj2 Hd (conj eq_refl Hall)) as [d H]. discriminate H.
  - apply Nat.eqb_neq in Hlen. split; [discriminate|]. intros [H _].
    contradiction.
Qed.

(** With the field present and holding an object whose ["id"] is an
    identifier in hexadecimal, [DBRef] replaces the field by a reference
    under [field ++ "_ref"]: the decoded identifier and the lower-cased
    plural of the type's name. *)
Lemma DBRef_resolves (Pluralize : string -> string) (field : string)
    (t : reflect_Type) (l : loc) (em refer : gmap string value)
    (hex : string) (w : world S) :
  w_heap w !! l = Some em ->
  em !! field = Some (VMap refer) ->
  refer !! "id" = Some (VString hex) ->
  IsObjectIdHex hex = true ->
  let r := run h (DBRef Pluralize field t (MapAt l)) w in
  exists oid,
    ObjectIdHex hex = Some oid /\ Hex oid = ToLower hex /\
    r.1 = Returned None /\
    map_entries (w_heap r.2) (MapAt l) =
      <[field ++ "_ref" :=
          VDBRef (ToLower (Pluralize (Name_of t))) (VObjectId oid) ""]>
        (delete field em) /\
    (forall l', l' <> l -> w_heap r.2 !! l' = w_heap w !! l') /\
    w_trace r.2 = w_trace w.
Proof.
  intros Hl Hf Hid Hhex r. subst r.
  destruct (IsObjectIdHex_decodes hex Hhex) as (oid & Hoid & Hback & _).
  exists oid. split; [exact Hoid|]. split; [exact Hback|].
  destruct (run_DBRef_test Pluralize field t l em refer _ w Hl Hf Hid)
    as [-> _].
  unfold_ref. rewrite Hhex. simpl. rewrite Hoid. simpl.
  split; [reflexivity|]. split; [|split; [|reflexivity]].
  - rewrite !lookup_alter_eq, Hl. reflexivity.
  - intros l' Hne. rewrite !lookup_alter_ne by congruence. reflexivity.
Qed.

(** C8.  Given a map whose field ["author"] holds an object with an
    identifier of 24 hexadecimal characters under ["id"], and the type
    descriptor named ["Author"], [DBRef] deletes ["author"] from the map
    and writes under ["author_ref"] a reference with that identifier and
    the collection name ["authors"], the lower-cased plural of the type's
    name. *)
Theorem DBRef_author_reference (Pluralize : string -> string) (l : loc)
    (em refer : gmap string value) (hex : string) (w : world S) :
  w_heap w !! l = Some em ->
  em !! "author" = Some (VMap refer) ->
  refer !! "id" = Some (VString hex) ->
  String.length hex = 24%nat ->
  all_hex hex = true ->
  Pluralize "Author" = "Authors" ->
  let r := run h (DBRef Pluralize "author" {| Name_of := "Author" |}
                    (MapAt l)) w in
  exists oid,
    ObjectIdHex hex = Some oid /\ Hex oid = ToLower hex /\
    r.1 = Returned None /\
    map_entries (w_heap r.2) (MapAt l) =
      <["author_ref" := VDBRef "authors" (VObjectId oid) ""]>
        (delete "author" em) /\
    map_entries (w_heap r.2) (MapAt l) !! "author" = None /\
    (forall l', l' <> l -> w_heap r.2 !! l' = w_heap w !! l').
Proof.
  intros Hl Hf Hid Hlen Hall Hplural r. subst r.
  assert (Hhex : IsObjectIdHex hex = true)
    by (apply IsObjectIdHex_iff; split; assumption).
  destruct (DBRef_resolves Pluralize "author" {| Name_of := "Author" |}
              l em refer hex w Hl Hf Hid Hhex)
    as (oid & Hoid & Hback & Hret & Hmap & Hother & _).
  exists oid. cbn [Name_of] in Hmap. rewrite Hplural in Hmap.
  change (ToLower "Authors") with "authors" in Hmap.
  change (String.append "author" "_ref") with "author_ref" in Hmap.
  repeat split; try assumption.
  rewrite Hmap. rewrite lookup_insert_ne by discriminate.
  apply lookup_delete_eq.
Qed.

(** ** Queries *)

Lemma run_Find (d : Dao) (collection : string) (query : value) (page : Page)
    (sortKeys : list string) (w : world S) :
  is_nil query = false ->
  let '(s, e1) := h (S_Copy (Session d)) (w_env w) in
  let q := paged_query (C s (Name d) collection) query page sortKeys in
  run h (Find d collection query page sortKeys) w =
    (Returned (Some q, None),
     World (w_heap w) (h (S_Close s) e1).2
       (w_trace w ++ [S_Copy (Session d); S_Close s])).
Proof.
  intros Hnil. destruct (h (S_Copy (Session d)) (w_env w)) as [s e1] eqn:Hs.
  unfold Find, paged_query.
  destruct query; try discriminate; unfold_prog; answer;
    rewrite <- ?app_assoc; reflexivity.
Qed.

Lemma run_FindDoc (d : Dao) (collection : string) (query : value)
    (page : Page) (sortKeys : list string) (w : world S) :
  is_nil query = false ->
  let '(s, e1) := h (S_Copy (Session d)) (w_env w) in
  let q := paged_query (C s (Name d) collection) query page sortKeys in
  let '(results, err, e2) := h (Q_All q) e1 in
  run h (FindDoc d collection query page sortKeys) w =
    (Returned (results, err),
     World (w_heap w) (h (S_Close s) e2).2
       (w_trace w ++ [S_Copy (Session d); Q_All q; S_Close s])).
Proof.
  intros Hnil. destruct (h (S_Copy (Session d)) (w_env w)) as [s e1] eqn:Hs.
  cbv zeta.
  destruct (h (Q_All _) e1) as [[results err] e2] eqn:Hall.
  unfold FindDoc, paged_query in *.
  destruct query; try discriminate; unfold_prog; answer;
    rewrite <- ?app_assoc; reflexivity.
Qed.

(** [FindOne] with a filter map: the count first; an error of the count
    is returned; a count above one gives [mgo.ErrNotFound] without a
    fetch; otherwise the fetch decides. *)
Lemma run_FindOne_filter (d : Dao) (collection : string)
    (m : gmap string value) (w : world S) :
  let '(s, e1) := h (S_Copy (Session d)) (w_env w) in
  let q := C_Find (C s (Name d) collection) (VM m) in
  let '(cnt, count_err, e2) := h (Q_Count q) e1 in
  run h (FindOne d collection (VM m)) w =
    match count_err with
    | Some e =>
        (Returned (VNil, Some e),
         World (w_heap w) (h (S_Close s) e2).2
           (w_trace w ++ [S_Copy (Session d); Q_Count q; S_Close s]))
    | None =>
        if 1 <? cnt
        then (Returned (VNil, Some ErrNotFound),
              World (w_heap w) (h (S_Close s) e2).2
                (w_trace w ++ [S_Copy (Session d); Q_Count q; S_Close s]))
        else let '(result, err, e3) := h (Q_One q) e2 in
             (Returned (result, err),
              World (w_heap w) (h (S_Close s) e3).2
                (w_trace w ++ [S_Copy (Session d); Q_Count q; Q_One q;
                               S_Close s]))
    end.
Proof.
  destruct (h (S_Copy (Session d)) (w_env w)) as [s e1] eqn:Hs. cbv zeta.
  destruct (h (Q_Count _) e1) as [[cnt count_err] e2] eqn:Hc.
  unfold FindOne. unfold_prog. answer.
  destruct count_err as [e|]; simpl; answer.
  { rewrite <- ?app_assoc. reflexivity. }
  destruct (1 <? cnt); simpl; answer; rewrite <- ?app_assoc; reflexivity.
Qed.

(** [FindOne] with an identifier fetches by identifier, without a
    count. *)
Lemma run_FindOne_id (d : Dao) (collection : string) (id : ObjectId)
    (w : world S) :
  let '(s, e1) := h (S_Copy (Session d)) (w_env w) in
  let q := C_FindId (C s (Name d) collection) (VObjectId id) in
  let '(result, err, e2) := h (Q_One q) e1 in
  run h (FindOne d collection (VObjectId id)) w =
    (Returned (result, err),
     World (w_heap w) (h (S_Close s) e2).2
       (w_trace w ++ [S_Copy (Session d); Q_One q; S_Close s])).
Proof.
  destruct (h (S_Copy (Session d)) (w_env w)) as [s e1] eqn:Hs. cbv zeta.
  destruct (h (Q_One _) e1) as [[result err] e2] eqn:Ho.
  unfold FindOne. unfold_prog. answer. rewrite <- ?app_assoc. reflexivity.
Qed.

(** ** Soft removal *)

Lemma fresh_map_filled (hp : heap) (l : loc) (t1 t2 : value) :
  default ∅
    (alter (<["is_delete" := VBool true]>) l
       (alter (<["delete_at" := t2]>) l
          (alter (<["modify_at" := t1]>) l (<[l := ∅]> hp))) !! l)
  = soft_delete_fields t1 t2.
Proof.
  rewrite !lookup_alter_eq, lookup_insert_eq. reflexivity.
Qed.

(** [SoftRemoveDoc] with a selector that is not nil reads the clock twice
    and makes one call: an [Update] or [UpdateId] whose document is
    [{"$set": {modify_at, delete_at, is_delete: true}}], or none for an
    unsupported selector. *)
Lemma run_SoftRemoveDoc (d : Dao) (collection : string) (selector : value)
    (w : world S) :
  is_nil selector = false ->
  let '(s, e1) := h (S_Copy (Session d)) (w_env w) in
  let co := C s (Name d) collection in
  let '(t1, e2) := h Now e1 in
  let '(t2, e3) := h Now e2 in
  let update := set_document (soft_delete_fields t1 t2) in
  let r := run h (SoftRemoveDoc d collection selector) w in
  match selector with
  | VM m =>
      let '(err, e4) := h (C_Update co (VM m) update) e3 in
      r.1 = Returned err /\
      w_env r.2 = (h (S_Close s) e4).2 /\
      w_trace r.2 = (w_trace w ++ [S_Copy (Session d); Now; Now;
                                   C_Update co (VM m) update; S_Close s])%list
  | VObjectId id =>
      let '(err, e4) := h (C_UpdateId co (VObjectId id) update) e3 in
      r.1 = Returned err /\
      w_env r.2 = (h (S_Close s) e4).2 /\
      w_trace r.2 = (w_trace w ++ [S_Copy (Session d); Now; Now;
                                   C_UpdateId co (VObjectId id) update;
                                   S_Close s])%list
  | _ =>
      r.1 = Returned (Some errUnSupportType) /\
      w_env r.2 = (h (S_Close s) e3).2 /\
      w_trace r.2 = (w_trace w ++ [S_Copy (Session d); Now; Now;
                                   S_Close s])%list
  end.
Proof.
  intros Hnil. destruct (h (S_Copy (Session d)) (w_env w)) as [s e1] eqn:Hs.
  cbv zeta.
  destruct (h Now e1) as [t1 e2] eqn:H1.
  destruct (h Now e2) as [t2 e3] eqn:H2.
  unfold SoftRemoveDoc.
  destruct selector; try discriminate; unfold_prog;
    repeat first [rewrite fresh_map_filled | answer1];
    rewrite <- ?app_assoc; auto.
Qed.

(** ** Nil selectors, sessions, index keys *)

(** X3.  With a nil selector or query, [UpsertDoc], [RemoveDoc],
    [SoftRemoveDoc], [UpdateDoc], [Find], [FindDoc] and [FindOne] return
    [errNull]; the session is copied and closed and nothing else happens:
    no database call, no reading of the clock, no change to any map. *)
Theorem nil_selector_rejected (d : Dao) (collection : string)
    (update : value) (m : mapref) (page : Page) (sortKeys : list string)
    (w : world S) :
  let '(s, e1) := h (S_Copy (Session d)) (w_env w) in
  let w' := World (w_heap w) (h (S_Close s) e1).2
              (w_trace w ++ [S_Copy (Session d); S_Close s]) in
  run h (UpsertDoc d collection VNil update) w
    = (Returned (None, Some errNull), w') /\
  run h (RemoveDoc d collection VNil) w = (Returned (Some errNull), w') /\
  run h (SoftRemoveDoc d collection VNil) w = (Returned (Some errNull), w') /\
  run h (UpdateDoc d collection VNil m) w = (Returned (Some errNull), w') /\
  run h (Find d collection VNil page sortKeys) w
    = (Returned (None, Some errNull), w') /\
  run h (FindDoc d collection VNil page sortKeys) w
    = (Returned ([], Some errNull), w') /\
  run h (FindOne d collection VNil) w = (Returned (VNil, Some errNull), w').
Proof.
  destruct (h (S_Copy (Session d)) (w_env w)) as [s e1] eqn:Hs.
  unfold UpsertDoc, RemoveDoc, SoftRemoveDoc, UpdateDoc, Find, FindDoc,
    FindOne.
  unfold_prog. answer. rewrite <- !app_assoc. simpl.
  repeat split; reflexivity.
Qed.

Lemma session_free_trace {R : Type} (p : Prog R) (w : world S) :
  session_free p ->
  exists mid,
    w_trace (run h p w).2 = (w_trace w ++ mid)%list /\
    existsb is_session_call mid = false.
Proof.
  intros Hp. revert w.
  induction Hp as [r|msg|o k _ IH|c k Hc _ IH]; intros w; simpl.
  - exists []. rewrite app_nil_r. auto.
  - exists []. rewrite app_nil_r. auto.
  - destruct (mem_step o (w_heap w)) as [a hp].
    apply (IH a (World hp (w_env w) (w_trace w))).
  - destruct (h c (w_env w)) as [a e].
    destruct (IH a (World (w_heap w) e (w_trace w ++ [c])%list))
      as (mid & Ht & Hmid).
    exists (c :: mid). simpl in Ht. rewrite Ht, <- app_assoc. simpl.
    rewrite Hc. auto.
Qed.

(** A body without session calls, between the copy of the session and
    the deferred close. *)
Lemma scoped_run {R : Type} (d : Dao) (body : session -> Prog R)
    (w : world S) :
  (forall s, session_free (body s)) ->
  session_scoped h d
    (s ← sessionCopy d; defer (call (S_Close s)) (body s)) w.
Proof.
  intros Hbody. unfold session_scoped, calls_of.
  unfold sessionCopy, call, mbind, Prog_bind. simpl.
  destruct (h (S_Copy (Session d)) (w_env w)) as [s e1]. simpl.
  rewrite run_defer.
  destruct (session_free_trace (body s)
              (World (w_heap w) e1 (w_trace w ++ [S_Copy (Session d)])%list)
              (Hbody s)) as (mid & Ht & Hmid).
  exists mid. split; [|exact Hmid].
  destruct (run h (body s) _) as [[r|msg] w1]; simpl in *;
    destruct (h (S_Close s) (w_env w1)) as [u e2]; simpl;
    rewrite Ht, <- !app_assoc; apply drop_app_length.
Qed.

Ltac session_free_step :=
  first
    [ apply sf_ret
    | apply sf_panic
    | apply sf_mem; intros ?
    | apply sf_call; [reflexivity | intros ?]
    | match goal with
      | |- context [match ?x with _ => _ end] => destruct x
      end ];
  simpl.

Ltac prove_session_free :=
  intros ?; unfold_prog; repeat session_free_step.

Ltac scoped :=
  match goal with
  | |- @session_scoped _ ?R _ _ _ _ => apply (scoped_run (R := R))
  end;
  prove_session_free.

(** X4.  Every operation copies the pool session first and closes the
    copy last, on every path, a panic included, and makes no other
    session call in between. *)
Theorem operations_scope_their_session (d : Dao) (collection name : string)
    (docs selector update : value) (m : mapref) (idxKeys sortKeys : list string)
    (page : Page) (data : string) (w : world S) :
  session_scoped h d (CreateDoc d collection docs idxKeys) w /\
  session_scoped h d (UpsertDoc d collection selector update) w /\
  session_scoped h d (RemoveDoc d collection selector) w /\
  session_scoped h d (SoftRemoveDoc d collection selector) w /\
  session_scoped h d (UpdateDoc d collection selector m) w /\
  session_scoped h d (Find d collection selector page sortKeys) w /\
  session_scoped h d (FindDoc d collection selector page sortKeys) w /\
  session_scoped h d (FindOne d collection selector) w /\
  session_scoped h d (CreateGridFs d name data) w.
Proof.
  repeat split.
  - unfold CreateDoc. scoped.
  - unfold UpsertDoc. scoped.
  - unfold RemoveDoc. scoped.
  - unfold SoftRemoveDoc. scoped.
  - unfold UpdateDoc. scoped.
  - unfold Find. scoped.
  - unfold FindDoc. scoped.
  - unfold FindOne. scoped.
  - unfold CreateGridFs. scoped.
Qed.

(** X5.  [CreateDoc] with index keys of the caller ensures the index on
    exactly those keys, again unique, sparse, in the background and
    dropping duplicates, and inserts only when that call reports no
    error. *)
Theorem CreateDoc_caller_index_keys (d : Dao) (collection : string)
    (docs : value) (idxKeys : list string) (w : world S) :
  idxKeys <> [] ->
  let '(s, e1) := h (S_Copy (Session d)) (w_env w) in
  let co := C s (Name d) collection in
  let index := {| Key := idxKeys; Unique := true; DropDups := true;
                  Background := true; Sparse := true |} in
  let '(err, e2) := h (C_EnsureIndex co index) e1 in
  match err with
  | Some e =>
      (run h (CreateDoc d collection docs idxKeys) w).1 = Returned (Some e) /\
      calls_of h (CreateDoc d collection docs idxKeys) w =
        [S_Copy (Session d); C_EnsureIndex co index; S_Close s]
  | None =>
      (run h (CreateDoc d collection docs idxKeys) w).1 =
        Returned (h (C_Insert co docs) e2).1 /\
      calls_of h (CreateDoc d collection docs idxKeys) w =
        [S_Copy (Session d); C_EnsureIndex co index; C_Insert co docs;
         S_Close s]
  end.
Proof.
  intros Hkeys.
  destruct (h (S_Copy (Session d)) (w_env w)) as [s e1] eqn:Hs. simpl.
  destruct (h (C_EnsureIndex _ _) e1) as [err e2] eqn:Hi.
  unfold CreateDoc. destruct idxKeys as [|k ks]; [congruence|].
  unfold_prog. answer.
  destruct err as [e|]; simpl; answer; read_trace; auto.
Qed.

(** ** More on reference resolution *)

Lemma append_longer (s suffix : string) :
  suffix <> EmptyString -> s <> String.append s suffix.
Proof.
  intros Hne. induction s as [|c s IH].
  - change (String.append EmptyString suffix) with suffix. congruence.
  - change (String.append (String c s) suffix)
      with (String c (String.append s suffix)).
    intros [= H]. apply IH. exact H.
Qed.

(** Without an object with an ["id"] entry under the field, both
    resolvers return at once. *)
Lemma run_DBRef_no_id_object (Pluralize : string -> string) (field : string)
    (t : reflect_Type) (m : mapref) (w : world S) :
  has_id_object (map_entries (w_heap w) m !! field) = false ->
  run h (DBRef Pluralize field t m) w
    = (Returned (shape_error field (map_entries (w_heap w) m !! field)), w) /\
  run h (DBRefId field m) w
    = (Returned (shape_error field (map_entries (w_heap w) m !! field)), w).
Proof.
  intros Hno. destruct w as [hp e tr]. unfold DBRef, DBRefId. unfold_prog.
  simpl in Hno.
  destruct (map_entries hp m !! field) as [v|]; [|split; reflexivity].
  destruct v; try (split; reflexivity).
  simpl in Hno. destruct (m0 !! "id"); [discriminate Hno|].
  split; reflexivity.
Qed.

(** With such an object, whatever its identifier, the run ends with the
    field deleted and at most one entry written, under the derived
    name. *)
Lemma DBRef_entries_after (Pluralize : string -> string) (field : string)
    (t : reflect_Type) (l : loc) (em refer : gmap string value) (id : value)
    (w : world S) :
  w_heap w !! l = Some em ->
  em !! field = Some (VMap refer) ->
  refer !! "id" = Some id ->
  let r := run h (DBRef Pluralize field t (MapAt l)) w in
  let r' := run h (DBRefId field (MapAt l)) w in
  (map_entries (w_heap r.2) (MapAt l) = delete field em \/
   exists v, map_entries (w_heap r.2) (MapAt l)
             = <[String.append field "_ref" := v]> (delete field em)) /\
  (map_entries (w_heap r'.2) (MapAt l) = delete field em \/
   exists v, map_entries (w_heap r'.2) (MapAt l)
             = <[String.append field "_ref.$id" := v]> (delete field em)).
Proof.
  intros Hl Hf Hid r r'. subst r r'.
  destruct (run_DBRef_test Pluralize field t l em refer id w Hl Hf Hid)
    as [-> ->].
  destruct id; unfold_ref;
    try (rewrite lookup_alter_eq, Hl; simpl; split; left; reflexivity).
  destruct (IsObjectIdHex s) eqn:Hhex; simpl.
  2:{ rewrite lookup_alter_eq, Hl. auto. }
  destruct (IsObjectIdHex_decodes s Hhex) as (oid & -> & _). simpl.
  rewrite !lookup_alter_eq, Hl. simpl. split; right; eauto.
Qed.

(** X6.  Unless the field holds an object with an ["id"] entry, [DBRef]
    and [DBRefId] change nothing at all and do not panic: they return
    nil for an absent field, also in a nil map, the invalid-parameter
    error for a value that is no [map[string]interface{}], and the
    missing-id error for an object without ["id"]. *)
Theorem DBRef_untouched_without_id_object (Pluralize : string -> string)
    (field : string) (t : reflect_Type) (m : mapref) (w : world S) :
  has_id_object (map_entries (w_heap w) m !! field) = false ->
  let v := map_entries (w_heap w) m !! field in
  run h (DBRef Pluralize field t m) w = (Returned (shape_error field v), w) /\
  run h (DBRefId field m) w = (Returned (shape_error field v), w) /\
  (shape_error field v = None <-> v = None).
Proof.
  intros Hno v. subst v.
  destruct (run_DBRef_no_id_object Pluralize field t m w Hno) as [H1 H2].
  split; [exact H1|]. split; [exact H2|].
  destruct (map_entries (w_heap w) m !! field) as [v|]; [|tauto].
  destruct v; simpl; split; discriminate.
Qed.

Lemma has_id_object_inv (hp : heap) (m : mapref) (field : string) :
  has_id_object (map_entries hp m !! field) = true ->
  exists l em refer id,
    m = MapAt l /\ hp !! l = Some em /\ em !! field = Some (VMap refer) /\
    refer !! "id" = Some id.
Proof.
  intros Hhas. destruct m as [|l]; simpl in Hhas.
  { rewrite lookup_empty in Hhas. discriminate Hhas. }
  destruct (hp !! l) as [em|] eqn:Hl; simpl in Hhas.
  2:{ rewrite lookup_empty in Hhas. discriminate Hhas. }
  destruct (em !! field) as [v|] eqn:Hf; [|discriminate Hhas].
  destruct v; try discriminate Hhas. simpl in Hhas.
  destruct (m !! "id") as [id|] eqn:Hid; [|discriminate Hhas].
  eauto 10.
Qed.

Lemma field_gone (field suffix : string) (em : gmap string value)
    (entries : gmap string value) :
  suffix <> EmptyString ->
  (entries = delete field em \/
   exists v, entries = <[String.append field suffix := v]> (delete field em)) ->
  entries !! field = None.
Proof.
  intros Hs [->|[v ->]].
  - apply lookup_delete_eq.
  - rewrite lookup_insert_ne; [apply lookup_delete_eq|].
    intros Heq. symmetry in Heq. revert Heq. apply append_longer. exact Hs.
Qed.

(** X7.  Once the field holds an object with an ["id"] entry, the field
    is gone from the caller's map after [DBRef] and after [DBRefId],
    whatever the identifier is and however the call ends: with the
    reference written, with the format error, or with a panic. *)
Theorem DBRef_always_deletes_field (Pluralize : string -> string)
    (field : string) (t : reflect_Type) (m : mapref) (w : world S) :
  has_id_object (map_entries (w_heap w) m !! field) = true ->
  map_entries (w_heap (run h (DBRef Pluralize field t m) w).2) m !! field
    = None /\
  map_entries (w_heap (run h (DBRefId field m) w).2) m !! field = None.
Proof.
  intros Hhas.
  destruct (has_id_object_inv _ _ _ Hhas)
    as (l & em & refer & id & -> & Hl & Hf & Hid).
  destruct (DBRef_entries_after Pluralize field t l em refer id w Hl Hf Hid)
    as [H1 H2].
  split.
  - apply (field_gone field "_ref" em); [discriminate|exact H1].
  - apply (field_gone field "_ref.$id" em); [discriminate|exact H2].
Qed.

(** X8.  A second call on the same map and field returns nil and
    changes nothing, whatever the first call did: the field it would
    look at is gone.  After a format error, then, the same call made
    again reports success. *)
Theorem DBRef_second_call_is_silent (Pluralize : string -> string)
    (field : string) (t : reflect_Type) (m : mapref) (w : world S) :
  has_id_object (map_entries (w_heap w) m !! field) = true ->
  let w1 := (run h (DBRef Pluralize field t m) w).2 in
  let w1' := (run h (DBRefId field m) w).2 in
  run h (DBRef Pluralize field t m) w1 = (Returned None, w1) /\
  run h (DBRefId field m) w1' = (Returned None, w1').
Proof.
  intros Hhas w1 w1'.
  destruct (has_id_object_inv _ _ _ Hhas)
    as (l & em & refer & id & -> & Hl & Hf & Hid).
  destruct (DBRef_entries_after Pluralize field t l em refer id w Hl Hf Hid)
    as [H1 H2].
  assert (G1 : map_entries (w_heap w1) (MapAt l) !! field = None)
    by (apply (field_gone field "_ref" em); [discriminate|exact H1]).
  assert (G2 : map_entries (w_heap w1') (MapAt l) !! field = None)
    by (apply (field_gone field "_ref.$id" em); [discriminate|exact H2]).
  split.
  - destruct (run_DBRef_no_id_object Pluralize field t (MapAt l) w1) as [E _].
    { rewrite G1. reflexivity. }
    rewrite E, G1. reflexivity.
  - destruct (run_DBRef_no_id_object Pluralize field t (MapAt l) w1')
      as [_ E].
    { rewrite G2. reflexivity. }
    rewrite E, G2. reflexivity.
Qed.

(** X9.  With the field present and holding an object whose ["id"] is an
    identifier in hexadecimal, [DBRefId] replaces the field by the bare
    identifier under [field ++ "_ref.$id"]; it builds no reference and
    touches no other map. *)
Theorem DBRefId_resolves (field : string) (l : loc)
    (em refer : gmap string value) (hex : string) (w : world S) :
  w_heap w !! l = Some em ->
  em !! field = Some (VMap refer) ->
  refer !! "id" = Some (VString hex) ->
  IsObjectIdHex hex = true ->
  let r := run h (DBRefId field (MapAt l)) w in
  exists oid,
    ObjectIdHex hex = Some oid /\ Hex oid = ToLower hex /\
    r.1 = Returned None /\
    map_entries (w_heap r.2) (MapAt l) =
      <[String.append field "_ref.$id" := VObjectId oid]> (delete field em) /\
    (forall l', l' <> l -> w_heap r.2 !! l' = w_heap w !! l') /\
    w_trace r.2 = w_trace w.
Proof.
  intros Hl Hf Hid Hhex r. subst r.
  destruct (IsObjectIdHex_decodes hex Hhex) as (oid & Hoid & Hback & _).
  exists oid. split; [exact Hoid|]. split; [exact Hback|].
  destruct (run_DBRef_test (fun s => s) field {| Name_of := "" |} l em refer
              _ w Hl Hf Hid) as [_ ->].
  unfold_ref. rewrite Hhex. simpl. rewrite Hoid. simpl.
  split; [reflexivity|]. split; [|split; [|reflexivity]].
  - rewrite !lookup_alter_eq, Hl. reflexivity.
  - intros l' Hne. rewrite !lookup_alter_ne by congruence. reflexivity.
Qed.

(** ** Removal *)

(** [RemoveDoc] with a supported selector makes the one call that fits
    it and returns what the driver reports. *)
Lemma run_RemoveDoc_filter (d : Dao) (collection : string)
    (m : gmap string value) (w : world S) :
  let '(s, e1) := h (S_Copy (Session d)) (w_env w) in
  let c := C_Remove (C s (Name d) collection) (VM m) in
  let '(err, e2) := h c e1 in
  run h (RemoveDoc d collection (VM m)) w =
    (Returned err,
     World (w_heap w) (h (S_Close s) e2).2
       (w_trace w ++ [S_Copy (Session d); c; S_Close s])).
Proof.
  destruct (h (S_Copy (Session d)) (w_env w)) as [s e1] eqn:Hs. cbv zeta.
  destruct (h (C_Remove _ _) e1) as [err e2] eqn:Hr.
  unfold RemoveDoc. unfold_prog. answer. rewrite <- ?app_assoc. reflexivity.
Qed.

Lemma run_RemoveDoc_id (d : Dao) (collection : string) (id : ObjectId)
    (w : world S) :
  let '(s, e1) := h (S_Copy (Session d)) (w_env w) in
  let c := C_RemoveId (C s (Name d) collection) (VObjectId id) in
  let '(err, e2) := h c e1 in
  run h (RemoveDoc d collection (VObjectId id)) w =
    (Returned err,
     World (w_heap w) (h (S_Close s) e2).2
       (w_trace w ++ [S_Copy (Session d); c; S_Close s])).
Proof.
  destruct (h (S_Copy (Session d)) (w_env w)) as [s e1] eqn:Hs. cbv zeta.
  destruct (h (C_RemoveId _ _) e1) as [err e2] eqn:Hr.
  unfold RemoveDoc. unfold_prog. answer. rewrite <- ?app_assoc. reflexivity.
Qed.

(** ** Storing a file *)

(** [CreateGridFs] when every step succeeds. *)
Lemma run_CreateGridFs_ok (d : Dao) (name data : string) (w : world S)
    s e1 id e2 fs e3 u e4 n e5 e6 :
  h (S_Copy (Session d)) (w_env w) = (s, e1) ->
  h NewObjectId e1 = (id, e2) ->
  h (G_Create (MkGridFS s (Name d) (PrefixFS d)) name) e2
    = ((fs, None), e3) ->
  h (F_SetId fs id) e3 = (u, e4) ->
  h (F_Write fs data) e4 = ((n, None), e5) ->
  h (F_Close fs) e5 = (None, e6) ->
  (run h (CreateGridFs d name data) w).1 = Returned (id, None) /\
  w_env (run h (CreateGridFs d name data) w).2 = (h (S_Close s) e6).2.
Proof.
  intros Hs Hid Hc Hset Hw Hcl.
  unfold CreateGridFs. unfold_prog. answer. auto.
Qed.

End AnyDriver.

(** * The session of a query handle *)

Lemma paged_query_calls (co : Collection) (query : value) (page : Page)
    (sortKeys : list string) :
  let q := paged_query co query page sortKeys in
  (skip_calls q = [Offset page] /\ limit_calls q = [Limit page]
   <-> Valid page = true) /\
  (Valid page = false -> skip_calls q = [] /\ limit_calls q = []).
Proof.
  unfold paged_query. destruct (Valid page); simpl.
  - split; [tauto|discriminate].
  - split; [|tauto]. split; [intros [H _]; discriminate H|discriminate].
Qed.

Lemma session_of_paged_query (co : Collection) (query : value) (page : Page)
    (sortKeys : list string) :
  session_of (paged_query co query page sortKeys) = co_session co.
Proof. unfold paged_query. destruct (Valid page); reflexivity. Qed.

Section ClosedSessions.

Context {S : Type}.
Variable h : handler S.

(** Evaluating a query whose session is closed panics. *)
Lemma evaluate_closed (q : Query) (se : gset session * S) :
  session_of q ∈ se.1 ->
  evaluate h (Q_All q) se = Panicked session_closed /\
  evaluate h (Q_One q) se = Panicked session_closed /\
  evaluate h (Q_Count q) se = Panicked session_closed.
Proof.
  intros Hin. unfold evaluate. simpl.
  rewrite bool_decide_eq_true_2 by exact Hin. auto.
Qed.

(** C7.  [Find] with a query that is not nil returns no result set.  It
    hands back the query chain, unevaluated: the chain carries a [Skip]
    of the page's offset and a [Limit] of the page's limit exactly when
    the page is valid, and [Find] has made no database call.  The chain
    is built on the copied session, and the deferred [Close] has closed
    that session when [Find] returns, so that evaluating the handle, by
    [All], [One] or [Count], panics in the driver.  [FindDoc] builds the
    same chain and evaluates it before the session is closed: it returns
    what [All] answers. *)
Theorem Find_handle_on_closed_session (d : Dao) (collection : string)
    (query : value) (page : Page) (sortKeys : list string)
    (w : world (gset session * S)) :
  is_nil query = false ->
  let copy := h (S_Copy (Session d)) (w_env w).2 in
  let s := copy.1 in
  let q := paged_query (C s (Name d) collection) query page sortKeys in
  let find := run (watch h) (Find d collection query page sortKeys) w in
  let findDoc := run (watch h) (FindDoc d collection query page sortKeys) w in
  find.1 = Returned (Some q, None) /\
  calls_of (watch h) (Find d collection query page sortKeys) w
    = [S_Copy (Session d); S_Close s] /\
  (skip_calls q = [Offset page] /\ limit_calls q = [Limit page]
   <-> Valid page = true) /\
  session_of q = s /\
  s ∈ (w_env find.2).1 /\
  evaluate h (Q_All q) (w_env find.2) = Panicked session_closed /\
  evaluate h (Q_One q) (w_env find.2) = Panicked session_closed /\
  evaluate h (Q_Count q) (w_env find.2) = Panicked session_closed /\
  findDoc.1 = Returned (h (Q_All q) copy.2).1 /\
  evaluate h (Q_All q) ((w_env w).1 ∖ {[ s ]}, copy.2)
    = Returned (h (Q_All q) copy.2).1 /\
  calls_of (watch h) (FindDoc d collection query page sortKeys) w
    = [S_Copy (Session d); Q_All q; S_Close s].
Proof.
  intros Hnil copy s q find findDoc.
  pose proof (run_Find (watch h) d collection query page sortKeys w Hnil)
    as HF.
  pose proof (run_FindDoc (watch h) d collection query page sortKeys w Hnil)
    as HD.
  subst find findDoc q s copy. unfold calls_of.
  destruct w as [hp [closed e] tr]. cbn [w_env w_heap w_trace fst snd] in *.
  unfold watch at 1 in HF. unfold watch at 1 in HD.
  cbn [fst snd] in HF, HD.
  destruct (h (S_Copy (Session d)) e) as [s e1]. cbn [fst snd] in *.
  cbv zeta in HF, HD.
  set (q := paged_query (C s (Name d) collection) query page sortKeys) in *.
  assert (Hq : session_of q = s) by apply session_of_paged_query.
  unfold watch at 1 in HD. cbn [fst snd] in HD.
  destruct (h (Q_All q) e1) as [[results err] e2] eqn:HA.
  cbn [fst snd] in *. rewrite ?HA.
  rewrite HF, HD. cbn [fst snd w_env w_trace].
  assert (Hin : s ∈ (watch h (S_Close s) (closed ∖ {[ s ]}, e1)).2.1).
  { unfold watch. cbn [fst snd]. destruct (h (S_Close s) e1) as [u e3].
    cbn [closed_after fst snd]. apply elem_of_union_l.
    apply elem_of_singleton. reflexivity. }
  destruct (evaluate_closed q (watch h (S_Close s) (closed ∖ {[ s ]}, e1)).2)
    as (Hall & Hone & Hcount); [rewrite Hq; exact Hin|].
  split; [reflexivity|].
  split; [apply drop_app_length|].
  split; [apply (proj1 (paged_query_calls _ _ _ _))|].
  split; [exact Hq|].
  split; [exact Hin|].
  split; [exact Hall|]. split; [exact Hone|]. split; [exact Hcount|].
  split; [reflexivity|].
  split.
  { unfold evaluate. cbn [session_used fst snd]. rewrite Hq.
    rewrite bool_decide_eq_false_2; [rewrite HA; reflexivity|].
    intros Hbad. apply elem_of_difference in Hbad as [_ Hbad].
    apply Hbad. apply elem_of_singleton. reflexivity. }
  apply drop_app_length.
Qed.

End ClosedSessions.

(** * Properties in the reference model of the database *)

Section InStore.

Variable matches : value -> doc -> bool.
Variable sort_by : list string -> list doc -> list doc.
Context {E : Type}.
Variable other : handler (store * E).

Abbreviation model := (store_handler matches sort_by other).

(** A call that is no database call leaves the store as it is. *)
Lemma store_kept (c : cmd) (se : store * E) :
  is_db c = false -> (model c se).2.1 = se.1.
Proof.
  intros Hc. unfold store_handler.
  destruct c; try discriminate Hc; simpl;
    destruct (other _ se) as [got [st env]]; reflexivity.
Qed.

Lemma default_sort_keys (sortKeys : list string) (A : Type) (x y : A) :
  match default_sort sortKeys with
  | [] => x
  | _ :: _ => y
  end = y.
Proof. destruct sortKeys; reflexivity. Qed.

(** The rows of the query of [Find] and [FindDoc] without a valid page:
    all the matches, sorted. *)
Lemma rows_unpaged (co : Collection) (query : value) (page : Page)
    (sortKeys : list string) (s : store) :
  Valid page = false ->
  let p := plan_of (paged_query co query page sortKeys) in
  plan_in_model p = true /\
  rows matches sort_by p s =
    sort_by (default_sort sortKeys)
      (List.filter (matches query) (docs_of s co)).
Proof.
  intros Hv. unfold paged_query. rewrite Hv. simpl. split; [reflexivity|].
  unfold rows, rows_unlimited. simpl. rewrite default_sort_keys.
  reflexivity.
Qed.

(** With the page (10, 5): the sorted matches without the first ten, cut
    after five. *)
Lemma rows_paged_10_5 (co : Collection) (query : value) (page : Page)
    (sortKeys : list string) (s : store) :
  Valid page = true -> Offset page = 10 -> Limit page = 5 ->
  let p := plan_of (paged_query co query page sortKeys) in
  plan_in_model p = true /\
  rows matches sort_by p s =
    take 5 (drop 10 (sort_by (default_sort sortKeys)
                       (List.filter (matches query) (docs_of s co)))).
Proof.
  intros Hv Ho Hl. unfold paged_query. rewrite Hv. simpl.
  unfold plan_in_model, rows, rows_unlimited. simpl. rewrite Ho, Hl.
  split; [reflexivity|]. simpl. rewrite default_sort_keys. reflexivity.
Qed.

(** X10.  [FindDoc] in the reference model.  Its one database call is
    [All] on the query chain, made between the copy of the session and
    its close.  Without a valid page the chain has no [Skip] and no
    [Limit], whatever offset and limit the page holds, and [FindDoc]
    returns all the matches in sorted order.  With a valid page of
    offset 10 and limit 5 it returns the sorted matches without the
    first ten, at most five of them. *)
Theorem FindDoc_pagination (d : Dao) (collection : string) (query : value)
    (page : Page) (sortKeys : list string) (w : world (store * E)) :
  is_nil query = false ->
  let s := (model (S_Copy (Session d)) (w_env w)).1 in
  let co := C s (Name d) collection in
  let q := paged_query co query page sortKeys in
  let found :=
    sort_by (default_sort sortKeys)
      (List.filter (matches query) (docs_of (w_env w).1 co)) in
  let findDoc := run model (FindDoc d collection query page sortKeys) w in
  calls_of model (FindDoc d collection query page sortKeys) w =
    [S_Copy (Session d); Q_All q; S_Close s] /\
  (Valid page = false ->
   skip_calls q = [] /\ limit_calls q = [] /\
   findDoc.1 = Returned (VM <$> found, None)) /\
  (Valid page = true -> Offset page = 10 -> Limit page = 5 ->
   skip_calls q = [10] /\ limit_calls q = [5] /\
   findDoc.1 = Returned (VM <$> take 5 (drop 10 found), None) /\
   (List.length (take 5 (drop 10 found)) <= 5)%nat).
Proof.
  intros Hnil s co q found findDoc.
  pose proof (run_FindDoc model d collection query page sortKeys w Hnil)
    as HD.
  pose proof (store_kept (S_Copy (Session d)) (w_env w) eq_refl) as Hkept.
  subst findDoc found q co s.
  destruct (model (S_Copy (Session d)) (w_env w)) as [s [st e1]] eqn:Hs.
  simpl in Hkept. subst st. cbv zeta in HD.
  set (co := C s (Name d) collection) in *.
  set (q := paged_query co query page sortKeys) in *.
  assert (Hall : plan_in_model (plan_of q) = true ->
                 model (Q_All q) ((w_env w).1, e1) =
                 ((VM <$> rows matches sort_by (plan_of q) (w_env w).1, None),
                  ((w_env w).1, e1))).
  { intros Hin. unfold store_handler. simpl. rewrite Hin. reflexivity. }
  destruct (paged_query_calls co query page sortKeys) as [Hiff Hnone].
  fold q in Hiff, Hnone.
  split.
  { unfold calls_of. destruct (model (Q_All q) _) as [[results err] e2].
    rewrite HD. simpl. apply drop_app_length. }
  split.
  - intros Hv.
    destruct (rows_unpaged co query page sortKeys (w_env w).1 Hv)
      as [Hin Hrows].
    fold q in Hin, Hrows.
    destruct (Hnone Hv) as [Hsk Hli].
    repeat split; try assumption.
    rewrite (Hall Hin) in HD. rewrite HD. simpl. rewrite Hrows. reflexivity.
  - intros Hv Ho Hl.
    destruct (rows_paged_10_5 co query page sortKeys (w_env w).1 Hv Ho Hl)
      as [Hin Hrows].
    fold q in Hin, Hrows.
    destruct (proj2 Hiff Hv) as [Hsk Hli]. rewrite Ho in Hsk. rewrite Hl in Hli.
    repeat split; try assumption.
    + rewrite (Hall Hin) in HD. rewrite HD. simpl. rewrite Hrows. reflexivity.
    + rewrite length_take. lia.
Qed.

(** ** Finding one document *)

Lemma model_Count_Find (co : Collection) (query : value) (se : store * E) :
  model (Q_Count (C_Find co query)) se =
    ((Z.of_nat (List.length (List.filter (matches query) (docs_of se.1 co))),
      None), se).
Proof. destruct se as [st e]. reflexivity. Qed.

Lemma model_One_Find (co : Collection) (query : value) (se : store * E) :
  model (Q_One (C_Find co query)) se =
    (match List.filter (matches query) (docs_of se.1 co) with
     | d1 :: _ => (VM d1, None)
     | [] => (VNil, Some ErrNotFound)
     end, se).
Proof.
  destruct se as [st e]. unfold store_handler. simpl.
  unfold rows_unlimited. simpl.
  destruct (List.filter (matches query) (docs_of st co)); reflexivity.
Qed.

(** C1, as the code has it.  [FindOne] with a filter map returns the
    document when exactly one matches, and [mgo.ErrNotFound] without a
    document both when none matches and when two or more match; in the
    last case it does not fetch at all. *)
Theorem FindOne_by_filter (d : Dao) (collection : string)
    (m : gmap string value) (w : world (store * E)) :
  let s := (model (S_Copy (Session d)) (w_env w)).1 in
  let co := C s (Name d) collection in
  let q := C_Find co (VM m) in
  let found := List.filter (matches (VM m)) (docs_of (w_env w).1 co) in
  let r := run model (FindOne d collection (VM m)) w in
  (forall d1, found = [d1] -> r.1 = Returned (VM d1, None)) /\
  (found = [] -> r.1 = Returned (VNil, Some ErrNotFound)) /\
  ((2 <= List.length found)%nat ->
   r.1 = Returned (VNil, Some ErrNotFound) /\
   calls_of model (FindOne d collection (VM m)) w =
     [S_Copy (Session d); Q_Count q; S_Close s]).
Proof.
  intros s co q found r.
  pose proof (run_FindOne_filter model d collection m w) as HR.
  pose proof (store_kept (S_Copy (Session d)) (w_env w) eq_refl) as Hkept.
  subst r found q co s. unfold calls_of.
  destruct (model (S_Copy (Session d)) (w_env w)) as [s [st e1]] eqn:Hs.
  simpl in Hkept. subst st. cbv zeta in HR.
  rewrite model_Count_Find in HR. rewrite model_One_Find in HR.
  cbn [fst snd] in *.
  set (co := C s (Name d) collection) in *.
  destruct (List.filter (matches (VM m)) (docs_of (w_env w).1 co))
    as [|d1 [|d2 rest]] eqn:Hfound.
  - change (1 <? Z.of_nat (List.length (@nil doc))) with false in HR.
    cbv beta iota zeta in HR. rewrite HR. cbn [fst snd].
    split; [discriminate|]. split; [reflexivity|].
    simpl List.length. intros Hl. lia.
  - change (1 <? Z.of_nat (List.length [d1])) with false in HR.
    cbv beta iota zeta in HR. rewrite HR. cbn [fst snd].
    split; [intros d0 [= <-]; reflexivity|].
    split; [discriminate|]. simpl List.length. intros Hl. lia.
  - assert (Hcnt : (1 <? Z.of_nat (List.length (d1 :: d2 :: rest))) = true).
    { apply Z.ltb_lt. simpl List.length. lia. }
    rewrite Hcnt in HR. cbv beta iota zeta in HR. rewrite HR.
    cbn [fst snd w_trace].
    split; [discriminate|]. split; [discriminate|]. intros _.
    split; [reflexivity|]. apply drop_app_length.
Qed.

(** ** Soft removal *)

Lemma set_fields_soft_delete (t1 t2 : value) :
  set_fields (set_document (soft_delete_fields t1 t2))
  = Some (soft_delete_fields t1 t2).
Proof. reflexivity. Qed.

Lemma soft_delete_fields_outside (t1 t2 : value) (k : string) :
  k ∉ soft_delete_keys -> soft_delete_fields t1 t2 !! k = None.
Proof.
  intros Hk. unfold soft_delete_keys in Hk. unfold soft_delete_fields.
  rewrite !not_elem_of_cons in Hk. destruct Hk as (H1 & H2 & H3 & _).
  rewrite !lookup_insert_ne by congruence.
  apply lookup_empty.
Qed.


Lemma soft_deleted_same_outside (t1 t2 : value) (d0 : doc) :
  same_outside soft_delete_keys d0 (soft_delete_fields t1 t2 ∪ d0).
Proof.
  intros k Hk. symmetry. apply lookup_union_r.
  apply soft_delete_fields_outside. exact Hk.
Qed.


Lemma model_Update_set (co : Collection) (selector : value) (t1 t2 : value)
    (se : store * E) :
  let update := set_document (soft_delete_fields t1 t2) in
  let changed :=
    update_first (matches selector)
      (fun d0 => soft_delete_fields t1 t2 ∪ d0) (docs_of se.1 co) in
  model (C_Update co selector update) se =
    match changed with
    | Some ds => (None, (<[collection_key co := ds]> se.1, se.2))
    | None => (Some ErrNotFound, se)
    end /\
  forall id, selector = VD [("_id", id)] ->
  model (C_UpdateId co id update) se =
    match changed with
    | Some ds => (None, (<[collection_key co := ds]> se.1, se.2))
    | None => (Some ErrNotFound, se)
    end.
Proof.
  destruct se as [st e]. cbv zeta. split; [|intros id ->].
  all: unfold store_handler; cbn [store_step fst snd]; unfold update_step.
  all: rewrite set_fields_soft_delete.
  all: match goal with
       | |- context [update_first ?P ?f ?l] => destruct (update_first P f l)
       end; reflexivity.
Qed.

Lemma docs_of_insert (st : store) (co : Collection) (ds : list doc) :
  docs_of (<[collection_key co := ds]> st) co = ds.
Proof. unfold docs_of. rewrite lookup_insert_eq. reflexivity. Qed.

Lemma update_first_split {A : Type} (P : A -> bool) (f : A -> A)
    (l : list A) :
  match update_first P f l with
  | Some l' =>
      exists l1 x l2,
        l = (l1 ++ x :: l2)%list /\ l' = (l1 ++ f x :: l2)%list /\
        P x = true /\ List.filter P l1 = [] /\
        List.filter P l = x :: List.filter P l2
  | None => List.filter P l = []
  end.
Proof.
  induction l as [|a l IH]; simpl; [reflexivity|].
  destruct (P a) eqn:Ha.
  - exists [], a, l. simpl. rewrite Ha. auto.
  - destruct (update_first P f l) as [r|].
    + destruct IH as (l1 & x & l2 & -> & -> & Hx & Hl1 & Hf).
      exists (a :: l1), x, l2. simpl. rewrite Ha. auto.
    + exact IH.
Qed.

(** The three fields of a document the update has gone over. *)
Lemma soft_deleted_fields (t1 t2 : value) (d0 : doc) :
  (soft_delete_fields t1 t2 ∪ d0) !! "is_delete" = Some (VBool true) /\
  (soft_delete_fields t1 t2 ∪ d0) !! "delete_at" = Some t2 /\
  (soft_delete_fields t1 t2 ∪ d0) !! "modify_at" = Some t1.
Proof.
  repeat split; apply lookup_union_Some_l; reflexivity.
Qed.

(** What [SoftRemoveDoc] with a supported selector returns and leaves in
    the store, the two times being the two answers of [Now]. *)
Lemma model_SoftRemoveDoc (d : Dao) (collection : string) (selector : value)
    (w : world (store * E)) :
  supported_selector selector = true ->
  let copy := model (S_Copy (Session d)) (w_env w) in
  let now1 := model Now copy.2 in
  let now2 := model Now now1.2 in
  let co := C copy.1 (Name d) collection in
  let before := docs_of (w_env w).1 co in
  let changed :=
    update_first (matches (db_selector selector))
      (fun d0 => soft_delete_fields now1.1 now2.1 ∪ d0) before in
  let r := run model (SoftRemoveDoc d collection selector) w in
  r.1 = Returned (match changed with
                  | Some _ => None
                  | None => Some ErrNotFound
                  end) /\
  (w_env r.2).1 = match changed with
                  | Some ds => <[collection_key co := ds]> (w_env w).1
                  | None => (w_env w).1
                  end.
Proof.
  intros Hsup. cbv zeta.
  assert (Hnil : is_nil selector = false)
    by (destruct selector; try discriminate Hsup; reflexivity).
  pose proof (run_SoftRemoveDoc model d collection selector w Hnil) as HR.
  pose proof (store_kept (S_Copy (Session d)) (w_env w) eq_refl) as K0.
  destruct (model (S_Copy (Session d)) (w_env w)) as [s [st0 e1]].
  pose proof (store_kept Now (st0, e1) eq_refl) as K1.
  cbn [fst snd] in *.
  destruct (model Now (st0, e1)) as [t1 [st1 e2]].
  pose proof (store_kept Now (st1, e2) eq_refl) as K2.
  cbn [fst snd] in *.
  destruct (model Now (st1, e2)) as [t2 [st2 e3]].
  cbn [fst snd] in K0, K1, K2 |- *. subst st2 st1 st0.
  cbv zeta in HR.
  destruct (model_Update_set (C s (Name d) collection) (db_selector selector)
              t1 t2 ((w_env w).1, e3)) as [HU HUid].
  cbn [fst snd] in HU, HUid.
  destruct selector; try discriminate Hsup; cbn [db_selector] in *.
  - specialize (HUid (VObjectId id) eq_refl). rewrite HUid in HR.
    destruct (update_first _ _ _) as [ds|];
      destruct HR as (-> & -> & _); rewrite store_kept by reflexivity;
      split; reflexivity.
  - rewrite HU in HR.
    destruct (update_first _ _ _) as [ds|];
      destruct HR as (-> & -> & _); rewrite store_kept by reflexivity;
      split; reflexivity.
Qed.


(** ** Removal, and what is found afterwards *)

Lemma docs_of_session (st : store) (s s' : session) (db name : string) :
  docs_of st (C s db name) = docs_of st (C s' db name).
Proof. reflexivity. Qed.

Lemma remove_first_split {A : Type} (P : A -> bool) (l : list A) :
  match remove_first P l with
  | Some l' =>
      exists l1 x l2,
        l = (l1 ++ x :: l2)%list /\ l' = (l1 ++ l2)%list /\
        P x = true /\ List.filter P l1 = [] /\
        List.filter P l = x :: List.filter P l2
  | None => List.filter P l = []
  end.
Proof.
  induction l as [|a l IH]; simpl; [reflexivity|].
  destruct (P a) eqn:Ha.
  - exists [], a, l. simpl. rewrite Ha. auto.
  - destruct (remove_first P l) as [r|].
    + destruct IH as (l1 & x & l2 & -> & -> & Hx & Hl1 & Hf).
      exists (a :: l1), x, l2. simpl. rewrite Ha. auto.
    + exact IH.
Qed.

Lemma docs_of_insert_ne (st : store) (co : Collection) (ds : list doc)
    (key : string * string) :
  key <> collection_key co ->
  <[collection_key co := ds]> st !! key = st !! key.
Proof. intros Hne. apply lookup_insert_ne. congruence. Qed.

(** What [RemoveDoc] with a supported selector leaves in the store. *)
Lemma model_RemoveDoc (d : Dao) (collection : string) (selector : value)
    (w : world (store * E)) :
  supported_selector selector = true ->
  let r := run model (RemoveDoc d collection selector) w in
  let co := C 0%nat (Name d) collection in
  let before := (w_env w).1 in
  match remove_first (matches (db_selector selector)) (docs_of before co) with
  | Some ds =>
      r.1 = Returned None /\
      (w_env r.2).1 = <[collection_key co := ds]> before
  | None =>
      r.1 = Returned (Some ErrNotFound) /\ (w_env r.2).1 = before
  end.
Proof.
  intros Hsup r co before. subst r co before.
  pose proof (store_kept (S_Copy (Session d)) (w_env w) eq_refl) as K0.
  destruct selector; try discriminate Hsup; cbn [db_selector].
  - pose proof (run_RemoveDoc_id model d collection id w) as HR.
    destruct (model (S_Copy (Session d)) (w_env w)) as [s [st0 e1]].
    cbn [fst snd] in K0. subst st0. cbv zeta in HR.
    unfold store_handler at 1 in HR. cbn [store_step fst snd] in HR.
    unfold remove_step in HR.
    rewrite (docs_of_session _ s 0%nat) in HR.
    destruct (remove_first _ (docs_of (w_env w).1 _)) as [ds|];
      rewrite HR; cbn [fst snd w_env];
      rewrite store_kept by reflexivity; auto.
  - pose proof (run_RemoveDoc_filter model d collection m w) as HR.
    destruct (model (S_Copy (Session d)) (w_env w)) as [s [st0 e1]].
    cbn [fst snd] in K0. subst st0. cbv zeta in HR.
    unfold store_handler at 1 in HR. cbn [store_step fst snd] in HR.
    unfold remove_step in HR.
    rewrite (docs_of_session _ s 0%nat) in HR.
    destruct (remove_first _ (docs_of (w_env w).1 _)) as [ds|];
      rewrite HR; cbn [fst snd w_env];
      rewrite store_kept by reflexivity; auto.
Qed.

(** X11.  In the reference model, [RemoveDoc] with a filter map or an
    identifier deletes one document, the first match, and nothing else,
    also when several documents match; when none matches it returns
    [mgo.ErrNotFound] and the store is as before. *)
Theorem RemoveDoc_deletes_first_match (d : Dao) (collection : string)
    (selector : value) (w : world (store * E)) :
  supported_selector selector = true ->
  let r := run model (RemoveDoc d collection selector) w in
  let co := C 0%nat (Name d) collection in
  let before := docs_of (w_env w).1 co in
  let after := docs_of (w_env r.2).1 co in
  let P := matches (db_selector selector) in
  match List.filter P before with
  | [] => r.1 = Returned (Some ErrNotFound) /\ (w_env r.2).1 = (w_env w).1
  | x :: rest =>
      r.1 = Returned None /\
      (exists l1 l2,
         before = (l1 ++ x :: l2)%list /\ after = (l1 ++ l2)%list /\
         List.filter P l1 = []) /\
      List.filter P after = rest /\
      List.length before = Datatypes.S (List.length after) /\
      (forall key, key <> collection_key co ->
                   (w_env r.2).1 !! key = (w_env w).1 !! key)
  end.
Proof.
  intros Hsup r co before after P. subst r after before P.
  pose proof (model_RemoveDoc d collection selector w Hsup) as HM.
  cbv zeta in HM. fold co in HM.
  pose proof (remove_first_split (matches (db_selector selector))
                (docs_of (w_env w).1 co)) as HS.
  destruct (remove_first _ (docs_of (w_env w).1 co)) as [ds|].
  - destruct HM as [Hr Hst].
    destruct HS as (l1 & x & l2 & Hb & -> & Hx & Hl1 & Hf).
    rewrite Hf. rewrite Hst, docs_of_insert.
    split; [exact Hr|]. split; [eauto|].
    split.
    { rewrite List.filter_app, Hl1. reflexivity. }
    split.
    { rewrite Hb, !length_app. simpl. lia. }
    intros key Hne. apply docs_of_insert_ne. exact Hne.
  - destruct HM as [Hr Hst]. rewrite HS. auto.
Qed.

(** What [FindOne] returns in the reference model, by the matches. *)
Lemma model_FindOne_filter (d : Dao) (collection : string)
    (m : gmap string value) (w : world (store * E)) :
  (run model (FindOne d collection (VM m)) w).1 =
    match List.filter (matches (VM m))
            (docs_of (w_env w).1 (C 0%nat (Name d) collection)) with
    | [d1] => Returned (VM d1, None)
    | _ => Returned (VNil, Some ErrNotFound)
    end.
Proof.
  pose proof (run_FindOne_filter model d collection m w) as HR.
  pose proof (store_kept (S_Copy (Session d)) (w_env w) eq_refl) as Hkept.
  destruct (model (S_Copy (Session d)) (w_env w)) as [s [st e1]] eqn:Hs.
  simpl in Hkept. subst st. cbv zeta in HR.
  rewrite model_Count_Find in HR. rewrite model_One_Find in HR.
  cbn [fst snd] in *.
  rewrite (docs_of_session _ s 0%nat) in HR.
  destruct (List.filter (matches (VM m)) (docs_of (w_env w).1 _))
    as [|d1 [|d2 rest]] eqn:Hfound.
  - change (1 <? Z.of_nat (List.length (@nil doc))) with false in HR.
    cbv beta iota zeta in HR. rewrite HR. reflexivity.
  - change (1 <? Z.of_nat (List.length [d1])) with false in HR.
    cbv beta iota zeta in HR. rewrite HR. reflexivity.
  - assert (Hcnt : (1 <? Z.of_nat (List.length (d1 :: d2 :: rest))) = true).
    { apply Z.ltb_lt. simpl List.length. lia. }
    rewrite Hcnt in HR. cbv beta iota zeta in HR. rewrite HR. reflexivity.
Qed.

Lemma model_One_FindId (co : Collection) (id : value) (se : store * E) :
  model (Q_One (C_FindId co id)) se =
    (match List.filter (matches (VD [("_id", id)])) (docs_of se.1 co) with
     | d1 :: _ => (VM d1, None)
     | [] => (VNil, Some ErrNotFound)
     end, se).
Proof.
  destruct se as [st e]. unfold store_handler. simpl.
  unfold rows_unlimited. simpl.
  destruct (List.filter _ (docs_of st co)); reflexivity.
Qed.

Lemma model_FindOne_id (d : Dao) (collection : string) (id : ObjectId)
    (w : world (store * E)) :
  let s := (model (S_Copy (Session d)) (w_env w)).1 in
  (run model (FindOne d collection (VObjectId id)) w).1 =
    match List.filter (matches (VD [("_id", VObjectId id)]))
            (docs_of (w_env w).1 (C 0%nat (Name d) collection)) with
    | d1 :: _ => Returned (VM d1, None)
    | [] => Returned (VNil, Some ErrNotFound)
    end /\
  calls_of model (FindOne d collection (VObjectId id)) w =
    [S_Copy (Session d);
     Q_One (C_FindId (C s (Name d) collection) (VObjectId id));
     S_Close s].
Proof.
  intros s. subst s. unfold calls_of.
  pose proof (run_FindOne_id model d collection id w) as HR.
  pose proof (store_kept (S_Copy (Session d)) (w_env w) eq_refl) as Hkept.
  destruct (model (S_Copy (Session d)) (w_env w)) as [s [st e1]] eqn:Hs.
  simpl in Hkept. subst st. cbv zeta in HR.
  rewrite model_One_FindId in HR. cbn [fst snd] in *.
  rewrite (docs_of_session _ s 0%nat) in HR.
  destruct (List.filter _ (docs_of (w_env w).1 _)) as [|d1 rest];
    rewrite HR; cbn [fst snd w_trace]; (split; [reflexivity|]);
    apply drop_app_length.
Qed.

(** X12.  [FindOne] with an identifier does not count the matches: in the
    reference model it returns the first document the identifier
    matches, also when there are several, and [mgo.ErrNotFound] when
    there is none.  Its only database call is the fetch. *)
Theorem FindOne_by_id_first_match (d : Dao) (collection : string)
    (id : ObjectId) (w : world (store * E)) :
  let s := (model (S_Copy (Session d)) (w_env w)).1 in
  let co := C s (Name d) collection in
  let found := List.filter (matches (VD [("_id", VObjectId id)]))
                 (docs_of (w_env w).1 co) in
  (run model (FindOne d collection (VObjectId id)) w).1 =
    match found with
    | d1 :: _ => Returned (VM d1, None)
    | [] => Returned (VNil, Some ErrNotFound)
    end /\
  calls_of model (FindOne d collection (VObjectId id)) w =
    [S_Copy (Session d); Q_One (C_FindId co (VObjectId id)); S_Close s].
Proof. apply model_FindOne_id. Qed.

Lemma matches_after_remove (d : Dao) (collection : string) (selector : value)
    (w : world (store * E)) :
  supported_selector selector = true ->
  let co := C 0%nat (Name d) collection in
  let P := matches (db_selector selector) in
  List.filter P
    (docs_of (w_env (run model (RemoveDoc d collection selector) w).2).1 co)
  = tl (List.filter P (docs_of (w_env w).1 co)).
Proof.
  intros Hsup co P. subst P.
  pose proof (model_RemoveDoc d collection selector w Hsup) as HM.
  cbv zeta in HM. fold co in HM.
  pose proof (remove_first_split (matches (db_selector selector))
                (docs_of (w_env w).1 co)) as HS.
  destruct (remove_first _ (docs_of (w_env w).1 co)) as [ds|].
  - destruct HM as [_ ->].
    destruct HS as (l1 & x & l2 & _ & -> & _ & Hl1 & ->).
    rewrite docs_of_insert, List.filter_app, Hl1. reflexivity.
  - destruct HM as [_ ->]. rewrite HS. reflexivity.
Qed.

(** X13.  [RemoveDoc] and then [FindOne] with the same filter map, in
    the reference model: [FindOne] sees the earlier matches without the
    first.  After a filter that matched exactly one document, it returns
    [mgo.ErrNotFound]; after one that matched exactly two, the second. *)
Theorem RemoveDoc_then_FindOne (d : Dao) (collection : string)
    (m : gmap string value) (w : world (store * E)) :
  let co := C 0%nat (Name d) collection in
  let found := List.filter (matches (VM m)) (docs_of (w_env w).1 co) in
  let w1 := (run model (RemoveDoc d collection (VM m)) w).2 in
  (run model (FindOne d collection (VM m)) w1).1 =
    match tl found with
    | [d1] => Returned (VM d1, None)
    | _ => Returned (VNil, Some ErrNotFound)
    end.
Proof.
  intros co found w1. subst found w1.
  rewrite model_FindOne_filter.
  pose proof (matches_after_remove d collection (VM m) w eq_refl) as H.
  cbv zeta in H. cbn [db_selector] in H. rewrite H.
  reflexivity.
Qed.

(** The collection after [SoftRemoveDoc] with a supported selector. *)
Lemma docs_after_SoftRemoveDoc (d : Dao) (collection : string)
    (selector : value) (w : world (store * E)) :
  supported_selector selector = true ->
  let copy := model (S_Copy (Session d)) (w_env w) in
  let t1 := (model Now copy.2).1 in
  let t2 := (model Now (model Now copy.2).2).1 in
  let co := C 0%nat (Name d) collection in
  let before := docs_of (w_env w).1 co in
  docs_of (w_env (run model (SoftRemoveDoc d collection selector) w).2).1 co
  = default before
      (update_first (matches (db_selector selector))
         (fun d0 => soft_delete_fields t1 t2 ∪ d0) before).
Proof.
  intros Hsup copy t1 t2 co before.
  destruct (model_SoftRemoveDoc d collection selector w Hsup) as [_ Hst].
  cbv zeta in Hst. fold copy in Hst. fold t1 t2 in Hst.
  rewrite Hst.
  change (docs_of (w_env w).1 (C copy.1 (Name d) collection)) with before.
  destruct (update_first _ _ before) as [ds|];
    cbn [from_option Datatypes.id];
    [exact (docs_of_insert _ (C copy.1 (Name d) collection) ds)|reflexivity].
Qed.

(** X14.  [SoftRemoveDoc] by identifier and then [FindOne] by the same
    identifier, in the reference model: when the identifier matched a
    document and matching by identifier does not look at the three
    soft-delete fields, [FindOne] returns that document with
    [is_delete] true, [modify_at] at the first answer of [Now] and
    [delete_at] at the second, every other entry as before. *)
Theorem SoftRemoveDoc_then_FindOne (d : Dao) (collection : string)
    (id : ObjectId) (x : doc) (rest : list doc) (w : world (store * E)) :
  let co := C 0%nat (Name d) collection in
  let sel := VD [("_id", VObjectId id)] in
  let copy := model (S_Copy (Session d)) (w_env w) in
  let t1 := (model Now copy.2).1 in
  let t2 := (model Now (model Now copy.2).2).1 in
  (forall a b, same_outside soft_delete_keys a b ->
               matches sel a = matches sel b) ->
  List.filter (matches sel) (docs_of (w_env w).1 co) = x :: rest ->
  let w1 := (run model (SoftRemoveDoc d collection (VObjectId id)) w).2 in
  exists x',
    (run model (FindOne d collection (VObjectId id)) w1).1
      = Returned (VM x', None) /\
    x' !! "is_delete" = Some (VBool true) /\
    x' !! "delete_at" = Some t2 /\
    x' !! "modify_at" = Some t1 /\
    same_outside soft_delete_keys x x'.
Proof.
  intros co sel copy t1 t2 Hins Hfound w1. subst w1.
  pose proof (docs_after_SoftRemoveDoc d collection (VObjectId id) w eq_refl)
    as Hafter.
  cbv zeta in Hafter. cbn [db_selector] in Hafter.
  fold copy in Hafter. fold t1 t2 in Hafter. fold co sel in Hafter.
  exists (soft_delete_fields t1 t2 ∪ x).
  destruct (soft_deleted_fields t1 t2 x) as (F1 & F2 & F3).
  split; [|repeat split; try assumption; apply soft_deleted_same_outside].
  destruct (model_FindOne_id d collection id
              (run model (SoftRemoveDoc d collection (VObjectId id)) w).2)
    as [-> _].
  fold co sel. rewrite Hafter.
  pose proof (update_first_split (matches sel)
                (fun d0 => soft_delete_fields t1 t2 ∪ d0)
                (docs_of (w_env w).1 co)) as HS.
  destruct (update_first _ _ (docs_of (w_env w).1 co)) as [ds|].
  - destruct HS as (l1 & y & l2 & _ & -> & Hy & Hl1 & Hf).
    rewrite Hfound in Hf. injection Hf as -> _.
    cbn [from_option Datatypes.id]. rewrite List.filter_app, Hl1. simpl.
    rewrite <- (Hins y _ (soft_deleted_same_outside t1 t2 y)), Hy.
    reflexivity.
  - rewrite Hfound in HS. discriminate HS.
Qed.

End InStore.

(** * Page validation: properties *)

Lemma byte_digit_decimal (c : ascii) :
  is_decimal_digit c = true ->
  byte_digit c = Some (Z.of_N (N_of_ascii c) - 48) /\
  0 <= Z.of_N (N_of_ascii c) - 48 <= 9.
Proof.
  unfold is_decimal_digit, byte_digit. intros H. rewrite H.
  apply andb_true_iff in H as [H1 H2].
  apply Z.leb_le in H1. apply Z.leb_le in H2. split; [reflexivity|lia].
Qed.

Lemma byte_digit_other (c : ascii) :
  is_decimal_digit c = false ->
  byte_digit c = None \/ exists d, byte_digit c = Some d /\ 10 <= d.
Proof.
  unfold is_decimal_digit, byte_digit. intros H. rewrite H.
  destruct ((97 <=? Z.lor (Z.of_N (N_of_ascii c)) 32) &&
            (Z.lor (Z.of_N (N_of_ascii c)) 32 <=? 122)) eqn:Hl.
  - right. eexists. split; [reflexivity|].
    apply andb_true_iff in Hl as [H1 _]. apply Z.leb_le in H1. lia.
  - left. reflexivity.
Qed.

Lemma decimal_value_ge (s : string) (acc : Z) :
  all_decimal s = true -> 0 <= acc -> acc <= decimal_value s acc.
Proof.
  revert acc. induction s as [|c s IH]; intros acc Hs Hacc; simpl.
  - lia.
  - simpl in Hs. apply andb_true_iff in Hs as [Hc Hs].
    destruct (byte_digit_decimal c Hc) as [_ Hd].
    specialize (IH (acc * 10 + (Z.of_N (N_of_ascii c) - 48)) Hs). lia.
Qed.

(** The loop on a string of decimal digits: the number written, unless
    it passes the largest value. *)
Lemma ParseUint_loop_decimal (s : string) (n : Z) :
  all_decimal s = true ->
  0 <= n <= 4294967295 ->
  ParseUint_loop 10 1844674407370955162 4294967295 s n =
    if decimal_value s n <=? 4294967295 then (decimal_value s n, None)
    else (4294967295, Some ErrRange).
Proof.
  revert n. induction s as [|c s IH]; intros n Hs Hn; simpl.
  - destruct (n <=? 4294967295) eqn:H; [reflexivity|].
    apply Z.leb_gt in H. lia.
  - simpl in Hs. apply andb_true_iff in Hs as [Hc Hs].
    destruct (byte_digit_decimal c Hc) as [-> Hd].
    set (d := Z.of_N (N_of_ascii c) - 48) in *.
    destruct (10 <=? d) eqn:H10; [apply Z.leb_le in H10; lia|].
    destruct (1844674407370955162 <=? n) eqn:Hcut;
      [apply Z.leb_le in Hcut; lia|].
    change (2 ^ 64) with 18446744073709551616.
    rewrite (Z.mod_small (n * 10)) by lia.
    rewrite (Z.mod_small (n * 10 + d)) by lia.
    destruct (n * 10 + d <? n * 10) eqn:Hlt; [apply Z.ltb_lt in Hlt; lia|].
    simpl orb.
    destruct (4294967295 <? n * 10 + d) eqn:Hmax.
    + apply Z.ltb_lt in Hmax.
      pose proof (decimal_value_ge s (n * 10 + d) Hs ltac:(lia)) as Hge.
      destruct (decimal_value s (n * 10 + d) <=? 4294967295) eqn:H;
        [apply Z.leb_le in H; lia|reflexivity].
    + apply Z.ltb_ge in Hmax. apply IH; [exact Hs|lia].
Qed.

(** [ParseUint(s, 10, 32)] succeeds exactly on the non-empty strings of
    decimal digits that write a number up to [2^32 - 1], and reads that
    number; every failure on digits alone is a range error with the
    largest value. *)
Lemma ParseUint_decimal (s : string) :
  match ParseUint s 10 32 with
  | (v, None) =>
      s <> "" /\ all_decimal s = true /\ v = decimal_value s 0 /\
      0 <= v <= 4294967295
  | (v, Some ErrRange) => v = 4294967295
  | (v, Some ErrSyntax) => s = "" \/ all_decimal s = false
  end.
Proof.
  destruct s as [|c s]; [simpl; auto|].
  unfold ParseUint.
  change ((2 ^ 64 - 1) / 10 + 1) with 1844674407370955162.
  change (2 ^ 32 - 1) with 4294967295.
  destruct (all_decimal (String c s)) eqn:Hs.
  - rewrite (ParseUint_loop_decimal _ 0 Hs) by lia.
    pose proof (decimal_value_ge _ 0 Hs ltac:(lia)) as Hge.
    destruct (decimal_value (String c s) 0 <=? 4294967295) eqn:H.
    + apply Z.leb_le in H. repeat split; try lia. discriminate.
    + reflexivity.
  - revert Hs. generalize (String c s). intros s0 Hs.
    assert (Hgen : forall n, 0 <= n <= 4294967295 ->
              match ParseUint_loop 10 1844674407370955162 4294967295 s0 n with
              | (v, None) => False
              | (v, Some ErrRange) => v = 4294967295
              | (v, Some ErrSyntax) => True
              end).
    { clear c s. induction s0 as [|c s IH]; intros n Hn; simpl.
      - discriminate Hs.
      - simpl in Hs. destruct (is_decimal_digit c) eqn:Hc.
        + destruct (byte_digit_decimal c Hc) as [-> Hd]. simpl in Hs.
          set (d := Z.of_N (N_of_ascii c) - 48) in *.
          destruct (10 <=? d); [exact I|].
          destruct (1844674407370955162 <=? n); [reflexivity|].
          change (2 ^ 64) with 18446744073709551616.
          rewrite (Z.mod_small (n * 10)) by lia.
          rewrite (Z.mod_small (n * 10 + d)) by lia.
          destruct (n * 10 + d <? n * 10) eqn:Hlt; [reflexivity|].
          simpl orb.
          destruct (4294967295 <? n * 10 + d) eqn:Hmax; [reflexivity|].
          apply Z.ltb_ge in Hmax. apply (IH Hs). lia.
        + destruct (byte_digit_other c Hc) as [->|(d & -> & Hd)]; [exact I|].
          destruct (10 <=? d) eqn:H10; [exact I|].
          apply Z.leb_gt in H10. lia. }
    specialize (Hgen 0 ltac:(lia)).
    destruct (ParseUint_loop _ _ _ s0 0) as [v [[|]|]]; auto.
    contradiction.
Qed.

Lemma decimal_first_no_sign (c : ascii) :
  is_decimal_digit c = true -> Ascii.eqb c "+" = false /\ Ascii.eqb c "-" = false.
Proof.
  intros H. split; apply Ascii.eqb_neq; intros ->; discriminate H.
Qed.

(** [ParseInt(s, 10, 32)] returns a number that is not negative, and no
    error, exactly on the strings [accepts] describes. *)
Lemma ParseInt_accepts (s : string) (v : Z) :
  accepts s v <-> ParseInt s 10 32 = (v, None) /\ 0 <= v.
Proof.
  split.
  - intros (sign & digits & -> & Hsign & Hne & Hall & -> & Hlt & Hzero).
    pose proof (decimal_value_ge digits 0 Hall ltac:(lia)) as Hge.
    pose proof (ParseUint_decimal digits) as HU.
    assert (HP : ParseUint digits 10 32 = (decimal_value digits 0, None)).
    { unfold ParseUint in *. destruct digits as [|c ds]; [congruence|].
      change ((2 ^ 64 - 1) / 10 + 1) with 1844674407370955162 in *.
      change (2 ^ 32 - 1) with 4294967295 in *.
      rewrite (ParseUint_loop_decimal _ 0 Hall) by lia.
      change (2 ^ 31) with 2147483648 in Hlt.
      destruct (_ <=? 4294967295) eqn:H; [reflexivity|].
      apply Z.leb_gt in H. lia. }
    clear HU. split; [|exact Hge].
    change (2 ^ 31) with 2147483648 in Hlt.
    destruct Hsign as [->|[->| ->]].
    + change (String.append "" digits) with digits.
      destruct digits as [|c ds]; [congruence|].
      unfold ParseInt. simpl in Hall.
      apply andb_true_iff in Hall as [Hc _].
      destruct (decimal_first_no_sign c Hc) as [-> ->].
      cbv beta iota zeta. rewrite HP. change (2 ^ (32 - 1)) with 2147483648. simpl negb.
      destruct (2147483648 <=? _) eqn:H; [apply Z.leb_le in H; lia|].
      reflexivity.
    + change (String.append "+" digits) with (String "+" digits).
      unfold ParseInt. change (Ascii.eqb "+" "+") with true.
      cbv beta iota zeta. rewrite HP. change (2 ^ (32 - 1)) with 2147483648. simpl negb.
      destruct (2147483648 <=? _) eqn:H; [apply Z.leb_le in H; lia|].
      reflexivity.
    + change (String.append "-" digits) with (String "-" digits).
      unfold ParseInt. change (Ascii.eqb "-" "+") with false.
      change (Ascii.eqb "-" "-") with true.
      cbv beta iota zeta. rewrite HP, (Hzero eq_refl). reflexivity.
  - intros [HP Hv]. destruct s as [|c rest]; [discriminate HP|].
    unfold ParseInt in HP. change (2 ^ (32 - 1)) with 2147483648 in HP.
    destruct (Ascii.eqb c "+") eqn:Hplus;
      [|destruct (Ascii.eqb c "-") eqn:Hminus].
    + apply Ascii.eqb_eq in Hplus. subst c. cbv beta iota zeta in HP.
      pose proof (ParseUint_decimal rest) as HU.
      destruct (ParseUint rest 10 32) as [un [[|]|]].
      * discriminate HP.
      * subst un. discriminate HP.
      * destruct HU as (Hne & Hall & -> & Hb). simpl negb in HP.
        destruct (2147483648 <=? _) eqn:H; [discriminate HP|].
        apply Z.leb_gt in H. injection HP as <-.
        exists "+", rest. change (2 ^ 31) with 2147483648.
        repeat split; auto; discriminate.
    + apply Ascii.eqb_eq in Hminus. subst c. cbv beta iota zeta in HP.
      pose proof (ParseUint_decimal rest) as HU.
      destruct (ParseUint rest 10 32) as [un [[|]|]].
      * discriminate HP.
      * subst un. discriminate HP.
      * destruct HU as (Hne & Hall & -> & Hb). simpl in HP.
        destruct (2147483648 <? _) eqn:H; [discriminate HP|].
        injection HP as <-.
        assert (H0 : decimal_value rest 0 = 0) by lia.
        exists "-", rest. change (2 ^ 31) with 2147483648.
        rewrite H0. repeat split; auto; lia.
    + cbv beta iota zeta in HP.
      pose proof (ParseUint_decimal (String c rest)) as HU.
      destruct (ParseUint (String c rest) 10 32) as [un [[|]|]].
      * discriminate HP.
      * subst un. discriminate HP.
      * destruct HU as (Hne & Hall & -> & Hb). simpl negb in HP.
        destruct (2147483648 <=? _) eqn:H; [discriminate HP|].
        apply Z.leb_gt in H. injection HP as <-.
        exists "", (String c rest). change (2 ^ 31) with 2147483648.
        repeat split; auto; discriminate.
Qed.

Lemma accepts_bounds (s : string) (v : Z) :
  accepts s v -> 0 <= v < 2 ^ 31.
Proof.
  intros (sign & digits & _ & _ & _ & Hall & -> & Hlt & _).
  pose proof (decimal_value_ge digits 0 Hall ltac:(lia)). lia.
Qed.

Lemma accepts_not_empty (v : Z) : ~ accepts "" v.
Proof.
  intros (sign & digits & Hs & _ & Hne & _).
  destruct sign; [|discriminate Hs].
  change (String.append "" digits) with digits in Hs. congruence.
Qed.

(** What [checkValid] does, by what it accepts. *)
Lemma checkValid_cases (p : Page) (offset limit : string) :
  (forall vo vl, accepts offset vo -> accepts limit vl ->
                 checkValid p offset limit = MkPage true vo vl) /\
  (Valid (checkValid p offset limit) = true ->
   exists vo vl, accepts offset vo /\ accepts limit vl /\
                 checkValid p offset limit = MkPage true vo vl).
Proof.
  split.
  - intros vo vl Ho Hl.
    pose proof (accepts_bounds _ _ Ho) as Hbo.
    pose proof (accepts_bounds _ _ Hl) as Hbl.
    unfold checkValid.
    destruct offset as [|co ro]; [destruct (accepts_not_empty _ Ho)|].
    destruct limit as [|cl rl]; [destruct (accepts_not_empty _ Hl)|].
    apply ParseInt_accepts in Ho as [-> _].
    apply ParseInt_accepts in Hl as [-> _].
    cbn [String.eqb orb Limit Offset Valid].
    destruct (vl <? 0) eqn:H1; [apply Z.ltb_lt in H1; lia|].
    destruct (vo <? 0) eqn:H2; [apply Z.ltb_lt in H2; lia|].
    reflexivity.
  - unfold checkValid.
    destruct (String.eqb offset "" || String.eqb limit ""); [discriminate|].
    destruct (ParseInt limit 10 32) as [l errl] eqn:Hl.
    cbn [Limit Offset Valid].
    destruct errl; [discriminate|]. cbn [orb].
    destruct (l <? 0) eqn:H1; [discriminate|]. apply Z.ltb_ge in H1.
    destruct (ParseInt offset 10 32) as [o erro] eqn:Ho.
    cbn [Limit Offset Valid].
    destruct erro; [discriminate|]. cbn [orb].
    destruct (o <? 0) eqn:H2; [discriminate|]. apply Z.ltb_ge in H2.
    intros _. exists o, l.
    split; [apply ParseInt_accepts; auto|].
    split; [apply ParseInt_accepts; auto|reflexivity].
Qed.

(** X15.  [checkValid] makes the page valid exactly when the offset and
    the limit are both non-empty strings of decimal digits, with an
    optional sign in front, that write numbers below [2^31], a minus
    sign being allowed before zero only; the page then holds the two
    numbers, whatever it held before. *)
Theorem checkValid_accepts_decimal (p : Page) (offset limit : string) :
  (Valid (checkValid p offset limit) = true <->
   exists vo vl, accepts offset vo /\ accepts limit vl) /\
  (forall vo vl, accepts offset vo -> accepts limit vl ->
                 checkValid p offset limit = MkPage true vo vl).
Proof.
  destruct (checkValid_cases p offset limit) as [Hyes Hvalid].
  split; [|exact Hyes]. split.
  - intros H. destruct (Hvalid H) as (vo & vl & Ho & Hl & _). eauto.
  - intros (vo & vl & Ho & Hl). rewrite (Hyes vo vl Ho Hl). reflexivity.
Qed.

(** X16.  A page that [checkValid] has made valid holds an offset and a
    limit from 0 to [2^31 - 1], so the [Skip] and [Limit] calls of [Find]
    and [FindDoc] get numbers that fit the driver's 32 bits and the query
    is one the reference model answers. *)
Theorem checkValid_page_in_range (p : Page) (offset limit : string)
    (co : Collection) (query : value) (sortKeys : list string) :
  Valid (checkValid p offset limit) = true ->
  let page := checkValid p offset limit in
  let q := paged_query co query page sortKeys in
  0 <= Offset page < 2 ^ 31 /\
  0 <= Limit page < 2 ^ 31 /\
  skip_calls q = [Offset page] /\
  limit_calls q = [Limit page] /\
  plan_in_model (plan_of q) = true.
Proof.
  intros Hvalid page q. subst q page.
  destruct (checkValid_cases p offset limit) as [_ Hcases].
  destruct (Hcases Hvalid) as (vo & vl & Ho & Hl & ->).
  pose proof (accepts_bounds _ _ Ho) as Hbo.
  pose proof (accepts_bounds _ _ Hl) as Hbl.
  cbn [Offset Limit]. split; [exact Hbo|]. split; [exact Hbl|].
  unfold paged_query. cbn [Valid Offset Limit].
  split; [reflexivity|]. split; [reflexivity|].
  unfold plan_in_model. cbn [plan_of p_skip p_limit].
  apply andb_true_iff. split; [apply andb_true_iff; split;
                               [apply andb_true_iff; split|]|].
  - apply Z.leb_le. lia.
  - apply Z.ltb_lt. lia.
  - apply Z.leb_le. lia.
  - apply Z.ltb_lt. lia.
Qed.

(** * The remaining operations: properties *)

Section AnyXDriver.

Context {S : Type}.
Variable h : xhandler S.

Ltac xunfold :=
  unfold xcalls_of, xcall, mbind, mret, XProg_bind, XProg_ret; simpl.

Ltac xanswer1 :=
  match goal with
  | H : h ?c ?s = _ |- context [h ?c ?s] => rewrite H; simpl
  | |- context [h ?c ?s] =>
      let a := fresh "got" in
      let e := fresh "env" in
      destruct (h c s) as [a e] eqn:?; simpl
  | |- context [let '(_, _) := ?x in _] => is_var x; destruct x; simpl
  end.

Ltac xanswer := repeat xanswer1.

(** [FindGridFs], step by step. *)
Lemma xrun_FindGridFs (d : Dao) (id : value) (w : xworld S) :
  let '(s, e1) := h (X_Base (S_Copy (Session d))) (xw_env w) in
  let gfs := MkGridFS s (Name d) (PrefixFS d) in
  let '(fs, open_err, e2) := h (G_OpenId gfs id) e1 in
  let '(data, copy_err, e3) := h (F_Copy fs) e2 in
  let '(close_err, e4) := h (X_Base (F_Close fs)) e3 in
  let close e := (h (X_Base (S_Close s)) e).2 in
  xrun h (FindGridFs d id) w =
  match open_err, copy_err, close_err with
  | Some e, _, _ =>
      (Returned (None, Some e),
       XWorld (close e2)
         (xw_trace w ++ [X_Base (S_Copy (Session d)); G_OpenId gfs id;
                         X_Base (S_Close s)]))
  | None, Some e, _ =>
      (Returned (None, Some e),
       XWorld (close e3)
         (xw_trace w ++ [X_Base (S_Copy (Session d)); G_OpenId gfs id;
                         F_Copy fs; X_Base (S_Close s)]))
  | None, None, Some e =>
      (Returned (None, Some e),
       XWorld (close e4)
         (xw_trace w ++ [X_Base (S_Copy (Session d)); G_OpenId gfs id;
                         F_Copy fs; X_Base (F_Close fs); X_Base (S_Close s)]))
  | None, None, None =>
      (Returned (Some data, None),
       XWorld (close e4)
         (xw_trace w ++ [X_Base (S_Copy (Session d)); G_OpenId gfs id;
                         F_Copy fs; X_Base (F_Close fs); X_Base (S_Close s)]))
  end.
Proof.
  destruct (h (X_Base (S_Copy (Session d))) (xw_env w)) as [s e1] eqn:Hs.
  cbv zeta.
  destruct (h (G_OpenId _ id) e1) as [[fs open_err] e2] eqn:Ho.
  destruct (h (F_Copy fs) e2) as [[data copy_err] e3] eqn:Hc.
  destruct (h (X_Base (F_Close fs)) e3) as [close_err e4] eqn:Hcl.
  unfold FindGridFs. xunfold. xanswer.
  destruct open_err as [e|]; simpl; xanswer.
  { rewrite <- ?app_assoc. reflexivity. }
  destruct copy_err as [e|]; simpl; xanswer.
  { rewrite <- ?app_assoc. reflexivity. }
  destruct close_err as [e|]; simpl; xanswer; rewrite <- ?app_assoc;
    reflexivity.
Qed.

(** X17.  [FindGridFs] returns the bytes only when opening, copying and
    closing all succeed.  When opening fails nothing is read; when the
    copy fails the error is returned and the file is never closed; when
    closing fails the bytes that were read are dropped.  The session is
    closed in every case. *)
Theorem FindGridFs_paths (d : Dao) (id : value) (w : xworld S) :
  let '(s, e1) := h (X_Base (S_Copy (Session d))) (xw_env w) in
  let gfs := MkGridFS s (Name d) (PrefixFS d) in
  let '(fs, open_err, e2) := h (G_OpenId gfs id) e1 in
  let '(data, copy_err, e3) := h (F_Copy fs) e2 in
  let '(close_err, e4) := h (X_Base (F_Close fs)) e3 in
  let r := (xrun h (FindGridFs d id) w).1 in
  let calls := xcalls_of h (FindGridFs d id) w in
  match open_err, copy_err, close_err with
  | Some e, _, _ =>
      r = Returned (None, Some e) /\
      calls = [X_Base (S_Copy (Session d)); G_OpenId gfs id;
               X_Base (S_Close s)]
  | None, Some e, _ =>
      r = Returned (None, Some e) /\
      calls = [X_Base (S_Copy (Session d)); G_OpenId gfs id; F_Copy fs;
               X_Base (S_Close s)]
  | None, None, Some e =>
      r = Returned (None, Some e) /\
      calls = [X_Base (S_Copy (Session d)); G_OpenId gfs id; F_Copy fs;
               X_Base (F_Close fs); X_Base (S_Close s)]
  | None, None, None =>
      r = Returned (Some data, None) /\
      calls = [X_Base (S_Copy (Session d)); G_OpenId gfs id; F_Copy fs;
               X_Base (F_Close fs); X_Base (S_Close s)]
  end.
Proof.
  pose proof (xrun_FindGridFs d id w) as HR. unfold xcalls_of.
  destruct (h (X_Base (S_Copy (Session d))) (xw_env w)) as [s e1].
  cbv zeta in *.
  destruct (h (G_OpenId _ id) e1) as [[fs open_err] e2].
  destruct (h (F_Copy fs) e2) as [[data copy_err] e3].
  destruct (h (X_Base (F_Close fs)) e3) as [close_err e4].
  rewrite HR.
  destruct open_err, copy_err, close_err; simpl;
    (split; [reflexivity|apply drop_app_length]).
Qed.

(** X18.  [PipeDoc] makes one database call, the pipeline with its
    stages as given, between the copy of the pool session and the close
    of the copy, and returns what the call reports.  [DropDB] makes its
    one call on the pool session itself: it copies and closes no
    session. *)
Theorem PipeDoc_and_DropDB_calls (d : Dao) (collection : string)
    (pipes : list (gmap string value)) (w : xworld S) :
  (let '(s, e1) := h (X_Base (S_Copy (Session d))) (xw_env w) in
   let c := P_All (C s (Name d) collection) pipes in
   (xrun h (PipeDoc d collection pipes) w).1 = Returned (h c e1).1 /\
   xcalls_of h (PipeDoc d collection pipes) w =
     [X_Base (S_Copy (Session d)); c; X_Base (S_Close s)]) /\
  (xrun h (DropDB d) w).1
    = Returned (h (D_DropDatabase (Session d) (Name d)) (xw_env w)).1 /\
  xcalls_of h (DropDB d) w = [D_DropDatabase (Session d) (Name d)].
Proof.
  split; [|split].
  - destruct (h (X_Base (S_Copy (Session d))) (xw_env w)) as [s e1] eqn:Hs.
    unfold PipeDoc. xunfold. xanswer.
    rewrite <- ?app_assoc. simpl. rewrite drop_app_length. auto.
  - unfold DropDB. xunfold. xanswer. reflexivity.
  - unfold DropDB. xunfold. xanswer. apply drop_app_length.
Qed.

End AnyXDriver.

(** X19.  [getCollection] does not depend on the session it is given: the
    handle is on the pool session and the database of the Dao.  Its
    collection name is never empty: an empty name stands for
    ["mongos"], any other name for itself. *)
Theorem getCollection_pool_session (d : Dao) (name : string)
    (s1 s2 : session) :
  getCollection d name s1 = getCollection d name s2 /\
  co_session (getCollection d name s1) = Session d /\
  co_db (getCollection d name s1) = Name d /\
  co_name (getCollection d name s1) <> "" /\
  getCollection d "" s1 = getCollection d "mongos" s1 /\
  (name <> "" -> co_name (getCollection d name s1) = name).
Proof.
  unfold getCollection, getDB. simpl.
  repeat split.
  - destruct (String.eqb name "") eqn:H; [discriminate|].
    apply String.eqb_neq in H. exact H.
  - intros Hne. apply String.eqb_neq in Hne. rewrite Hne. reflexivity.
Qed.

Section InFiles.

Context {E : Type}.
Variable other : xhandler (files * E).

Abbreviation filer := (files_handler other).

(** A call that is no database call leaves the files as they are. *)
Lemma files_kept (c : xcmd) (se : files * E) :
  x_is_db c = false -> (filer c se).2.1 = se.1.
Proof.
  intros Hc. unfold files_handler.
  destruct (files_step c se.1) as [[a fs]|] eqn:Hstep.
  - destruct c as [c| | | |]; try discriminate.
    destruct c; discriminate.
  - destruct (other c se) as [a [fs e]]. rewrite Hc. reflexivity.
Qed.

Lemma fresh_handle_not_written (fs : files) :
  being_written fs !! fresh_handle fs = None.
Proof.
  apply not_elem_of_dom. intros Hin.
  apply (is_fresh (dom (being_written fs) ∪ dom (being_read fs))).
  apply elem_of_union_l. exact Hin.
Qed.

(** A call that the model answers. *)
Lemma filer_step (c : xcmd) (fs : files) (e : E) (a : xans c)
    (fs' : files) :
  files_step c fs = Some (a, fs') -> filer c (fs, e) = (a, (fs', e)).
Proof. intros H. unfold files_handler. simpl. rewrite H. reflexivity. Qed.

(** Storing under a free identifier, in the model. *)
Lemma filer_CreateGridFs (d : Dao) (name data : string)
    (w : world (files * E)) :
  let se1 := (filer (X_Base (S_Copy (Session d))) (w_env w)).2 in
  let id := (filer (X_Base NewObjectId) se1).1 in
  let key := file_key (Name d) (PrefixFS d) id in
  let r := run (base_handler filer) (CreateGridFs d name data) w in
  stored (w_env w).1 !! key = None ->
  r.1 = Returned (id, None) /\
  stored (w_env r.2).1 = <[key := (name, data)]> (stored (w_env w).1).
Proof.
  cbv zeta.
  pose proof (files_kept (X_Base (S_Copy (Session d))) (w_env w) eq_refl)
    as K1.
  destruct (filer (X_Base (S_Copy (Session d))) (w_env w)) as [s [fs1 e1]]
    eqn:Hs.
  simpl in K1. subst fs1. cbn [fst snd].
  pose proof (files_kept (X_Base NewObjectId) ((w_env w).1, e1) eq_refl)
    as K2.
  destruct (filer (X_Base NewObjectId) ((w_env w).1, e1)) as [id [fs2 e2]]
    eqn:Hid.
  simpl in K2. subst fs2. cbn [fst snd].
  set (fs0 := (w_env w).1) in *. intros Hfree.
  set (f := fresh_handle fs0).
  set (wr0 := MkWriting (Name d) (PrefixFS d) None name "").
  set (wr1 := MkWriting (Name d) (PrefixFS d) (Some id) name "").
  set (wr2 := MkWriting (Name d) (PrefixFS d) (Some id) name data).
  set (fs1 := MkFiles (stored fs0) (<[f := wr0]> (being_written fs0))
                (being_read fs0)).
  set (fs2 := MkFiles (stored fs0) (<[f := wr1]> (being_written fs1))
                (being_read fs0)).
  set (fs3 := MkFiles (stored fs0) (<[f := wr2]> (being_written fs2))
                (being_read fs0)).
  set (fs4 := MkFiles
                (<[file_key (Name d) (PrefixFS d) id := (name, data)]>
                   (stored fs0))
                (delete f (being_written fs3)) (being_read fs0)).
  destruct (run_CreateGridFs_ok (base_handler filer) d name data w
              s (fs0, e1) id (fs0, e2) f (fs1, e2) tt (fs2, e2)
              (Z.of_nat (String.length data)) (fs3, e2) (fs4, e2))
    as [H1 H2].
  - exact Hs.
  - exact Hid.
  - refine (filer_step (X_Base (G_Create _ name)) fs0 e2 (f, None) fs1 _).
    reflexivity.
  - refine (filer_step (X_Base (F_SetId f id)) fs1 e2 tt fs2 _).
    unfold files_step, fs1. simpl.
    rewrite lookup_insert_eq. reflexivity.
  - refine (filer_step (X_Base (F_Write f data)) fs2 e2
              (Z.of_nat (String.length data), None) fs3 _).
    unfold files_step, fs2. simpl.
    rewrite lookup_insert_eq. reflexivity.
  - refine (filer_step (X_Base (F_Close f)) fs3 e2 None fs4 _).
    unfold files_step, fs3. simpl.
    rewrite lookup_insert_eq. simpl. fold fs0.
    rewrite Hfree. reflexivity.
  - split; [exact H1|]. rewrite H2.
    exact (f_equal stored
             (files_kept (X_Base (S_Close s)) (fs4, e2) eq_refl)).
Qed.

(** Reading back a stored file, in the model. *)
Lemma filer_FindGridFs (d : Dao) (id : ObjectId) (name data : string)
    (w : xworld (files * E)) :
  stored (xw_env w).1 !! file_key (Name d) (PrefixFS d) id
    = Some (name, data) ->
  (xrun filer (FindGridFs d (VObjectId id)) w).1
    = Returned (Some data, None).
Proof.
  intros Hin.
  pose proof (xrun_FindGridFs filer d (VObjectId id) w) as HR.
  pose proof (files_kept (X_Base (S_Copy (Session d))) (xw_env w) eq_refl)
    as K1.
  destruct (filer (X_Base (S_Copy (Session d))) (xw_env w)) as [s [fs1 e1]].
  simpl in K1. subst fs1. cbv zeta in HR.
  unfold files_handler at 1 2 3 in HR.
  cbn [files_step fst snd gfs_db gfs_prefix] in HR.
  rewrite Hin in HR.
  cbn [fst snd stored being_written being_read] in HR.
  rewrite lookup_insert_eq in HR.
  cbn [fst snd stored being_written being_read] in HR.
  rewrite fresh_handle_not_written, lookup_insert_eq in HR.
  rewrite HR. reflexivity.
Qed.

(** X20.  A file stored by [CreateGridFs] under an identifier that is free
    is read back by [FindGridFs]: the create returns the new identifier
    and no error, and [FindGridFs] of the same Dao with that identifier
    then returns the bytes that were stored. *)
Theorem GridFs_round_trip (d : Dao) (name data : string)
    (w : world (files * E)) :
  let se1 := (filer (X_Base (S_Copy (Session d))) (w_env w)).2 in
  let id := (filer (X_Base NewObjectId) se1).1 in
  let r := run (base_handler filer) (CreateGridFs d name data) w in
  stored (w_env w).1 !! file_key (Name d) (PrefixFS d) id = None ->
  r.1 = Returned (id, None) /\
  forall calls,
    (xrun filer (FindGridFs d (VObjectId id)) (XWorld (w_env r.2) calls)).1
      = Returned (Some data, None).
Proof.
  cbv zeta. intros Hfree.
  destruct (filer_CreateGridFs d name data w Hfree) as [H1 H2].
  split; [exact H1|]. intros calls.
  apply (filer_FindGridFs d _ name data). cbn [xw_env]. rewrite H2.
  apply lookup_insert_eq.
Qed.

(** X21.  [FindGridFs] with an identifier under which the database and
    prefix of the Dao store no file returns no bytes and the not-found
    error, and reads nothing. *)
Theorem FindGridFs_missing (d : Dao) (id : ObjectId)
    (w : xworld (files * E)) :
  stored (xw_env w).1 !! file_key (Name d) (PrefixFS d) id = None ->
  (xrun filer (FindGridFs d (VObjectId id)) w).1
    = Returned (None, Some ErrNotFound) /\
  Forall (fun c => match c with F_Copy _ => False | _ => True end)
    (xcalls_of filer (FindGridFs d (VObjectId id)) w).
Proof.
  intros Hin.
  pose proof (xrun_FindGridFs filer d (VObjectId id) w) as HR.
  pose proof (files_kept (X_Base (S_Copy (Session d))) (xw_env w) eq_refl)
    as K1.
  unfold xcalls_of.
  destruct (filer (X_Base (S_Copy (Session d))) (xw_env w)) as [s [fs1 e1]].
  simpl in K1. subst fs1. cbv zeta in HR.
  unfold files_handler at 1 in HR.
  cbn [files_step fst snd gfs_db gfs_prefix] in HR.
  rewrite Hin in HR.
  cbn [fst snd] in HR.
  destruct (filer (F_Copy 0%nat) _) as [[data0 ce] e3].
  destruct (filer (X_Base (F_Close 0%nat)) _) as [cl e4].
  rewrite HR. simpl. split; [reflexivity|].
  rewrite drop_app_length. repeat constructor.
Qed.

End InFiles.

(** * The properties at concrete inputs *)

(** C1.  With the two users of the example both living in Oslo,
    [FindOne] by city returns [mgo.ErrNotFound], the error of a filter
    without a match, and so no error of the ambiguous-match kind. *)
Lemma FindOne_two_matches_not_found :
  let filter := VM {[ "city" := VString "Oslo" ]} in
  let r := run example_model (FindOne example_dao "users" filter)
             (world_of ∅ two_users) in
  List.length (List.filter (matches_exact filter) (docs_of two_users users))
    = 2%nat /\
  r.1 = Returned (VNil, Some ErrNotFound) /\
  r.1 = (run example_model
           (FindOne example_dao "users" (VM {[ "city" := VString "Rome" ]}))
           (world_of ∅ two_users)).1 /\
  ~ (exists v e, r.1 = Returned (v, Some e) /\
                 kind_of_error e = AmbiguousMatch).
Proof.
  cbv zeta. split; [reflexivity|]. split; [reflexivity|].
  split; [reflexivity|].
  intros (v & e & Hr & He).
  change (Returned (VNil, Some ErrNotFound) = Returned (v, Some e)) in Hr.
  injection Hr as _ <-. discriminate He.
Qed.

Lemma FindOne_by_filter_witness :
  (run example_model
     (FindOne example_dao "users" (VM {[ "name" := VString "bob" ]}))
     (world_of ∅ two_users)).1 = Returned (VM bob, None).
Proof.
  apply (proj1 (FindOne_by_filter matches_exact sort_none
                  (quiet (store * unit)) example_dao "users"
                  {[ "name" := VString "bob" ]} (world_of ∅ two_users))).
  reflexivity.
Defined.

Lemma FindOne_unsupported_selector_panics_witness :
  is_nil (VString "abc") = false /\
  supported_selector (VString "abc") = false /\
  (run (quiet unit) (FindOne example_dao "users" (VString "abc"))
     empty_world).1 = Panicked nil_dereference.
Proof.
  split; [reflexivity|]. split; [reflexivity|].
  apply (FindOne_unsupported_selector_panics (quiet unit) example_dao "users"
           (VString "abc") empty_world); reflexivity.
Defined.

(** C3.  An update map [{"$set": {"create_at": ...}}] passes [UpdateDoc]
    unchanged, and the stored creation time is altered. *)
Lemma UpdateDoc_set_alters_create_at :
  let r := run example_model
             (UpdateDoc example_dao "users" (VObjectId ann_id) (MapAt 1%nat))
             (world_of nested_update two_users) in
  w_trace r.2 = [S_Copy 0%nat;
                 C_UpdateId users (VObjectId ann_id) (VM set_create_at);
                 S_Close 1%nat] /\
  r.1 = Returned None /\
  (docs_of two_users users !! 0%nat) ≫= (.!! "create_at")
    = Some (VString "2018-01-17 22:55:00") /\
  (docs_of (w_env r.2).1 users !! 0%nat) ≫= (.!! "create_at")
    = Some (VString "1999-12-31 00:00:00").
Proof. cbv zeta. repeat split; reflexivity. Qed.

Lemma UpdateDoc_strips_top_level_keys_witness :
  is_nil (VObjectId ann_id) = false /\
  calls_of (quiet unit)
    (UpdateDoc example_dao "users" (VObjectId ann_id) (MapAt 1%nat))
    (World top_level_update tt []) =
    [S_Copy 0%nat;
     C_UpdateId users (VObjectId ann_id) (VM {[ "name" := VString "anna" ]});
     S_Close 1%nat].
Proof.
  split; [reflexivity|].
  apply (proj1 (UpdateDoc_strips_top_level_keys (quiet unit) example_dao
                  "users" (VObjectId ann_id) (MapAt 1%nat)
                  (World top_level_update tt []) eq_refl)).
Defined.

Lemma DBRef_nil_id_panics_witness :
  post_with_author VNil !! 1%nat
    = Some (<["author" := VMap {[ "id" := VNil ]}]>
              (<["title" := VString "hello"]> ∅)) /\
  (run (quiet unit) (DBRef plural_s "author" Author (MapAt 1%nat))
     (World (post_with_author VNil) tt [])).1 = Panicked nil_dereference.
Proof.
  split; [reflexivity|].
  apply (DBRef_nil_id_panics (quiet unit) plural_s "author" Author 1%nat
           (<["author" := VMap {[ "id" := VNil ]}]>
              (<["title" := VString "hello"]> ∅))
           {[ "id" := VNil ]} (World (post_with_author VNil) tt []));
    reflexivity.
Defined.



Lemma Find_handle_on_closed_session_witness :
  let query := VM {[ "city" := VString "Oslo" ]} in
  let find := run (watch example_model)
                (Find example_dao "users" query (MkPage false 10 5) [])
                (watched_world twelve_users) in
  is_nil query = false /\
  (exists q,
     find.1 = Returned (Some q, None) /\
     evaluate example_model (Q_All q) (w_env find.2)
       = Panicked session_closed) /\
  (run example_model
     (FindDoc example_dao "users" query (MkPage false 10 5) [])
     (world_of ∅ twelve_users)).1
  = Returned (VM <$> (numbered <$> seqZ 0 12), None).
Proof.
  cbv zeta. split; [reflexivity|]. split; [|reflexivity].
  destruct (Find_handle_on_closed_session example_model example_dao "users"
              (VM {[ "city" := VString "Oslo" ]}) (MkPage false 10 5) []
              (watched_world twelve_users) eq_refl)
    as (Hfind & _ & _ & _ & _ & Hall & _).
  eexists. split; [exact Hfind|exact Hall].
Defined.

Lemma FindDoc_pagination_witness :
  is_nil (VM {[ "city" := VString "Oslo" ]}) = false /\
  (run example_model
     (FindDoc example_dao "users" (VM {[ "city" := VString "Oslo" ]})
        (MkPage false 10 5) [])
     (world_of ∅ twelve_users)).1
  = Returned (VM <$> (numbered <$> seqZ 0 12), None) /\
  (run example_model
     (FindDoc example_dao "users" (VM {[ "city" := VString "Oslo" ]})
        (MkPage true 10 5) [])
     (world_of ∅ twelve_users)).1
  = Returned ([VM (numbered 10); VM (numbered 11)], None).
Proof.
  split; [reflexivity|]. split.
  - destruct (FindDoc_pagination matches_exact sort_none
                (quiet (store * unit)) example_dao "users"
                (VM {[ "city" := VString "Oslo" ]})
                (MkPage false 10 5) [] (world_of ∅ twelve_users) eq_refl)
      as (_ & Hunpaged & _).
    destruct (Hunpaged eq_refl) as (_ & _ & Hdoc).
    exact Hdoc.
  - destruct (FindDoc_pagination matches_exact sort_none
                (quiet (store * unit)) example_dao "users"
                (VM {[ "city" := VString "Oslo" ]})
                (MkPage true 10 5) [] (world_of ∅ twelve_users) eq_refl)
      as (_ & _ & Hpaged).
    destruct (Hpaged eq_refl eq_refl eq_refl) as (_ & _ & Hdoc & _).
    exact Hdoc.
Defined.

Lemma DBRef_author_reference_witness :
  String.length author_hex = 24%nat /\
  all_hex author_hex = true /\
  plural_s "Author" = "Authors" /\
  exists oid,
    Hex oid = "5a5f5b5c5d5e5f6061626364" /\
    map_entries
      (w_heap (run (quiet unit) (DBRef plural_s "author" Author (MapAt 1%nat))
                 (World (post_with_author (VString author_hex)) tt [])).2)
      (MapAt 1%nat)
    = <["author_ref" := VDBRef "authors" (VObjectId oid) ""]>
        (<["title" := VString "hello"]> ∅).
Proof.
  split; [reflexivity|]. split; [reflexivity|]. split; [reflexivity|].
  destruct (DBRef_author_reference (quiet unit) plural_s 1%nat
              (<["author" := VMap {[ "id" := VString author_hex ]}]>
                 (<["title" := VString "hello"]> ∅))
              {[ "id" := VString author_hex ]} author_hex
              (World (post_with_author (VString author_hex)) tt [])
              eq_refl eq_refl eq_refl eq_refl eq_refl eq_refl)
    as (oid & _ & Hback & _ & Hmap & _).
  exists oid. split; [exact Hback|]. exact Hmap.
Defined.

Lemma UpdateDoc_mutates_callers_map_witness :
  is_nil (VInt 7) = false /\
  supported_selector (VInt 7) = false /\
  (run (quiet unit) (UpdateDoc example_dao "users" (VInt 7) (MapAt 1%nat))
     (World top_level_update tt [])).1 = Returned (Some errUnSupportType) /\
  map_entries
    (w_heap (run (quiet unit)
               (UpdateDoc example_dao "users" (VInt 7) (MapAt 1%nat))
               (World top_level_update tt [])).2) (MapAt 1%nat)
  = {[ "name" := VString "anna" ]}.
Proof.
  split; [reflexivity|]. split; [reflexivity|].
  destruct (UpdateDoc_mutates_callers_map (quiet unit) example_dao "users"
              (VInt 7) (MapAt 1%nat) (World top_level_update tt []) eq_refl)
    as (Hmap & _ & Herr).
  split; [exact (Herr eq_refl)|exact Hmap].
Defined.

(** The reference model at work: [RemoveDoc] takes the document out of
    the collection, [SoftRemoveDoc] marks it. *)
Example RemoveDoc_deletes :
  docs_of (w_env (run example_model
                    (RemoveDoc example_dao "users" (VObjectId bob_id))
                    (world_of ∅ two_users)).2).1 users = [ann].
Proof. reflexivity. Qed.

Example SoftRemoveDoc_marks :
  docs_of (w_env (run example_model
                    (SoftRemoveDoc example_dao "users" (VObjectId bob_id))
                    (world_of ∅ two_users)).2).1 users
  = [ann;
     <["is_delete" := VBool true]>
       (<["delete_at" := VString "2018-01-17 22:55:00"]>
          (<["modify_at" := VString "2018-01-17 22:55:00"]> bob))].
Proof. reflexivity. Qed.
(** ** Further properties at concrete inputs *)

Lemma unsupported_selector_rejected_witness :
  is_nil (VInt 7) = false /\
  supported_selector (VInt 7) = false /\
  (run (quiet unit) (RemoveDoc example_dao "users" (VInt 7)) empty_world).1
    = Returned (Some errUnSupportType).
Proof.
  split; [reflexivity|]. split; [reflexivity|].
  destruct (unsupported_selector_rejected (quiet unit) example_dao "users"
              (VInt 7) VNil NilMap empty_world eq_refl eq_refl)
    as (_ & (Hremove & _) & _).
  exact Hremove.
Defined.

Lemma CreateDoc_caller_index_keys_witness :
  calls_of (quiet unit) (CreateDoc example_dao "users" (VM ann) ["name"])
    empty_world
  = [S_Copy 0%nat;
     C_EnsureIndex users {| Key := ["name"]; Unique := true;
                            DropDups := true; Background := true;
                            Sparse := true |};
     C_Insert users (VM ann); S_Close 1%nat].
Proof.
  apply (proj2 (CreateDoc_caller_index_keys (quiet unit) example_dao "users"
                  (VM ann) ["name"] empty_world
                  ltac:(discriminate))).
Defined.

Lemma DBRef_untouched_without_id_object_witness :
  run (quiet unit) (DBRef plural_s "name" Author (MapAt 1%nat))
    (World top_level_update tt [])
  = (Returned (Some (Errorf "invalid param given [%s]" (VString "name"))),
     World top_level_update tt []).
Proof.
  apply (proj1 (DBRef_untouched_without_id_object (quiet unit) plural_s
                  "name" Author (MapAt 1%nat) (World top_level_update tt [])
                  eq_refl)).
Defined.

Lemma DBRef_always_deletes_field_witness :
  (run (quiet unit) (DBRef plural_s "author" Author (MapAt 1%nat))
     (World (post_with_author VNil) tt [])).1 = Panicked nil_dereference /\
  map_entries
    (w_heap (run (quiet unit) (DBRef plural_s "author" Author (MapAt 1%nat))
               (World (post_with_author VNil) tt [])).2) (MapAt 1%nat)
    !! "author" = None.
Proof.
  split; [reflexivity|].
  apply (proj1 (DBRef_always_deletes_field (quiet unit) plural_s "author"
                  Author (MapAt 1%nat) (World (post_with_author VNil) tt [])
                  eq_refl)).
Defined.

Lemma DBRef_format_error_after_delete_witness :
  let r := run (quiet unit) (DBRef plural_s "author" Author (MapAt 1%nat))
             (World (post_with_author (VInt 7)) tt []) in
  r.1 = Returned (Some (Errorf "id format error [%v]" (VInt 7))) /\
  map_entries (w_heap r.2) (MapAt 1%nat) = {[ "title" := VString "hello" ]}.
Proof.
  pose proof (DBRef_format_error_after_delete (quiet unit) plural_s "author"
                Author 1%nat
                (<["author" := VMap {[ "id" := VInt 7 ]}]>
                   (<["title" := VString "hello"]> ∅))
                {[ "id" := VInt 7 ]} (VInt 7)
                (World (post_with_author (VInt 7)) tt [])) as H.
  specialize (H eq_refl). specialize (H eq_refl). specialize (H eq_refl).
  assert (Hkind : exists k, TypeOf_Kind (VInt 7) = Some k /\ k <> KString)
    by (exists KInt; split; [reflexivity|discriminate]).
  destruct (H (or_introl Hkind)) as (Herr & Hmap & _).
  split; [exact Herr|]. rewrite Hmap. vm_compute. reflexivity.
Defined.

Lemma DBRefId_resolves_witness :
  exists oid,
    Hex oid = "5a5f5b5c5d5e5f6061626364" /\
    map_entries
      (w_heap (run (quiet unit) (DBRefId "author" (MapAt 1%nat))
                 (World (post_with_author (VString author_hex)) tt [])).2)
      (MapAt 1%nat)
    = <["author_ref.$id" := VObjectId oid]>
        (<["title" := VString "hello"]> ∅).
Proof.
  destruct (DBRefId_resolves (quiet unit) "author" 1%nat
              (<["author" := VMap {[ "id" := VString author_hex ]}]>
                 (<["title" := VString "hello"]> ∅))
              {[ "id" := VString author_hex ]} author_hex
              (World (post_with_author (VString author_hex)) tt [])
              eq_refl eq_refl eq_refl eq_refl)
    as (oid & _ & Hback & _ & Hmap & _).
  exists oid. split; [exact Hback|exact Hmap].
Defined.

Lemma DBRef_second_call_is_silent_witness :
  let first := run (quiet unit) (DBRefId "author" (MapAt 1%nat))
                 (World (post_with_author (VInt 7)) tt []) in
  first.1 = Returned (Some (Errorf "id format error [%v]" (VInt 7))) /\
  run (quiet unit) (DBRefId "author" (MapAt 1%nat)) first.2
    = (Returned None, first.2).
Proof.
  split; [reflexivity|].
  apply (proj2 (DBRef_second_call_is_silent (quiet unit) plural_s "author"
                  Author (MapAt 1%nat)
                  (World (post_with_author (VInt 7)) tt []) eq_refl)).
Defined.

Lemma RemoveDoc_deletes_first_match_witness :
  let filter := VM {[ "city" := VString "Oslo" ]} in
  let co := C 0%nat (Name example_dao) "users" in
  let r := run example_model (RemoveDoc example_dao "users" filter)
             (world_of ∅ two_users) in
  List.filter (matches_exact filter) (docs_of two_users co) = [ann; bob] /\
  r.1 = Returned None /\
  List.filter (matches_exact filter) (docs_of (w_env r.2).1 co) = [bob].
Proof.
  cbv zeta.
  assert (Hboth :
    List.filter (matches_exact (VM {[ "city" := VString "Oslo" ]}))
      (docs_of two_users (C 0%nat (Name example_dao) "users")) = [ann; bob])
    by (vm_compute; reflexivity).
  split; [exact Hboth|].
  pose proof (RemoveDoc_deletes_first_match matches_exact sort_none
                (quiet (store * unit)) example_dao "users"
                (VM {[ "city" := VString "Oslo" ]}) (world_of ∅ two_users)
                eq_refl) as H.
  cbv zeta in H.
  change (List.filter _ (docs_of (w_env (world_of ∅ two_users)).1 _))
    with (List.filter (matches_exact (VM {[ "city" := VString "Oslo" ]}))
            (docs_of two_users (C 0%nat (Name example_dao) "users"))) in H.
  rewrite Hboth in H.
  destruct H as (Hret & _ & Hrest & _).
  split; [exact Hret|exact Hrest].
Defined.

(** A match by identifier in the language of the examples does not look
    at the soft-delete fields. *)
Lemma matches_exact_id_outside (id : ObjectId) (a b : doc) :
  same_outside soft_delete_keys a b ->
  matches_exact (VD [("_id", VObjectId id)]) a
    = matches_exact (VD [("_id", VObjectId id)]) b.
Proof.
  intros Hsame. unfold matches_exact. simpl.
  rewrite (Hsame "_id"); [reflexivity|].
  unfold soft_delete_keys.
  rewrite !not_elem_of_cons. repeat split; try discriminate.
  apply not_elem_of_nil.
Qed.

Lemma SoftRemoveDoc_then_FindOne_witness :
  let w1 := (run example_model
               (SoftRemoveDoc example_dao "users" (VObjectId bob_id))
               (world_of ∅ two_users)).2 in
  exists x',
    (run example_model (FindOne example_dao "users" (VObjectId bob_id)) w1).1
      = Returned (VM x', None) /\
    x' !! "is_delete" = Some (VBool true) /\
    x' !! "delete_at" = Some (VString "2018-01-17 22:55:00").
Proof.
  destruct (SoftRemoveDoc_then_FindOne matches_exact sort_none
              (quiet (store * unit)) example_dao "users" bob_id bob []
              (world_of ∅ two_users)
              (matches_exact_id_outside bob_id) eq_refl)
    as (x' & Hfound & Hdel & Hat & _).
  exists x'. split; [exact Hfound|]. split; [exact Hdel|exact Hat].
Defined.

Lemma checkValid_page_in_range_witness :
  checkValid (MkPage false 0 0) "10" "5" = MkPage true 10 5 /\
  skip_calls (paged_query users (VM ∅)
                (checkValid (MkPage false 0 0) "10" "5") []) = [10] /\
  limit_calls (paged_query users (VM ∅)
                 (checkValid (MkPage false 0 0) "10" "5") []) = [5].
Proof.
  split; [reflexivity|].
  destruct (checkValid_page_in_range (MkPage false 0 0) "10" "5" users
              (VM ∅) [] eq_refl)
    as (_ & _ & Hskip & Hlimit & _).
  split; [exact Hskip|exact Hlimit].
Defined.

Lemma GridFs_round_trip_witness :
  let r := run (base_handler example_filer)
             (CreateGridFs example_dao "a.txt" "hello")
             (World ∅ (no_files, tt) []) in
  r.1 = Returned ("0123456789ab", None) /\
  (xrun example_filer (FindGridFs example_dao (VObjectId "0123456789ab"))
     (XWorld (w_env r.2) [])).1 = Returned (Some "hello", None).
Proof.
  destruct (GridFs_round_trip (xquiet (files * unit)) example_dao "a.txt"
              "hello" (World ∅ (no_files, tt) []) eq_refl)
    as [Hid Hback].
  split; [exact Hid|exact (Hback [])].
Defined.

Lemma FindGridFs_missing_witness :
  (xrun example_filer (FindGridFs example_dao (VObjectId "0123456789ab"))
     (XWorld (no_files, tt) [])).1 = Returned (None, Some ErrNotFound).
Proof.
  apply (proj1 (FindGridFs_missing (xquiet (files * unit)) example_dao
                  "0123456789ab" (XWorld (no_files, tt) []) eq_refl)).
Defined.
